(** * CC1310 flasher: the serial-bootloader protocol engine of [sbl.c]

    A shallow embedding of the functions of [sbl.c] over an abstract serial
    transport ([serial.h]), and the properties of the framing, handshake,
    response decoding and [sbl_program_binary] workflow.  The autobaud
    probe and scan, the [sbl_full_erase] command of [main.c], and the
    functions of [serial.c] over the system calls are embedded as well.

    Conventions of the embedding.
    - C integers are [Z]; unsigned arithmetic is wrapped explicitly with
      [u8], [u32] and [size_t] (64 bits, as on the POSIX hosts the tool
      targets).  Signed [int] addition that would overflow, and [%] by zero,
      are undefined behaviour in C and yield the outcome [Undefined].
    - Bytes are [Z] in [0, 256); buffers are [list Z].
    - The serial port is an abstract [Transport]: [serial_read_timeout] and
      [serial_write_all] of [serial.h].  Every call is recorded in a trace,
      and [errno] is part of the state.
    - Loops run on fuel; a loop that exhausts it yields [OutOfFuel].
    - [printf]/[fprintf]/[perror] and the progress percentage (which only
      feeds [printf]) do not influence control flow or the transport and are
      left out. *)

From Stdlib Require Import ZArith List Bool Lia Permutation.
Import ListNotations.
Local Open Scope Z_scope.

(* ================================================================== *)
(** ** Machine integers *)

Definition u8 (x : Z) : Z := x mod 2 ^ 8.
Definition u32 (x : Z) : Z := x mod 2 ^ 32.
Definition size_t (x : Z) : Z := x mod 2 ^ 64.

(** Conversion to [int], as the compilers of the target hosts do it. *)
Definition to_int (x : Z) : Z := (x + 2 ^ 31) mod 2 ^ 32 - 2 ^ 31.

Definition INT_MAX : Z := 2147483647.
Definition INT_MIN : Z := -2147483648.

Definition is_byte (b : Z) : Prop := 0 <= b < 256.
Definition is_u32 (x : Z) : Prop := 0 <= x < 2 ^ 32.

(** Length of a buffer, as the [size_t] the C code passes along with it. *)
Definition len {A} (l : list A) : Z := Z.of_nat (length l).

(* ================================================================== *)
(** ** Constants of [sbl.h] *)

Definition SBL_ACK : Z := 0xCC.
Definition SBL_NACK : Z := 0x33.

Definition CMD_PING : Z := 0x20.
Definition CMD_DOWNLOAD : Z := 0x21.
Definition CMD_GET_STATUS : Z := 0x23.
Definition CMD_SEND_DATA : Z := 0x24.
Definition CMD_RESET : Z := 0x25.
Definition CMD_SECTOR_ERASE : Z := 0x26.
Definition CMD_CRC32 : Z := 0x27.
Definition CMD_GET_CHIP_ID : Z := 0x28.

Definition COMMAND_RET_SUCCESS : Z := 0x40.
Definition COMMAND_RET_UNKNOWN_CMD : Z := 0x41.
Definition COMMAND_RET_INVALID_CMD : Z := 0x42.
Definition COMMAND_RET_INVALID_ADR : Z := 0x43.
Definition COMMAND_RET_FLASH_FAIL : Z := 0x44.

(** The [errno] values the code sets, and whatever else the system calls
    behind the transport may leave there. *)
Inductive errno_t : Type :=
| EINVAL
| EPROTO
| ETIMEDOUT
| EMSGSIZE
| EOTHER (code : Z).

(* ================================================================== *)
(** ** The serial transport ([serial.h]) *)

(** Result of one [serial_read_timeout]: [-1] with [errno] set, [0]
    (nothing arrived in time), or the bytes stored in the buffer. *)
Inductive rd_result : Type :=
| RdFail (e : errno_t)
| RdNone
| RdData (bs : list Z).

(** Result of one [serial_write_all]: all bytes written, or [-1]. *)
Inductive wr_result : Type :=
| WrOk
| WrFail (e : errno_t).

(** A transport over a world [W] (the port, the wire and the device behind
    it).  [tr_read w n t] reads up to [n] bytes within [t] milliseconds;
    as [read(2)] guarantees, it never stores more than [n] bytes, and what
    it stores are bytes. *)
Class Transport (W : Type) : Type := {
  tr_read : W -> Z -> Z -> rd_result * W;
  tr_write : W -> list Z -> wr_result * W;
  tr_read_fits : forall w n t bs w',
      tr_read w n t = (RdData bs, w') ->
      1 <= len bs <= n /\ Forall is_byte bs
}.

(** One call on the transport, as seen from the host. *)
Inductive io_event : Type :=
| EvRead (n : Z) (timeout_ms : Z)
| EvWrite (bs : list Z).

(* ================================================================== *)
(** ** Program state and the monad of the embedding *)

Record state (W : Type) : Type := mkState {
  dev : W;
  errno : errno_t;
  trace : list io_event
}.
Arguments mkState {W} _ _ _.
Arguments dev {W} _.
Arguments errno {W} _.
Arguments trace {W} _.

Inductive outcome (W A : Type) : Type :=
| Ret (a : A) (s : state W)
| OutOfFuel
| Undefined.
Arguments Ret {W A} _ _.
Arguments OutOfFuel {W A}.
Arguments Undefined {W A}.

Definition M (W A : Type) : Type := state W -> outcome W A.

Definition ret {W A} (a : A) : M W A := fun s => Ret a s.

Definition bind {W A B} (m : M W A) (f : A -> M W B) : M W B :=
  fun s => match m s with
           | Ret a s' => f a s'
           | OutOfFuel => OutOfFuel
           | Undefined => Undefined
           end.

Definition out_of_fuel {W A} : M W A := fun _ => OutOfFuel.
Definition undefined {W A} : M W A := fun _ => Undefined.

Declare Scope sbl_scope.
Delimit Scope sbl_scope with sbl.
Notation "x <- c1 ;; c2" := (bind c1 (fun x => c2))
  (at level 100, c1 at next level, right associativity) : sbl_scope.
Notation "' pat <- c1 ;; c2" := (bind c1 (fun x => match x with pat => c2 end))
  (at level 100, pat pattern, c1 at next level, right associativity) : sbl_scope.
Notation "c1 ;; c2" := (bind c1 (fun _ => c2))
  (at level 100, right associativity) : sbl_scope.
Local Open Scope sbl_scope.

Definition set_errno {W} (e : errno_t) : M W unit :=
  fun s => Ret tt (mkState (dev s) e (trace s)).

(** [int] addition; overflow is undefined behaviour. *)
Definition int_add {W} (a b : Z) : M W Z :=
  if (INT_MIN <=? a + b) && (a + b <=? INT_MAX) then ret (a + b) else undefined.

(** [uint32_t] remainder; a zero divisor is undefined behaviour. *)
Definition u32_rem {W} (a b : Z) : M W Z :=
  if b =? 0 then undefined else ret (a mod b).

Section Sbl.

Context {W : Type} {T : Transport W}.

(** [serial_read_timeout(fd, buf, len, timeout_ms)]: returns the count
    ([-1], [0] or the number of bytes) and the bytes stored in [buf]. *)
Definition serial_read_timeout (n : Z) (timeout_ms : Z) : M W (Z * list Z) :=
  fun s =>
    let tr := trace s ++ [EvRead n timeout_ms] in
    match tr_read (dev s) n timeout_ms with
    | (RdFail e, w) => Ret (-1, []) (mkState w e tr)
    | (RdNone, w) => Ret (0, []) (mkState w (errno s) tr)
    | (RdData bs, w) => Ret (len bs, bs) (mkState w (errno s) tr)
    end.

(** [serial_write_all(fd, buf, len)]: bytes written, or [-1]. *)
Definition serial_write_all (bs : list Z) : M W Z :=
  fun s =>
    let tr := trace s ++ [EvWrite bs] in
    match tr_write (dev s) bs with
    | (WrOk, w) => Ret (len bs) (mkState w (errno s) tr)
    | (WrFail e, w) => Ret (-1) (mkState w e tr)
    end.

(* ------------------------------------------------------------------ *)
(** *** [read_exact_timeout] *)

(** The loop [while (got < len)]; [buf] holds the [got] bytes read so far.
    Returns the C result ([-1], [0], [1]) and the buffer. *)
Fixpoint read_exact_loop (fuel : nat) (buf : list Z) (n : Z) (timeout_ms : Z)
  : M W (Z * list Z) :=
  match fuel with
  | O => out_of_fuel
  | S fuel' =>
      let got := len buf in
      if got <? n then
        ' (k, bs) <- serial_read_timeout (n - got) timeout_ms ;;
        if k <? 0 then ret (-1, buf)
        else if k =? 0 then ret (0, buf)
        else read_exact_loop fuel' (buf ++ bs) n timeout_ms
      else ret (1, buf)
  end.

Definition read_exact_timeout (n : Z) (timeout_ms : Z) : M W (Z * list Z) :=
  read_exact_loop (S (Z.to_nat n)) [] n timeout_ms.

(* ------------------------------------------------------------------ *)
(** *** [sbl_wait_ack] *)

Definition step_ms : Z := 20.

(** The loop [while (waited < timeout_ms)] and the two statements after
    it. *)
Fixpoint wait_ack_loop (fuel : nat) (timeout_ms waited : Z) : M W Z :=
  match fuel with
  | O => out_of_fuel
  | S fuel' =>
      if waited <? timeout_ms then
        ' (n, bs) <- serial_read_timeout 1 step_ms ;;
        let next :=
          waited' <- int_add waited step_ms ;;
          wait_ack_loop fuel' timeout_ms waited' in
        if n <? 0 then ret (-1)
        else if n =? 1 then
          let b := nth 0 bs 0 in
          if b =? SBL_ACK then ret 0
          else if b =? SBL_NACK then set_errno EPROTO ;; ret (-1)
          else next
        else next
      else
        set_errno ETIMEDOUT ;; ret (-1)
  end.

(** Number of 20 ms slices a budget of [timeout_ms] allows. *)
Definition slices (timeout_ms : Z) : nat := Z.to_nat ((timeout_ms + 19) / 20).

Definition sbl_wait_ack (timeout_ms : Z) : M W Z :=
  wait_ack_loop (S (slices timeout_ms)) timeout_ms 0.

(* ------------------------------------------------------------------ *)
(** *** [checksum_sum] and [sbl_send_cmd] *)

(** [unsigned sum], accumulated modulo 2^32, then masked to a byte. *)
Definition checksum_sum (data : list Z) : Z :=
  Z.land (fold_left (fun sum b => u32 (sum + b)) data 0) 0xFF.

(** The block of [sbl_send_cmd] that follows the ACK when the caller
    passed a buffer: read one response packet into [out].  Returns the C
    result and the bytes stored in [out]. *)
Definition read_response (out_max : Z) (timeout_ms : Z) : M W (Z * list Z) :=
  ' (r, szb) <- read_exact_timeout 1 50 ;;
  let sz := nth 0 szb 0 in
  if (r >? 0) && negb (sz =? 0) then
    ' (r2, csb) <- read_exact_timeout 1 timeout_ms ;;
    if r2 <=? 0 then ret (-1, [])
    else
      let rx_csum := nth 0 csb 0 in
      let payload_len := size_t (sz - 2) in
      if payload_len >? out_max then
        set_errno EMSGSIZE ;; ret (-1, [])
      else
        ' (r3, out) <- read_exact_timeout payload_len timeout_ms ;;
        if r3 <=? 0 then ret (-1, out)
        else
          w <- serial_write_all [0x00; SBL_ACK] ;;
          if w <? 0 then ret (-1, out)
          else if negb (checksum_sum out =? rx_csum) then
            set_errno EPROTO ;; ret (-1, out)
          else ret (to_int payload_len, out)
  else ret (0, []).

(** [sbl_send_cmd(fd, data, len, out, out_max, timeout_ms)].  [data] is a
    buffer (never [NULL]); a [NULL] [out] is [out_max = 0], the test being
    [out && out_max]. *)
Definition sbl_send_cmd (data : list Z) (out_max : Z) (timeout_ms : Z)
  : M W (Z * list Z) :=
  if (len data =? 0) || (len data >? 253) then
    set_errno EINVAL ;; ret (-1, [])
  else
    let size := u8 (len data + 2) in
    let csum := checksum_sum data in
    let frame := size :: csum :: data in
    w <- serial_write_all frame ;;
    if w <? 0 then ret (-1, [])
    else
      a <- sbl_wait_ack timeout_ms ;;
      if negb (a =? 0) then ret (-1, [])
      else if negb (out_max =? 0) then read_response out_max timeout_ms
      else ret (0, []).

(* ------------------------------------------------------------------ *)
(** *** Convenience commands *)

Definition sbl_ping (timeout_ms : Z) : M W Z :=
  ' (n, _) <- sbl_send_cmd [CMD_PING] 0 timeout_ms ;; ret n.

(** [status_out] is passed as the current value of the variable it points
    to; the result carries its value on return. *)
Definition sbl_get_status (timeout_ms : Z) (status_out : Z) : M W (Z * Z) :=
  ' (n, resp) <- sbl_send_cmd [CMD_GET_STATUS] 1 timeout_ms ;;
  if n <? 0 then ret (-1, status_out)
  else if n =? 1 then ret (0, nth 0 resp 0)
  else ret (0, status_out).

Definition sbl_get_chip_id (timeout_ms : Z) (chip_id_out : Z) : M W (Z * Z) :=
  ' (n, resp) <- sbl_send_cmd [CMD_GET_CHIP_ID] 4 timeout_ms ;;
  if n <? 0 then ret (-1, chip_id_out)
  else if n =? 4 then
    (* Little-endian 32-bit *)
    ret (0, Z.lor (Z.lor (Z.lor (nth 0 resp 0)
                                (u32 (Z.shiftl (nth 1 resp 0) 8)))
                         (u32 (Z.shiftl (nth 2 resp 0) 16)))
                  (u32 (Z.shiftl (nth 3 resp 0) 24)))
  else ret (0, chip_id_out).

Definition sbl_reset (timeout_ms : Z) : M W Z :=
  ' (n, _) <- sbl_send_cmd [CMD_RESET] 0 timeout_ms ;; ret n.

(** The four bytes of a [uint32_t], most significant first. *)
Definition be_bytes (x : Z) : list Z :=
  [u8 (Z.shiftr x 24); u8 (Z.shiftr x 16); u8 (Z.shiftr x 8); u8 x].

Definition sbl_download (addr total_len : Z) (timeout_ms : Z) : M W Z :=
  let msg := CMD_DOWNLOAD :: be_bytes addr ++ be_bytes total_len in
  ' (n, _) <- sbl_send_cmd msg 0 timeout_ms ;; ret n.

Definition sbl_sector_erase (addr : Z) (timeout_ms : Z) : M W Z :=
  let msg := CMD_SECTOR_ERASE :: be_bytes addr in
  ' (n, _) <- sbl_send_cmd msg 0 timeout_ms ;; ret n.

Definition sbl_send_data (chunk : list Z) (timeout_ms : Z) : M W Z :=
  let n := len chunk in
  if (n =? 0) || (n >? 252) then set_errno EINVAL ;; ret (-1)
  else
    let msg := CMD_SEND_DATA :: chunk in
    ' (r, _) <- sbl_send_cmd msg 0 timeout_ms ;; ret r.

Definition sbl_crc32 (addr length repeat : Z) (timeout_ms : Z) (crc_out : Z)
  : M W (Z * Z) :=
  let msg := CMD_CRC32 :: be_bytes addr ++ be_bytes length ++ be_bytes repeat in
  ' (n, resp) <- sbl_send_cmd msg 4 timeout_ms ;;
  if n <? 0 then ret (-1, crc_out)
  else if negb (n =? 4) then set_errno EPROTO ;; ret (-1, crc_out)
  else
    ret (0, Z.lor (Z.lor (Z.lor (u32 (Z.shiftl (nth 0 resp 0) 24))
                                (u32 (Z.shiftl (nth 1 resp 0) 16)))
                         (u32 (Z.shiftl (nth 2 resp 0) 8)))
                  (nth 3 resp 0)).

(* ------------------------------------------------------------------ *)
(** *** [sbl_program_binary] *)

(** [erase_len] after the two statements that compute and cap it. *)
Definition erase_length (flash_size page_size image_len base_addr : Z) : Z :=
  let erase_len :=
    u32 (Z.land (size_t (image_len + page_size - 1))
                (u32 (Z.lnot (u32 (page_size - 1))))) in
  let last_page_start := u32 (flash_size - page_size) in (* CCFG *)
  if u32 (base_addr + erase_len) >? last_page_start
  then u32 (last_page_start - base_addr)
  else erase_len.

(** [total_len]: the image length plus the padding that aligns it by 4. *)
Definition padded_length (image_len : Z) : Z :=
  let remainder := image_len mod 4 in
  if negb (remainder =? 0) then size_t (image_len + (4 - remainder))
  else image_len.

(** The erase loop.  [Some r]: the function returned [r] from inside the
    loop; [None]: the loop ran to its end. *)
Fixpoint erase_loop (fuel : nat) (a base_addr erase_len page_size : Z)
  : M W (option Z) :=
  match fuel with
  | O => out_of_fuel
  | S fuel' =>
      if a <? u32 (base_addr + erase_len) then
        r <- sbl_sector_erase a 5000 ;;
        if negb (r =? 0) then ret (Some (-1))
        else
          ' (r, st) <- sbl_get_status 1000 0 ;;
          if negb (r =? 0) then ret (Some (-1))
          else erase_loop fuel' (u32 (a + page_size)) base_addr erase_len page_size
      else ret None
  end.

(** [chunk_len] at offset [off]. *)
Definition chunk_length (total_len off : Z) : Z :=
  let chunk_len := size_t (total_len - off) in
  if chunk_len >? 252 then 252 else chunk_len.

(** The contents of [buf] once filled at offset [off]: [copy_len] bytes of
    the image, then [0xFF] up to [chunk_len]. *)
Definition chunk_at (image : list Z) (total_len off : Z) : list Z :=
  let image_len := len image in
  let chunk_len := chunk_length total_len off in
  let copy_len := chunk_len in
  let copy_len :=
    if size_t (off + copy_len) >? image_len then size_t (image_len - off)
    else copy_len in
  firstn (Z.to_nat copy_len) (skipn (Z.to_nat off) image)
    ++ repeat 0xFF (Z.to_nat (chunk_len - copy_len)).

(** The transfer loop, with the same convention as [erase_loop]. *)
Fixpoint send_loop (fuel : nat) (image : list Z) (total_len off : Z)
  : M W (option Z) :=
  match fuel with
  | O => out_of_fuel
  | S fuel' =>
      if off <? total_len then
        let chunk_len := chunk_length total_len off in
        let buf := chunk_at image total_len off in
        r <- sbl_send_data (firstn (Z.to_nat chunk_len) buf) 1000 ;;
        if negb (r =? 0) then ret (Some (-1))
        else
          ' (r, st) <- sbl_get_status 500 0 ;;
          if negb (r =? 0) then ret (Some (-1))
          else if negb (st =? 0x40) then ret (Some (-1))
          else send_loop fuel' image total_len (size_t (off + chunk_len))
      else ret None
  end.

(** [sbl_program_binary(fd, flash_size, page_size, image, image_len,
    base_addr)]; [image] is the buffer of [image_len] bytes, and [fuel]
    bounds the iterations of each of the two loops. *)
Definition sbl_program_binary (fuel : nat) (flash_size page_size : Z)
    (image : list Z) (base_addr : Z) : M W Z :=
  let image_len := len image in
  m <- u32_rem base_addr page_size ;;
  if negb (m =? 0) then ret (-1)
  else
    (* Erase only what is needed (rounded up to page size) *)
    let erase_len := erase_length flash_size page_size image_len base_addr in
    e <- erase_loop fuel base_addr base_addr erase_len page_size ;;
    match e with
    | Some r => ret r
    | None =>
        let total_len := padded_length image_len in
        r <- sbl_download base_addr (u32 total_len) 1000 ;;
        if negb (r =? 0) then ret (-1)
        else
          ' (r, st) <- sbl_get_status 500 0 ;;
          if negb (r =? 0) then ret (-1)
          else if negb (st =? 0x40) then ret (-1)
          else
            l <- send_loop fuel image total_len 0 ;;
            match l with
            | Some r => ret r
            | None =>
                (* Optional reset into app *)
                _ <- sbl_reset 1000 ;;
                ret 0
            end
    end.

End Sbl.

(* ================================================================== *)
(** ** A scripted device *)

(** What the port yields to one read: nothing within the slice, a failure
    of the system call, or the next byte from the device. *)
Inductive wire : Type :=
| Gap
| Err (e : errno_t)
| Byte (b : Z).

(** The world of a scripted device: what the successive reads will yield.
    Writes always succeed; a read on an exhausted script times out. *)
Definition script_read (w : list wire) (n : Z) (timeout_ms : Z)
  : rd_result * list wire :=
  if n <? 1 then (RdNone, w)
  else match w with
       | [] => (RdNone, [])
       | Gap :: w' => (RdNone, w')
       | Err e :: w' => (RdFail e, w')
       | Byte b :: w' => (RdData [b mod 256], w')
       end.

Definition script_write (w : list wire) (bs : list Z) : wr_result * list wire :=
  (WrOk, w).

#[export] Instance script_transport : Transport (list wire).
Proof.
  refine {| tr_read := script_read; tr_write := script_write |}.
  intros w n t bs w'. unfold script_read.
  destruct (n <? 1) eqn:Hn; [discriminate|].
  apply Z.ltb_ge in Hn.
  destruct w as [|[| e | b] w0]; try discriminate.
  intros H. inversion H; subst. split.
  - unfold len. simpl. lia.
  - constructor; [|constructor]. unfold is_byte.
    apply Z.mod_pos_bound. lia.
Defined.

(** The state in which a run against the script [w] starts. *)
Definition boot (w : list wire) : state (list wire) := mkState w (EOTHER 0) [].

(** What a device puts on the wire: the ACK of a frame, and the response
    packet [size, checksum, status] to GET_STATUS. *)
Definition dev_ack : list wire := [Byte SBL_ACK].
Definition dev_status (st : Z) : list wire :=
  [Byte SBL_ACK; Byte 3; Byte st; Byte st].

(** The response [size 6, checksum 10, payload 1 2 3 4], after the ACK. *)
Definition dev_reply_1234 : list wire :=
  [Byte SBL_ACK; Byte 6; Byte 10; Byte 1; Byte 2; Byte 3; Byte 4].

(** An image of [n] bytes. *)
Definition demo_image (n : nat) : list Z :=
  map (fun i => Z.of_nat i mod 256) (seq 0 n).

(** A device that acknowledges every frame and reports SUCCESS, over a
    programming run of [pages] pages and [chunks] chunks. *)
Definition dev_success (pages chunks : nat) : list wire :=
  concat (repeat (dev_ack ++ dev_status COMMAND_RET_SUCCESS) pages)
    ++ dev_ack ++ dev_status COMMAND_RET_SUCCESS
    ++ concat (repeat (dev_ack ++ dev_status COMMAND_RET_SUCCESS) chunks)
    ++ dev_ack.

(** The same device over two pages and [chunks] chunks, except that it
    reports FLASH_FAIL to the GET_STATUS that follows the second
    SECTOR_ERASE. *)
Definition dev_second_erase_fails (chunks : nat) : list wire :=
  dev_ack ++ dev_status COMMAND_RET_SUCCESS
    ++ dev_ack ++ dev_status COMMAND_RET_FLASH_FAIL
    ++ dev_ack ++ dev_status COMMAND_RET_SUCCESS
    ++ concat (repeat (dev_ack ++ dev_status COMMAND_RET_SUCCESS) chunks)
    ++ dev_ack.

(* ================================================================== *)
(** ** What a trace shows *)

(** The buffers handed to [serial_write_all], in order. *)
Definition writes_of (tr : list io_event) : list (list Z) :=
  flat_map (fun e => match e with EvWrite bs => [bs] | EvRead _ _ => [] end) tr.

(** The command payloads of the frames written: a frame is
    [size, checksum, payload...] with a non-empty payload, so the two-byte
    reply [0x00, 0xCC] is not one. *)
Definition cmds_of (tr : list io_event) : list (list Z) :=
  flat_map (fun bs => match bs with
                      | _ :: _ :: c :: p => [c :: p]
                      | _ => []
                      end) (writes_of tr).

(** The payloads that carry the opcode [op], without it. *)
Definition args_of (op : Z) (cmds : list (list Z)) : list (list Z) :=
  flat_map (fun c => match c with
                     | o :: p => if o =? op then [p] else []
                     | [] => []
                     end) cmds.

(** The chunks passed to SEND_DATA. *)
Definition sent_data (tr : list io_event) : list (list Z) :=
  args_of CMD_SEND_DATA (cmds_of tr).

(** The value of four bytes, most significant first. *)
Definition be_value (bs : list Z) : Z :=
  fold_left (fun acc b => acc * 256 + b) bs 0.

(** The addresses passed to SECTOR_ERASE. *)
Definition erased_pages (tr : list io_event) : list Z :=
  map be_value (args_of CMD_SECTOR_ERASE (cmds_of tr)).

(* ================================================================== *)
(** ** The handshake, as the specification words it *)

Inductive ack_verdict : Type :=
| Acked
| Rejected
| TimedOut
| IoError (e : errno_t).

(** Scan of the results of the successive one-byte reads of a budget:
    the first ACK, NACK or read error decides; anything else is skipped;
    running out of reads is the timeout. *)
Fixpoint await (rs : list rd_result) : ack_verdict :=
  match rs with
  | [] => TimedOut
  | RdFail e :: _ => IoError e
  | RdNone :: rs' => await rs'
  | RdData bs :: rs' =>
      if nth 0 bs 0 =? SBL_ACK then Acked
      else if nth 0 bs 0 =? SBL_NACK then Rejected
      else await rs'
  end.

(** How many of those reads are made before the verdict. *)
Fixpoint consumed (rs : list rd_result) : nat :=
  match rs with
  | [] => O
  | RdFail e :: _ => 1
  | RdNone :: rs' => S (consumed rs')
  | RdData bs :: rs' =>
      if nth 0 bs 0 =? SBL_ACK then 1%nat
      else if nth 0 bs 0 =? SBL_NACK then 1%nat
      else S (consumed rs')
  end.

Definition verdict_result (v : ack_verdict) : Z :=
  match v with Acked => 0 | _ => -1 end.

Definition verdict_errno (v : ack_verdict) (before : errno_t) : errno_t :=
  match v with
  | Acked => before
  | Rejected => EPROTO
  | TimedOut => ETIMEDOUT
  | IoError e => e
  end.

(** The results of [k] successive reads of one byte in 20 ms slices. *)
Fixpoint polls {W} {T : Transport W} (k : nat) (w : W) : list rd_result :=
  match k with
  | O => []
  | S k' => let (r, w') := tr_read w 1 step_ms in r :: polls k' w'
  end.

(** The world after [k] such reads. *)
Fixpoint after_polls {W} {T : Transport W} (k : nat) (w : W) : W :=
  match k with
  | O => w
  | S k' => after_polls k' (snd (tr_read w 1 step_ms))
  end.

(* ================================================================== *)
(** ** The specification's arithmetic *)

(** [round_up x m]: the least multiple of [m] that is at least [x]. *)
Definition round_up (x m : Z) : Z := (x + m - 1) / m * m.

(** The erase length as the specification computes it, over the
    integers. *)
Definition spec_erase_length (flash_size page_size image_len base_addr : Z) : Z :=
  let erase_len := round_up image_len page_size in
  if base_addr + erase_len >? flash_size - page_size
  then (flash_size - page_size) - base_addr
  else erase_len.

(* ================================================================== *)
(** ** Vocabulary of the statements *)

(** The bound on timeouts below which the wait counter cannot overflow. *)
Definition TIMEOUT_MAX : Z := 2147483640.

(** A byte or a silent slice that the wait skips. *)
Definition noise (r : rd_result) : Prop :=
  match r with
  | RdFail _ => False
  | RdNone => True
  | RdData bs => nth 0 bs 0 <> SBL_ACK /\ nth 0 bs 0 <> SBL_NACK
  end.

(** The plain sum of the bytes of a buffer. *)
Definition byte_sum (data : list Z) : Z := fold_right Z.add 0 data.

(** The frame of a command payload. *)
Definition frame_of (data : list Z) : list Z :=
  (len data + 2) :: byte_sum data mod 256 :: data.

(** [m] always returns, having sent the commands [cs]. *)
Definition sends {W} {T : Transport W} {A} (m : M W A)
           (cs : list (list Z)) : Prop :=
  forall s, exists a s' d,
      m s = Ret a s' /\ trace s' = trace s ++ d /\ cmds_of d = cs.

(** A command of the erase loop: GET_STATUS, or SECTOR_ERASE of an
    address below [bound]. *)
Definition erase_cmd (bound : Z) (c : list Z) : Prop :=
  c = [CMD_GET_STATUS] \/
  exists a, is_u32 a /\ a < bound /\ c = CMD_SECTOR_ERASE :: be_bytes a.

(** A command of the transfer loop. *)
Definition transfer_cmd (c : list Z) : Prop :=
  hd 0 c = CMD_SEND_DATA \/ c = [CMD_GET_STATUS].

(** The image followed by the [0xFF] bytes that bring it to [total_len]. *)
Definition padded_image (image : list Z) : list Z :=
  image ++ repeat 0xFF (Z.to_nat (padded_length (len image) - len image)).

(* ================================================================== *)
(** ** [serial_write_byte] and [sbl_autobaud] *)

(** Result of one [serial_write_byte]: the count that [write] returned for
    the single byte, or [-1]. *)
Inductive wrb_result : Type :=
| WbCount (n : Z)
| WbFail (e : errno_t).

(** A transport that also offers [serial_write_byte]. *)
Class ByteTransport (W : Type) {T : Transport W} : Type := {
  tr_write_byte : W -> Z -> wrb_result * W;
  tr_write_byte_fits : forall w b n w',
      tr_write_byte w b = (WbCount n, w') -> 0 <= n <= 1
}.

Section Autobaud.

Context {W : Type} {T : Transport W} {B : ByteTransport W}.

(** [serial_write_byte(fd, b)]; the call is recorded in the trace as the
    write of the one-byte buffer [b]. *)
Definition serial_write_byte (b : Z) : M W Z :=
  fun s =>
    let tr := trace s ++ [EvWrite [b]] in
    match tr_write_byte (dev s) b with
    | (WbCount n, w) => Ret n (mkState w (errno s) tr)
    | (WbFail e, w) => Ret (-1) (mkState w e tr)
    end.

(** The loop [while (elapsed < timeout_ms)] of [sbl_autobaud] and the two
    statements after it. *)
Fixpoint autobaud_loop (fuel : nat) (timeout_ms elapsed : Z) : M W Z :=
  match fuel with
  | O => out_of_fuel
  | S fuel' =>
      if elapsed <? timeout_ms then
        ' (n, bs) <- serial_read_timeout 1 step_ms ;;
        let next :=
          elapsed' <- int_add elapsed step_ms ;;
          autobaud_loop fuel' timeout_ms elapsed' in
        if n <? 0 then ret (-1)
        else if n =? 1 then
          let b := nth 0 bs 0 in
          if b =? 0xCC then ret 0
          else next
        else next
      else
        set_errno ETIMEDOUT ;; ret (-1)
  end.

(** [sbl_autobaud(fd, timeout_ms)]; the [for] loop that bursts two [0x55]
    is written out. *)
Definition sbl_autobaud (timeout_ms : Z) : M W Z :=
  let ub := 0x55 in
  w1 <- serial_write_byte ub ;;
  if negb (w1 =? 1) then ret (-1)
  else
    w2 <- serial_write_byte ub ;;
    if negb (w2 =? 1) then ret (-1)
    else autobaud_loop (S (slices timeout_ms)) timeout_ms 0.

End Autobaud.

(** The scan of [sbl_autobaud]: only the ACK and a read error decide. *)
Fixpoint await_sync (rs : list rd_result) : ack_verdict :=
  match rs with
  | [] => TimedOut
  | RdFail e :: _ => IoError e
  | RdNone :: rs' => await_sync rs'
  | RdData bs :: rs' =>
      if nth 0 bs 0 =? 0xCC then Acked else await_sync rs'
  end.

Fixpoint consumed_sync (rs : list rd_result) : nat :=
  match rs with
  | [] => O
  | RdFail e :: _ => 1
  | RdNone :: rs' => S (consumed_sync rs')
  | RdData bs :: rs' =>
      if nth 0 bs 0 =? 0xCC then 1%nat else S (consumed_sync rs')
  end.

(** What [sbl_autobaud] skips: a silent slice or any byte but [0xCC]. *)
Definition sync_noise (r : rd_result) : Prop :=
  match r with
  | RdFail _ => False
  | RdNone => True
  | RdData bs => nth 0 bs 0 <> 0xCC
  end.

(* ================================================================== *)
(** ** [sbl_autobaud_scan] *)

(** The host on which ports are opened: [serial_open_configure] on the
    fixed device path at a baud rate yields the world of the open port or
    fails with [errno]; [serial_close] takes the port back. *)
Class Host (H W : Type) : Type := {
  host_open : H -> Z -> (W + errno_t) * H;
  host_close : H -> W -> option errno_t * H
}.

(** One iteration of the scan over the candidate rates. *)
Inductive attempt : Type :=
| OpenFailed (baud : Z) (e : errno_t)
| Probed (baud : Z) (ok : Z) (io : list io_event).

Definition attempt_baud (a : attempt) : Z :=
  match a with OpenFailed b _ => b | Probed b _ _ => b end.

Record host_state (H : Type) : Type := mkHost {
  host : H;
  host_errno : errno_t;
  attempts : list attempt
}.
Arguments mkHost {H} _ _ _.
Arguments host {H} _.
Arguments host_errno {H} _.
Arguments attempts {H} _.

Inductive scan_outcome (H : Type) : Type :=
| ScanRet (rc : Z) (baud_ok : Z) (hs : host_state H)
| ScanOutOfFuel
| ScanUndefined.
Arguments ScanRet {H} _ _ _.
Arguments ScanOutOfFuel {H}.
Arguments ScanUndefined {H}.

Section Scan.

Context {H W : Type} {T : Transport W} {B : ByteTransport W} {HO : Host H W}.

(** The [for] loop over [bauds] and the [return -1] after it; [baud_ok]
    is the current value of the variable the caller passed. *)
Fixpoint autobaud_scan_loop (bauds : list Z) (timeout_ms baud_ok : Z)
         (hs : host_state H) : scan_outcome H :=
  match bauds with
  | [] => ScanRet (-1) baud_ok hs
  | b :: rest =>
      match host_open (host hs) b with
      | (inr e, h1) =>
          autobaud_scan_loop rest timeout_ms baud_ok
            (mkHost h1 e (attempts hs ++ [OpenFailed b e]))
      | (inl w, h1) =>
          (* small settle: usleep(1000 * 10) *)
          match sbl_autobaud timeout_ms (mkState w (host_errno hs) []) with
          | Ret ok s' =>
              let (ce, h2) := host_close h1 (dev s') in
              let e' := match ce with Some e => e | None => errno s' end in
              let hs' := mkHost h2 e' (attempts hs ++ [Probed b ok (trace s')]) in
              if ok =? 0 then ScanRet 0 b hs'
              else autobaud_scan_loop rest timeout_ms baud_ok hs'
          | OutOfFuel => ScanOutOfFuel
          | Undefined => ScanUndefined
          end
      end
  end.

(** [sbl_autobaud_scan(dev_path, bauds, n_bauds, timeout_ms, baud_ok)];
    the path, the array and [baud_ok] are never [NULL]. *)
Definition sbl_autobaud_scan (bauds : list Z) (timeout_ms baud_ok : Z)
           (hs : host_state H) : scan_outcome H :=
  if len bauds =? 0 then
    ScanRet (-1) baud_ok (mkHost (host hs) EINVAL (attempts hs))
  else autobaud_scan_loop bauds timeout_ms baud_ok hs.

End Scan.

(** A probe that did not find the bootloader. *)
Definition unsuccessful (a : attempt) : Prop :=
  match a with OpenFailed _ _ => True | Probed _ ok _ => ok <> 0 end.

(* ================================================================== *)
(** ** The [sbl_full_erase] command of [main] *)

Section FullErase.

Context {W : Type} {T : Transport W}.

(** The loop of the [sbl_full_erase] branch.  [status] is declared without
    an initial value: [junk a] stands for what it holds at address [a]
    before [sbl_get_status] runs.  [Some rc]: the branch left through
    [goto done] with [rc]; [None]: the loop ran to its end. *)
Fixpoint full_erase_loop (fuel : nat) (junk : Z -> Z)
         (a last_page_start page_size : Z) : M W (option Z) :=
  match fuel with
  | O => out_of_fuel
  | S fuel' =>
      if a <? last_page_start then
        r <- sbl_sector_erase a 2000 ;;
        if negb (r =? 0) then ret (Some 1)
        else
          ' (_, status) <- sbl_get_status 500 (junk a) ;;
          if status =? 0x40 then
            full_erase_loop fuel' junk (u32 (a + page_size))
                            last_page_start page_size
          else ret (Some 1)
      else ret None
  end.

(** The branch, from the two sizes parsed off the command line to the
    value of [rc] at [done]. *)
Definition main_sbl_full_erase (fuel : nat) (junk : Z -> Z)
           (flash_size page_size : Z) : M W Z :=
  let last_page_start := u32 (flash_size - page_size) in (* CCFG page *)
  e <- full_erase_loop fuel junk 0 last_page_start page_size ;;
  match e with
  | Some rc => ret rc
  | None => ret 0
  end.

End FullErase.

(* ================================================================== *)
(** ** [serial.c] over the system calls *)

Module SerialC.

(** Result of [poll] on the one descriptor: [-1], [0], or ready with
    [POLLIN] set or not in [revents]. *)
Inductive poll_result : Type :=
| PollFail (e : errno_t)
| PollTimeout
| PollReady (pollin : bool).

(** The calls [serial.c] makes on an open descriptor, over the world [O]
    behind it.  [write] accepts at most the bytes it is given and [read]
    stores at most the bytes asked for, a [size_t]. *)
Class Posix (O : Type) : Type := {
  sys_write : O -> list Z -> (Z + errno_t) * O;
  sys_tcdrain : O -> option errno_t * O;
  sys_poll : O -> Z -> poll_result * O;
  sys_read : O -> Z -> (list Z + errno_t) * O;
  is_EINTR : errno_t -> bool;
  sys_write_fits : forall o bs n o',
      sys_write o bs = (inl n, o') -> 0 <= n <= len bs;
  sys_read_fits : forall o n bs o',
      0 <= n ->
      sys_read o n = (inl bs, o') -> len bs <= n /\ Forall is_byte bs
}.

Inductive sys_event : Type :=
| SysWrite (buf : list Z) (result : Z)
| SysDrain
| SysPoll (timeout_ms : Z)
| SysRead (n : Z).

Record sys_state (O : Type) : Type := mkSys {
  os : O;
  sys_errno : errno_t;
  calls : list sys_event
}.
Arguments mkSys {O} _ _ _.
Arguments os {O} _.
Arguments sys_errno {O} _.
Arguments calls {O} _.

Section Calls.

Context {K : Type} {P : Posix K}.

(** [serial_write_byte(fd, b)]. *)
Definition serial_write_byte (b : Z) (st : sys_state K) : Z * sys_state K :=
  match sys_write (os st) [b] with
  | (inr e, o1) => (-1, mkSys o1 e (calls st ++ [SysWrite [b] (-1)]))
  | (inl n, o1) =>
      (* Ensure it's pushed out to the driver *)
      match sys_tcdrain o1 with
      | (Some e, o2) =>
          (-1, mkSys o2 e (calls st ++ [SysWrite [b] n; SysDrain]))
      | (None, o2) =>
          (to_int n,
           mkSys o2 (sys_errno st) (calls st ++ [SysWrite [b] n; SysDrain]))
      end
  end.

(** The loop [while (sent < len)] of [serial_write_all] and the
    [tcdrain] after it; [None] when the fuel runs out. *)
Fixpoint write_all_loop (fuel : nat) (buf : list Z) (sent : Z)
         (st : sys_state K) : option (Z * sys_state K) :=
  match fuel with
  | O => None
  | S fuel' =>
      if sent <? len buf then
        let rest := skipn (Z.to_nat sent) buf in
        match sys_write (os st) rest with
        | (inr e, o') =>
            let st' := mkSys o' e (calls st ++ [SysWrite rest (-1)]) in
            if is_EINTR e then write_all_loop fuel' buf sent st'
            else Some (-1, st')
        | (inl n, o') =>
            write_all_loop fuel' buf (sent + n)
              (mkSys o' (sys_errno st) (calls st ++ [SysWrite rest n]))
        end
      else
        (* Block until transmitted *)
        match sys_tcdrain (os st) with
        | (Some e, o') => Some (-1, mkSys o' e (calls st ++ [SysDrain]))
        | (None, o') =>
            Some (sent, mkSys o' (sys_errno st) (calls st ++ [SysDrain]))
        end
  end.

Definition serial_write_all (fuel : nat) (buf : list Z) (st : sys_state K)
  : option (Z * sys_state K) :=
  write_all_loop fuel buf 0 st.

(** [serial_read_timeout(fd, buf, len, timeout_ms)]: the count and the
    bytes stored in [buf]. *)
Definition serial_read_timeout (n : Z) (timeout_ms : Z) (st : sys_state K)
  : (Z * list Z) * sys_state K :=
  match sys_poll (os st) timeout_ms with
  | (PollFail e, o1) =>
      ((-1, []), mkSys o1 e (calls st ++ [SysPoll timeout_ms]))
  | (PollTimeout, o1) =>
      ((0, []), mkSys o1 (sys_errno st) (calls st ++ [SysPoll timeout_ms]))
  | (PollReady pollin, o1) =>
      if pollin then
        match sys_read o1 n with
        | (inr e, o2) =>
            ((-1, []), mkSys o2 e (calls st ++ [SysPoll timeout_ms; SysRead n]))
        | (inl bs, o2) =>
            ((len bs, bs),
             mkSys o2 (sys_errno st) (calls st ++ [SysPoll timeout_ms; SysRead n]))
        end
      else
        ((0, []), mkSys o1 (sys_errno st) (calls st ++ [SysPoll timeout_ms]))
  end.

End Calls.

(** The bytes the system accepted, call after call. *)
Definition accepted (cs : list sys_event) : list Z :=
  flat_map (fun c => match c with
                     | SysWrite buf n => firstn (Z.to_nat n) buf
                     | _ => []
                     end) cs.

Definition is_drain (c : sys_event) : bool :=
  match c with SysDrain => true | _ => false end.

(** The world after the call [c], and after the calls [cs], made from the
    world [o]. *)
Definition after_call {K} {P : Posix K} (o : K) (c : sys_event) : K :=
  match c with
  | SysWrite buf _ => snd (sys_write o buf)
  | SysDrain => snd (sys_tcdrain o)
  | SysPoll t => snd (sys_poll o t)
  | SysRead n => snd (sys_read o n)
  end.

Fixpoint after_calls {K} {P : Posix K} (o : K) (cs : list sys_event) : K :=
  match cs with
  | [] => o
  | c :: cs' => after_calls (after_call o c) cs'
  end.

(** Every [write] among the calls [cs], made from the world [o], is
    recorded with the count it returned there. *)
Fixpoint genuine {K} {P : Posix K} (o : K) (cs : list sys_event) : Prop :=
  match cs with
  | [] => True
  | c :: cs' =>
      match c with
      | SysWrite buf n =>
          match fst (sys_write o buf) with
          | inl m => n = m
          | inr _ => n = -1
          end
      | _ => True
      end /\ genuine (after_call o c) cs'
  end.

End SerialC.


(* ================================================================== *)
(** ** A scripted port and a scripted host *)

(** What one call of [serial_write_byte] meets on a scripted port. *)
Inductive tx : Type :=
| TxSent
| TxStalled
| TxErr (e : errno_t).

(** A scripted port: the outcomes of the successive one-byte writes (a
    write past the end of the list succeeds) and the script of the reads. *)
Record port : Type := mkPort {
  tx_script : list tx;
  rx_script : list wire
}.

Definition port_read (p : port) (n timeout_ms : Z) : rd_result * port :=
  let (r, w) := script_read (rx_script p) n timeout_ms in
  (r, mkPort (tx_script p) w).

Definition port_write (p : port) (bs : list Z) : wr_result * port := (WrOk, p).

Definition port_write_byte (p : port) (b : Z) : wrb_result * port :=
  match tx_script p with
  | [] => (WbCount 1, p)
  | TxSent :: ts => (WbCount 1, mkPort ts (rx_script p))
  | TxStalled :: ts => (WbCount 0, mkPort ts (rx_script p))
  | TxErr e :: ts => (WbFail e, mkPort ts (rx_script p))
  end.

#[export] Instance port_transport : Transport port.
Proof.
  refine {| tr_read := port_read; tr_write := port_write |}.
  intros p n t bs p'. unfold port_read.
  destruct (script_read (rx_script p) n t) as [r w] eqn:E.
  intros H. inversion H; subst.
  exact (@tr_read_fits _ script_transport (rx_script p) n t bs w E).
Defined.

#[export] Instance port_bytes : ByteTransport port.
Proof.
  refine {| tr_write_byte := port_write_byte |}.
  intros p b n p'. unfold port_write_byte.
  destruct (tx_script p) as [|[| |e] ts]; intros H; inversion H; lia.
Defined.

(** A scripted host: what the successive calls of [serial_open_configure]
    yield; closing a port never fails. *)
#[export] Instance script_host : Host (list (port + errno_t)) port := {|
  host_open := fun h _ =>
    match h with
    | [] => (inr (EOTHER 2), [])
    | x :: h' => (x, h')
    end;
  host_close := fun h _ => (None, h)
|}.

(* ================================================================== *)
(** ** The command script of a programming run *)

(** [n] page addresses from [a], [page_size] apart. *)
Fixpoint page_seq (n : nat) (a page_size : Z) : list Z :=
  match n with
  | O => []
  | S n' => a :: page_seq n' (a + page_size) page_size
  end.

(** The pages that start in [[base, bound)], in ascending order. *)
Definition pages_between (base bound page_size : Z) : list Z :=
  page_seq (Z.to_nat ((bound - base + page_size - 1) / page_size))
           base page_size.

(** [data] cut into pieces of 252 bytes, the last one possibly shorter. *)
Fixpoint chunks_from (n : nat) (data : list Z) : list (list Z) :=
  match n with
  | O => []
  | S n' =>
      match data with
      | [] => []
      | _ :: _ => firstn 252 data :: chunks_from n' (skipn 252 data)
      end
  end.

Definition chunks_of (data : list Z) : list (list Z) :=
  chunks_from (length data) data.

Definition erase_script (pages : list Z) : list (list Z) :=
  flat_map (fun a => [CMD_SECTOR_ERASE :: be_bytes a; [CMD_GET_STATUS]]) pages.

Definition send_script (chunks : list (list Z)) : list (list Z) :=
  flat_map (fun c => [CMD_SEND_DATA :: c; [CMD_GET_STATUS]]) chunks.

(** The commands of a complete programming run, in order. *)
Definition program_script (flash_size page_size : Z) (image : list Z)
           (base_addr : Z) : list (list Z) :=
  let erase_len := erase_length flash_size page_size (len image) base_addr in
  erase_script (pages_between base_addr (u32 (base_addr + erase_len)) page_size)
    ++ [CMD_DOWNLOAD :: be_bytes base_addr
                     ++ be_bytes (u32 (padded_length (len image)));
        [CMD_GET_STATUS]]
    ++ send_script (chunks_of (padded_image image))
    ++ [[CMD_RESET]].

(** [cs] is an initial segment of [script]. *)
Definition starts (cs script : list (list Z)) : Prop :=
  exists rest, script = cs ++ rest.

(* ================================================================== *)
(** ** A device that never runs dry *)

(** What a ROM that accepts every erase sends, over and over: the ACK of
    SECTOR_ERASE, then the ACK of GET_STATUS and the response frame that
    carries SUCCESS. *)
Definition steady_cycle : list Z :=
  [SBL_ACK; SBL_ACK; 3; COMMAND_RET_SUCCESS; COMMAND_RET_SUCCESS].

(** The world is the position in the cycle. *)
Definition steady_read (w : nat) (n timeout_ms : Z) : rd_result * nat :=
  if n <? 1 then (RdNone, w)
  else (RdData [nth w steady_cycle 0 mod 256], (S w mod 5)%nat).

Definition steady_write (w : nat) (bs : list Z) : wr_result * nat := (WrOk, w).

#[export] Instance steady_transport : Transport nat.
Proof.
  refine {| tr_read := steady_read; tr_write := steady_write |}.
  intros w n t bs w'. unfold steady_read.
  destruct (n <? 1) eqn:Hn; [discriminate|].
  apply Z.ltb_ge in Hn. intros H. inversion H; subst. split.
  - unfold len. simpl. lia.
  - constructor; [|constructor]. unfold is_byte.
    apply Z.mod_pos_bound. lia.
Defined.

(* ================================================================== *)
(** ** A scripted terminal under [serial.c] *)

(** What the receive side holds next. *)
Inductive rx_step : Type :=
| RxQuiet
| RxPollErr (e : errno_t)
| RxHangup
| RxBytes (bs : list Z)
| RxReadErr (e : errno_t).

(** A scripted terminal: [write] fails as [tty_faults] says, call after
    call, and otherwise accepts at most [tty_chunk] bytes; [tcdrain]
    answers [tty_drain]; the receive side plays [tty_rx]. *)
Record tty : Type := mkTty {
  tty_chunk : Z;
  tty_faults : list (option errno_t);
  tty_drain : option errno_t;
  tty_rx : list rx_step
}.

Definition EINTR : errno_t := EOTHER 4.

Definition tty_accept (o : tty) (bs : list Z) : Z :=
  Z.max 0 (Z.min (tty_chunk o) (len bs)).

Definition tty_write (o : tty) (bs : list Z) : (Z + errno_t) * tty :=
  match tty_faults o with
  | Some e :: fs =>
      (inr e, mkTty (tty_chunk o) fs (tty_drain o) (tty_rx o))
  | None :: fs =>
      (inl (tty_accept o bs), mkTty (tty_chunk o) fs (tty_drain o) (tty_rx o))
  | [] => (inl (tty_accept o bs), o)
  end.

Definition tty_poll (o : tty) (timeout_ms : Z) : SerialC.poll_result * tty :=
  let pop rx := mkTty (tty_chunk o) (tty_faults o) (tty_drain o) rx in
  match tty_rx o with
  | [] => (SerialC.PollTimeout, o)
  | RxQuiet :: rx => (SerialC.PollTimeout, pop rx)
  | RxPollErr e :: rx => (SerialC.PollFail e, pop rx)
  | RxHangup :: rx => (SerialC.PollReady false, pop rx)
  | RxBytes _ :: _ => (SerialC.PollReady true, o)
  | RxReadErr _ :: _ => (SerialC.PollReady true, o)
  end.

Definition tty_read (o : tty) (n : Z) : (list Z + errno_t) * tty :=
  let pop rx := mkTty (tty_chunk o) (tty_faults o) (tty_drain o) rx in
  match tty_rx o with
  | RxBytes bs :: rx =>
      let k := Z.to_nat n in
      (inl (map (fun b => b mod 256) (firstn k bs)),
       match skipn k bs with
       | [] => pop rx
       | rest => pop (RxBytes rest :: rx)
       end)
  | RxReadErr e :: rx => (inr e, pop rx)
  | _ => (inl [], o)
  end.

#[export] Instance tty_posix : SerialC.Posix tty.
Proof.
  refine {| SerialC.sys_write := tty_write;
            SerialC.sys_tcdrain := fun o => (tty_drain o, o);
            SerialC.sys_poll := tty_poll;
            SerialC.sys_read := tty_read;
            SerialC.is_EINTR := fun e =>
              match e with EOTHER 4 => true | _ => false end |}.
  - intros o bs n o'. unfold tty_write, tty_accept.
    pose proof (Nat2Z.is_nonneg (length bs)) as Hl.
    destruct (tty_faults o) as [|[e|] fs]; intros H; inversion H;
      unfold len; lia.
  - intros o n bs o' Hn. unfold tty_read.
    destruct (tty_rx o) as [|[|e| |bs0|e] rx]; intros H; inversion H; subst;
      try (split; [unfold len; simpl; lia|constructor]).
    split.
    + unfold len. rewrite length_map, length_firstn. lia.
    + apply Forall_forall. intros b Hb. apply in_map_iff in Hb.
      destruct Hb as (x & <- & _). unfold is_byte.
      apply Z.mod_pos_bound. lia.
Defined.

(* ================================================================== *)
(** ** The trace of one exchange *)

(** The lengths asked of the successive reads while [n] bytes arrive one
    at a time: [n], [n - 1], ..., 1. *)
Fixpoint countdown (n : nat) : list Z :=
  match n with
  | O => []
  | S n' => Z.of_nat n :: countdown n'
  end.

(** The trace of a command and its response on a device that sends one
    byte per read. *)
Definition exchange (data : list Z) (t : Z) (n : nat) : list io_event :=
  [EvWrite (frame_of data); EvRead 1 step_ms; EvRead 1 50; EvRead 1 t]
    ++ map (fun k => EvRead k t) (countdown n)
    ++ [EvWrite [0x00; SBL_ACK]].

(* ================================================================== *)
(** ** [serial_open_configure] *)

Module Termios.

(** The fields of [struct termios] that [serial_open_configure] sets:
    the four flag words ([tcflag_t], 32 bits) and [c_cc[VMIN]],
    [c_cc[VTIME]]; [speeds] is what else the C library keeps of the
    rates, which only [cfsetispeed] and [cfsetospeed] touch. *)
Record termios (V : Type) : Type := mkTermios {
  c_iflag : Z;
  c_oflag : Z;
  c_cflag : Z;
  c_lflag : Z;
  c_vmin : Z;
  c_vtime : Z;
  speeds : V
}.
Arguments mkTermios {V} _ _ _ _ _ _ _.
Arguments c_iflag {V} _.
Arguments c_oflag {V} _.
Arguments c_cflag {V} _.
Arguments c_lflag {V} _.
Arguments c_vmin {V} _.
Arguments c_vtime {V} _.
Arguments speeds {V} _.

(** The macros of [<termios.h>] the function names, as the file sees
    them after its [#define _POSIX_C_SOURCE 200809L]; [B n] is the macro
    [B<n>].  [CRTSCTS] is not in POSIX: it is [None] where the headers do
    not define it, and the [#else] mask is then the one compiled. *)
Class Macros : Type := {
  IGNBRK : Z; BRKINT : Z; PARMRK : Z; ISTRIP : Z;
  INLCR : Z; IGNCR : Z; ICRNL : Z;
  IXON : Z; IXOFF : Z; IXANY : Z;
  OPOST : Z;
  ECHO : Z; ECHONL : Z; ICANON : Z; ISIG : Z; IEXTEN : Z;
  CSIZE : Z; CS8 : Z; PARENB : Z; CSTOPB : Z; CRTSCTS : option Z;
  CLOCAL : Z; CREAD : Z;
  B : Z -> Z
}.

(** What the function writes to [stderr]: [perror] with one of its four
    prefixes, while [errno] is [e], or the line about the rate. *)
Inductive perror_prefix : Type :=
| AtOpen
| AtTcgetattr
| AtCfsetspeed
| AtTcsetattr.

Inductive message : Type :=
| Perror (prefix : perror_prefix) (e : errno_t)
| UnsupportedBaud (baud : Z).

(** The calls made around the descriptor, over the world [K]; [open]
    yields a descriptor that is not negative.  A call that fails leaves
    its error in [errno]; writing to [stderr] reports no failure to the
    function, but may leave another [errno] behind. *)
Class Os (K V : Type) : Type := {
  os_open : K -> (Z + errno_t) * K;
  os_stderr : K -> message -> option errno_t * K;
  os_tcgetattr : K -> Z -> (termios V + errno_t) * K;
  cfsetispeed : termios V -> Z -> termios V + errno_t;
  cfsetospeed : termios V -> Z -> termios V + errno_t;
  os_tcsetattr : K -> Z -> termios V -> option errno_t * K;
  os_tcflush : K -> Z -> option errno_t * K;
  os_close : K -> Z -> option errno_t * K;
  os_open_fd : forall o fd o', os_open o = (inl fd, o') -> 0 <= fd
}.

Inductive os_event (V : Type) : Type :=
| OsOpen
| OsStderr (m : message)
| OsGetattr (fd : Z)
| OsSetattr (fd : Z) (tio : termios V)
| OsFlush (fd : Z)
| OsClose (fd : Z).
Arguments OsOpen {V}.
Arguments OsStderr {V} _.
Arguments OsGetattr {V} _.
Arguments OsSetattr {V} _ _.
Arguments OsFlush {V} _.
Arguments OsClose {V} _.

Record os_state (K V : Type) : Type := mkOs {
  world : K;
  os_errno : errno_t;
  os_calls : list (os_event V)
}.
Arguments mkOs {K V} _ _ _.
Arguments world {K V} _.
Arguments os_errno {K V} _.
Arguments os_calls {K V} _.

(** [x &= ~m] and [x |= m] on a [tcflag_t]; the masks are [int]. *)
Definition clear_bits (x m : Z) : Z := Z.land x (u32 (Z.lnot m)).
Definition set_bits (x m : Z) : Z := Z.lor x (u32 m).

(** The rates of the [switch] of [baud_to_speed_t], with the rates under
    [#ifdef] present. *)
Definition supported_bauds : list Z :=
  [50; 75; 110; 134; 150; 200; 300; 600; 1200; 1800; 2400; 4800;
   9600; 19200; 38400; 57600; 115200; 230400; 460800; 921600].

Section Open.

Context {MC : Macros} {K V : Type} {OS : Os K V}.

(** [baud_to_speed_t(baud)]. *)
Definition baud_to_speed_t (baud : Z) : Z :=
  if existsb (Z.eqb baud) supported_bauds then B baud else 0.

(** The assignments to [tio] between [tcgetattr] and the rate. *)
Definition raw_8n1 (tio : termios V) : termios V :=
  (* Set raw mode *)
  let iflag := clear_bits (c_iflag tio)
                 (Z.lor IGNBRK (Z.lor BRKINT (Z.lor PARMRK (Z.lor ISTRIP
                    (Z.lor INLCR (Z.lor IGNCR (Z.lor ICRNL IXON))))))) in
  let oflag := clear_bits (c_oflag tio) OPOST in
  let lflag := clear_bits (c_lflag tio)
                 (Z.lor ECHO (Z.lor ECHONL (Z.lor ICANON (Z.lor ISIG IEXTEN)))) in
  let cflag := clear_bits (c_cflag tio) (Z.lor CSIZE PARENB) in
  let cflag := set_bits cflag CS8 in
  (* 8N1, enable receiver, ignore modem control lines *)
  let cflag := clear_bits cflag
                 (match CRTSCTS with
                  | Some crtscts =>
                      Z.lor PARENB (Z.lor CSTOPB (Z.lor CSIZE crtscts))
                  | None => Z.lor PARENB (Z.lor CSTOPB CSIZE)
                  end) in
  let cflag := set_bits cflag (Z.lor CS8 (Z.lor CLOCAL CREAD)) in
  (* No software flow control *)
  let iflag := clear_bits iflag (Z.lor IXON (Z.lor IXOFF IXANY)) in
  mkTermios iflag oflag cflag lflag 0 0 (speeds tio).

(** The bits the function clears in [c_iflag] and in [c_lflag], and the
    bits of [c_cflag] it assigns. *)
Definition input_mask : Z :=
  Z.lor (Z.lor IGNBRK (Z.lor BRKINT (Z.lor PARMRK (Z.lor ISTRIP
           (Z.lor INLCR (Z.lor IGNCR (Z.lor ICRNL IXON)))))))
        (Z.lor IXON (Z.lor IXOFF IXANY)).

Definition local_mask : Z :=
  Z.lor ECHO (Z.lor ECHONL (Z.lor ICANON (Z.lor ISIG IEXTEN))).

(** The bit of hardware flow control, where the function sees one. *)
Definition hw_flow : Z :=
  match CRTSCTS with
  | Some crtscts => crtscts
  | None => 0
  end.

Definition control_off : Z := Z.lor PARENB (Z.lor CSTOPB hw_flow).
Definition control_on : Z := Z.lor CLOCAL CREAD.
Definition control_mask : Z :=
  Z.lor CSIZE (Z.lor control_off (Z.lor CS8 control_on)).

(** [close(fd); return -1;] while [errno] is [e]. *)
Definition close_fail (o : K) (fd : Z) (e : errno_t)
           (cs : list (os_event V)) : Z * os_state K V :=
  let (ce, o') := os_close o fd in
  (-1, mkOs o' (match ce with Some e' => e' | None => e end)
            (cs ++ [OsClose fd])).

(** [perror(prefix); close(fd); return -1;] after a call that failed with
    [e]. *)
Definition report_close_fail (prefix : perror_prefix) (o : K) (fd : Z)
           (e : errno_t) (cs : list (os_event V)) : Z * os_state K V :=
  let m := Perror prefix e in
  let (pe, o') := os_stderr o m in
  close_fail o' fd (match pe with Some e' => e' | None => e end)
             (cs ++ [OsStderr m]).

(** [serial_open_configure(dev_path, baud)] with a [dev_path] that is not
    [NULL]. *)
Definition serial_open_configure (baud : Z) (st : os_state K V)
  : Z * os_state K V :=
  match os_open (world st) with
  | (inr e, o1) =>
      let m := Perror AtOpen e in
      let (pe, o2) := os_stderr o1 m in
      (-1, mkOs o2 (match pe with Some e' => e' | None => e end)
                (os_calls st ++ [OsOpen; OsStderr m]))
  | (inl fd, o1) =>
      let cs := os_calls st ++ [OsOpen; OsGetattr fd] in
      match os_tcgetattr o1 fd with
      | (inr e, o2) => report_close_fail AtTcgetattr o2 fd e cs
      | (inl tio, o2) =>
          let tio := raw_8n1 tio in
          (* Baud rate *)
          let spd := baud_to_speed_t baud in
          if spd =? 0 then
            let m := UnsupportedBaud baud in
            let (_, o3) := os_stderr o2 m in
            let (_, o4) := os_close o3 fd in
            (-1, mkOs o4 EINVAL (cs ++ [OsStderr m; OsClose fd]))
          else
            match cfsetispeed tio spd with
            | inr e => report_close_fail AtCfsetspeed o2 fd e cs
            | inl tio1 =>
                match cfsetospeed tio1 spd with
                | inr e => report_close_fail AtCfsetspeed o2 fd e cs
                | inl tio2 =>
                    (* Apply immediately *)
                    match os_tcsetattr o2 fd tio2 with
                    | (Some e, o3) =>
                        report_close_fail AtTcsetattr o3 fd e
                                          (cs ++ [OsSetattr fd tio2])
                    | (None, o3) =>
                        (* Clear pending I/O *)
                        let (fe, o4) := os_tcflush o3 fd in
                        (fd, mkOs o4
                               (match fe with
                                | Some e => e
                                | None => os_errno st
                                end)
                               (cs ++ [OsSetattr fd tio2; OsFlush fd]))
                    end
                end
            end
      end
  end.

(** The four flag words of [tio] are 32 bits wide. *)
Definition flags_u32 (tio : termios V) : Prop :=
  is_u32 (c_iflag tio) /\ is_u32 (c_oflag tio) /\
  is_u32 (c_cflag tio) /\ is_u32 (c_lflag tio).

(** A speed function [f] keeps the rate in the bits [imask] of [c_iflag]
    and [cmask] of [c_cflag] at most: whatever else it does, the bits
    outside them, the other two flag words and [c_cc] are as they were. *)
Definition keeps_outside (imask cmask : Z)
           (f : termios V -> Z -> termios V + errno_t) : Prop :=
  forall tio spd tio',
    flags_u32 tio -> f tio spd = inl tio' ->
    flags_u32 tio' /\
    c_oflag tio' = c_oflag tio /\ c_lflag tio' = c_lflag tio /\
    c_vmin tio' = c_vmin tio /\ c_vtime tio' = c_vtime tio /\
    forall n, 0 <= n ->
      (Z.testbit imask n = false ->
       Z.testbit (c_iflag tio') n = Z.testbit (c_iflag tio) n) /\
      (Z.testbit cmask n = false ->
       Z.testbit (c_cflag tio') n = Z.testbit (c_cflag tio) n).

End Open.

(** The values of the macros in glibc on Linux (x86) under
    [_POSIX_C_SOURCE 200809L], which hides [CRTSCTS], and a scripted
    system: the outcomes of the successive calls of [open], [tcgetattr],
    [tcsetattr], [tcflush], [close] and of the writes to [stderr], a call
    past the end of the script succeeding.  [open] yields descriptor 3 and
    [tcgetattr] the terminal [tty0], at 38400 8N1 with hardware flow
    control on; the speeds of a [termios] are its [c_ispeed] and
    [c_ospeed]. *)
Definition linux_B (baud : Z) : Z :=
  match find (fun p => fst p =? baud)
             [(50, 1); (75, 2); (110, 3); (134, 4); (150, 5); (200, 6);
              (300, 7); (600, 8); (1200, 9); (1800, 10); (2400, 11);
              (4800, 12); (9600, 13); (19200, 14); (38400, 15);
              (57600, 4097); (115200, 4098); (230400, 4099);
              (460800, 4100); (921600, 4103)] with
  | Some p => snd p
  | None => 0
  end.

#[export] Instance linux_macros : Macros := {|
  IGNBRK := 0x1; BRKINT := 0x2; PARMRK := 0x8; ISTRIP := 0x20;
  INLCR := 0x40; IGNCR := 0x80; ICRNL := 0x100;
  IXON := 0x400; IXANY := 0x800; IXOFF := 0x1000;
  OPOST := 0x1;
  ISIG := 0x1; ICANON := 0x2; ECHO := 0x8; ECHONL := 0x40;
  IEXTEN := 0x8000;
  CSIZE := 0x30; CS8 := 0x30; CSTOPB := 0x40; CREAD := 0x80;
  PARENB := 0x100; CLOCAL := 0x800; CRTSCTS := None;
  B := linux_B
|}.

Definition tty0 : termios (Z * Z) :=
  mkTermios 0x500 0x5 0x800000BF 0x8A3B 1 0 (15, 15).

Definition next_outcome (o : list (option errno_t))
  : option errno_t * list (option errno_t) :=
  match o with
  | [] => (None, [])
  | r :: o' => (r, o')
  end.

(** [cfsetispeed] and [cfsetospeed] as glibc has them on Linux: the rate
    goes into the [CBAUD] bits of [c_cflag] as well as into [c_ispeed] or
    [c_ospeed], and [cfsetispeed] keeps the bit [IBAUD0] of [c_iflag]. *)
Definition CBAUD : Z := 0x100F.
Definition IBAUD0 : Z := 0x80000000.
Definition B57600 : Z := 0x1001.
Definition MAX_BAUD : Z := 0x100F.

Definition bad_speed (spd : Z) : bool :=
  negb (Z.land spd (u32 (Z.lnot CBAUD)) =? 0)
  && ((spd <? B57600) || (MAX_BAUD <? spd)).

Definition glibc_cfsetispeed (tio : termios (Z * Z)) (spd : Z)
  : termios (Z * Z) + errno_t :=
  if bad_speed spd then inr EINVAL
  else if spd =? 0 then
    inl (mkTermios (set_bits (c_iflag tio) IBAUD0) (c_oflag tio)
                   (c_cflag tio) (c_lflag tio) (c_vmin tio) (c_vtime tio)
                   (spd, snd (speeds tio)))
  else
    inl (mkTermios (clear_bits (c_iflag tio) IBAUD0) (c_oflag tio)
                   (set_bits (clear_bits (c_cflag tio) CBAUD) spd)
                   (c_lflag tio) (c_vmin tio) (c_vtime tio)
                   (spd, snd (speeds tio))).

Definition glibc_cfsetospeed (tio : termios (Z * Z)) (spd : Z)
  : termios (Z * Z) + errno_t :=
  if bad_speed spd then inr EINVAL
  else
    inl (mkTermios (c_iflag tio) (c_oflag tio)
                   (set_bits (clear_bits (c_cflag tio) CBAUD) spd)
                   (c_lflag tio) (c_vmin tio) (c_vtime tio)
                   (fst (speeds tio), spd)).

#[export] Instance script_os : Os (list (option errno_t)) (Z * Z).
Proof.
  refine {|
    os_open := fun o =>
      match next_outcome o with
      | (Some e, o') => (inr e, o')
      | (None, o') => (inl 3, o')
      end;
    os_stderr := fun o _ => next_outcome o;
    os_tcgetattr := fun o _ =>
      match next_outcome o with
      | (Some e, o') => (inr e, o')
      | (None, o') => (inl tty0, o')
      end;
    cfsetispeed := glibc_cfsetispeed;
    cfsetospeed := glibc_cfsetospeed;
    os_tcsetattr := fun o _ _ => next_outcome o;
    os_tcflush := fun o _ => next_outcome o;
    os_close := fun o _ => next_outcome o
  |}.
  intros o fd o'. destruct (next_outcome o) as [[e|] o1]; intros H;
    inversion H; lia.
Defined.

End Termios.

(* ================================================================== *)
(** ** Devices that accept every command *)

(** A device that takes every frame and acknowledges it at the first poll:
    from a world in [I] it goes to a world in [J]. *)
Definition acks_frames {W} {T : Transport W} (I J : W -> Prop) : Prop :=
  forall w frame, I w ->
    exists w1 w2,
      tr_write w frame = (WrOk, w1) /\
      tr_read w1 1 step_ms = (RdData [SBL_ACK], w2) /\
      J w2.

(** A device that answers GET_STATUS with an ACK and the response frame
    [3, 0x40, 0x40], one byte per read, and takes the reply: from a world
    in [J] it goes back to a world in [I]. *)
Definition reports_success {W} {T : Transport W} (J I : W -> Prop) : Prop :=
  forall w t, J w ->
    exists w1 w2 w3 w4 w5 w6,
      tr_write w (frame_of [CMD_GET_STATUS]) = (WrOk, w1) /\
      tr_read w1 1 step_ms = (RdData [SBL_ACK], w2) /\
      tr_read w2 1 50 = (RdData [3], w3) /\
      tr_read w3 1 t = (RdData [COMMAND_RET_SUCCESS], w4) /\
      tr_read w4 1 t = (RdData [COMMAND_RET_SUCCESS], w5) /\
      tr_write w5 [0x00; SBL_ACK] = (WrOk, w6) /\
      I w6.

(* ================================================================== *)
(** ** Replaying reads on the transport *)

(** The results of successive reads of [reqs] bytes with timeout [t] from
    the world [w], and the world after them. *)
Fixpoint play {W} {T : Transport W} (w : W) (t : Z) (reqs : list Z)
  : list rd_result * W :=
  match reqs with
  | [] => ([], w)
  | k :: rest =>
      let (r, w1) := tr_read w k t in
      let (rs, w2) := play w1 t rest in
      (r :: rs, w2)
  end.

Definition data_of (r : rd_result) : list Z :=
  match r with RdData bs => bs | _ => [] end.

Definition is_data (r : rd_result) : Prop :=
  match r with RdData _ => True | _ => False end.

(** What [read_exact_timeout] asks of each read when [n] bytes are still
    missing and the reads yield [rs]: all that is missing. *)
Fixpoint asked (n : Z) (rs : list rd_result) : list Z :=
  match rs with
  | [] => []
  | r :: rs' => n :: asked (n - len (data_of r)) rs'
  end.
(* ================================================================== *)
(** ** Basic facts *)

(** The timeouts that [sbl_program_binary] passes are within the bound. *)
Ltac timeout_ok := unfold TIMEOUT_MAX; lia.

Lemma len_nil {A} : len (@nil A) = 0.
Proof. reflexivity. Qed.

Lemma len_cons {A} (x : A) (l : list A) : len (x :: l) = len l + 1.
Proof. unfold len. simpl length. lia. Qed.

Lemma len_app {A} (l1 l2 : list A) : len (l1 ++ l2) = len l1 + len l2.
Proof. unfold len. rewrite length_app. lia. Qed.

Lemma len_nonneg {A} (l : list A) : 0 <= len l.
Proof. unfold len. lia. Qed.

Lemma len_one {A} (l : list A) : len l = 1 -> exists x, l = [x].
Proof.
  destruct l as [|x [|y l]]; unfold len; simpl; intros H; try lia.
  now exists x.
Qed.

Lemma writes_of_app (d1 d2 : list io_event) :
  writes_of (d1 ++ d2) = writes_of d1 ++ writes_of d2.
Proof. unfold writes_of. apply flat_map_app. Qed.

Lemma cmds_of_app (d1 d2 : list io_event) :
  cmds_of (d1 ++ d2) = cmds_of d1 ++ cmds_of d2.
Proof. unfold cmds_of. rewrite writes_of_app. apply flat_map_app. Qed.

Lemma args_of_app (op : Z) (c1 c2 : list (list Z)) :
  args_of op (c1 ++ c2) = args_of op c1 ++ args_of op c2.
Proof. unfold args_of. apply flat_map_app. Qed.

Lemma writes_of_reads (k : nat) (n t : Z) :
  writes_of (repeat (EvRead n t) k) = [].
Proof. induction k; simpl; auto. Qed.

(** Inversion of a [bind] that returned. *)
Lemma bind_Ret {W A B} (m : M W A) (f : A -> M W B) (s : state W)
      (b : B) (s2 : state W) :
  bind m f s = Ret b s2 ->
  exists a s1, m s = Ret a s1 /\ f a s1 = Ret b s2.
Proof.
  unfold bind. destruct (m s) as [a s1| |]; try discriminate.
  intros H. now exists a, s1.
Qed.

Lemma bind_run {W A B} (m : M W A) (f : A -> M W B) (s s1 : state W) (a : A) :
  m s = Ret a s1 -> bind m f s = f a s1.
Proof. unfold bind. now intros ->. Qed.

(* ================================================================== *)
(** ** The ACK/NACK wait *)

Section Handshake.

Context {W : Type} {T : Transport W}.

Lemma read_one_byte (w w' : W) (t : Z) (bs : list Z) :
  tr_read w 1 t = (RdData bs, w') -> exists b, bs = [b] /\ is_byte b.
Proof.
  intros H. apply tr_read_fits in H. destruct H as [Hl Hb].
  destruct (len_one bs) as [b ->]; [lia|].
  exists b. split; auto. now inversion Hb.
Qed.

(** One run of the loop from [waited], with [k] slices of budget left. *)
Lemma wait_ack_loop_run (k : nat) :
  forall (timeout_ms waited : Z) (s : state W),
    0 <= waited -> waited mod 20 = 0 -> timeout_ms <= TIMEOUT_MAX ->
    k = Z.to_nat ((timeout_ms - waited + 19) / 20) ->
    let rs := polls k (dev s) in
    wait_ack_loop (S k) timeout_ms waited s
    = Ret (verdict_result (await rs))
          (mkState (after_polls (consumed rs) (dev s))
                   (verdict_errno (await rs) (errno s))
                   (trace s ++ repeat (EvRead 1 step_ms) (consumed rs))).
Proof.
  unfold TIMEOUT_MAX.
  induction k as [|k IH]; intros timeout_ms waited s Hw Hm Ht Hk.
  - assert (Hle : timeout_ms <= waited).
    { destruct (Z_lt_le_dec waited timeout_ms) as [Hlt|]; [|lia].
      assert (1 <= (timeout_ms - waited + 19) / 20)
        by (apply Z.div_le_lower_bound; lia).
      lia. }
    simpl. apply Z.ltb_ge in Hle. rewrite Hle.
    unfold bind, set_errno, ret. simpl. now rewrite app_nil_r.
  - assert (Hlt : waited < timeout_ms).
    { destruct (Z_lt_le_dec waited timeout_ms) as [|Hge]; [lia|].
      assert ((timeout_ms - waited + 19) / 20 <= 0).
      { apply Z.lt_succ_r. apply Z.div_lt_upper_bound; lia. }
      lia. }
    assert (Hk' : k = Z.to_nat ((timeout_ms - (waited + 20) + 19) / 20)).
    { replace (timeout_ms - (waited + 20) + 19)
        with (timeout_ms - waited + 19 + (-1) * 20) by lia.
      rewrite Z.div_add by lia. lia. }
    assert (Hadd : waited + 20 <= INT_MAX).
    { unfold INT_MAX.
      pose proof (Z.div_mod waited 20 ltac:(lia)) as Hd. rewrite Hm in Hd. lia. }
    cbn [wait_ack_loop polls].
    apply Z.ltb_lt in Hlt. rewrite Hlt.
    unfold bind at 1. unfold serial_read_timeout.
    destruct (tr_read (dev s) 1 step_ms) as [r w] eqn:Hr.
    assert (Hnext : forall s1 : state W,
               dev s1 = w -> errno s1 = errno s ->
               trace s1 = trace s ++ [EvRead 1 step_ms] ->
               (waited' <- int_add waited step_ms ;;
                wait_ack_loop (S k) timeout_ms waited') s1
               = Ret (verdict_result (await (polls k w)))
                     (mkState (after_polls (consumed (polls k w)) w)
                              (verdict_errno (await (polls k w)) (errno s))
                              (trace s ++ EvRead 1 step_ms
                                 :: repeat (EvRead 1 step_ms) (consumed (polls k w))))).
    { intros s1 Hd He Htr. unfold bind, int_add, step_ms.
      replace ((INT_MIN <=? waited + 20) && (waited + 20 <=? INT_MAX)) with true.
      2:{ symmetry. apply andb_true_iff. unfold INT_MIN.
          split; apply Z.leb_le; lia. }
      unfold ret. rewrite (IH timeout_ms (waited + 20) s1); try lia.
      - rewrite Hd, He, Htr, <- app_assoc. reflexivity.
      - rewrite <- Z.add_mod_idemp_l, Hm by lia. reflexivity. }
    destruct r as [e| |bs].
    + cbn. rewrite Hr. reflexivity.
    + cbn [Z.ltb Z.compare Z.eqb await consumed after_polls].
      rewrite Hnext by reflexivity. rewrite Hr. reflexivity.
    + destruct (read_one_byte _ _ _ _ Hr) as [b [-> Hb]].
      change (len [b]) with 1. cbn [Z.ltb Z.compare Z.eqb nth await consumed].
      destruct (b =? SBL_ACK) eqn:Hack.
      * cbn. rewrite Hr. reflexivity.
      * destruct (b =? SBL_NACK) eqn:Hnack.
        -- cbn. rewrite Hr. reflexivity.
        -- rewrite Hnext by reflexivity. cbn. rewrite Hr. reflexivity.
Qed.

Lemma polls_one_byte (k : nat) :
  forall (w : W) (bs : list Z),
    In (RdData bs) (polls k w) -> exists b, bs = [b] /\ is_byte b.
Proof.
  induction k as [|k IH]; intros w bs; simpl; [contradiction|].
  destruct (tr_read w 1 step_ms) as [r w'] eqn:Hr.
  intros [-> | Hin]; eauto using read_one_byte.
Qed.

End Handshake.

Lemma await_acked_iff (rs : list rd_result) :
  await rs = Acked <->
  exists pre bs post,
    rs = pre ++ RdData bs :: post /\ Forall noise pre /\ nth 0 bs 0 = SBL_ACK.
Proof.
  induction rs as [|r rs IH]; simpl.
  - split; [discriminate|]. intros (pre & bs & post & H & _).
    destruct pre; discriminate.
  - split.
    + destruct r as [e| |bs]; try discriminate.
      * intros H. apply IH in H. destruct H as (pre & bs & post & -> & Hn & Hb).
        exists (RdNone :: pre), bs, post. repeat split; auto.
        constructor; simpl; auto.
      * destruct (nth 0 bs 0 =? SBL_ACK) eqn:Hack.
        { intros _. apply Z.eqb_eq in Hack. exists [], bs, rs. auto. }
        destruct (nth 0 bs 0 =? SBL_NACK) eqn:Hnack; [discriminate|].
        intros H. apply IH in H. destruct H as (pre & bs0 & post & -> & Hn & Hb).
        apply Z.eqb_neq in Hack, Hnack.
        exists (RdData bs :: pre), bs0, post. repeat split; auto.
        constructor; simpl; auto.
    + intros (pre & bs & post & H & Hn & Hb).
      destruct pre as [|p pre]; simpl in H; inversion H; subst.
      * apply Z.eqb_eq in Hb. now rewrite Hb.
      * inversion Hn as [|? ? Hp Hpre]; subst.
        assert (Hrest : await (pre ++ RdData bs :: post) = Acked).
        { apply IH. exists pre, bs, post. auto. }
        destruct p as [e| |bs0]; simpl in Hp; [contradiction|exact Hrest|].
        destruct Hp as [Ha Hk]. apply Z.eqb_neq in Ha, Hk.
        now rewrite Ha, Hk.
Qed.

(** C5.  [sbl_wait_ack] against any transport: with [rs] the results of
    the reads that a budget of [timeout_ms] allows, one per 20 ms slice, the
    call returns what the scan [await rs] decides, after [consumed rs] reads
    of one byte each.  It returns 0 exactly when some read yields [0xCC]
    after nothing but silent slices and bytes other than [0xCC] and [0x33];
    on [0x33] it stops at once with -1 and [EPROTO]; on a read error it stops
    at once with -1 and the transport's [errno]; otherwise it makes all the
    reads of the budget, skipped bytes included, and returns -1 with
    [ETIMEDOUT]. *)
Theorem sbl_wait_ack_verdict {W : Type} {T : Transport W}
        (timeout_ms : Z) (s : state W) :
  timeout_ms <= TIMEOUT_MAX ->
  let rs := polls (slices timeout_ms) (dev s) in
  exists r s',
    sbl_wait_ack timeout_ms s = Ret r s' /\
    r = verdict_result (await rs) /\
    errno s' = verdict_errno (await rs) (errno s) /\
    trace s' = trace s ++ repeat (EvRead 1 20) (consumed rs) /\
    dev s' = after_polls (consumed rs) (dev s) /\
    (r = 0 <->
     exists pre post,
       rs = pre ++ RdData [SBL_ACK] :: post /\ Forall noise pre).
Proof.
  intros Ht rs. unfold sbl_wait_ack.
  rewrite (wait_ack_loop_run (slices timeout_ms) timeout_ms 0 s);
    try assumption; try lia; try reflexivity.
  2:{ unfold slices. f_equal. f_equal. lia. }
  fold rs. eexists _, _. split; [reflexivity|].
  cbn [errno trace dev]. repeat split; auto.
  - intros Hr.
    assert (Ha : await rs = Acked) by (destruct (await rs); try discriminate; auto).
    apply await_acked_iff in Ha. destruct Ha as (pre & bs & post & E & Hn & Hb).
    destruct (polls_one_byte (slices timeout_ms) (dev s) bs) as [b [-> _]].
    { fold rs. rewrite E. apply in_or_app. right. now left. }
    simpl in Hb. subst b. now exists pre, post.
  - intros (pre & post & E & Hn).
    assert (Ha : await rs = Acked).
    { apply await_acked_iff. exists pre, [SBL_ACK], post. auto. }
    now rewrite Ha.
Qed.

(** An instance: noise, a silent slice, then the ACK, within 100 ms. *)
Lemma sbl_wait_ack_verdict_witness :
  100 <= TIMEOUT_MAX /\
  exists r s',
    sbl_wait_ack 100 (boot [Byte 0; Gap; Byte SBL_ACK]) = Ret r s' /\
    r = 0 /\ errno s' = EOTHER 0 /\
    trace s' = repeat (EvRead 1 20) 3.
Proof.
  split; [unfold TIMEOUT_MAX; lia|].
  destruct (sbl_wait_ack_verdict 100 (boot [Byte 0; Gap; Byte SBL_ACK]))
    as (r & s' & E & Hr & He & Ht & _); [unfold TIMEOUT_MAX; lia|].
  exists r, s'. repeat split; assumption.
Defined.

(* ================================================================== *)
(** ** Frames *)

Lemma checksum_fold (data : list Z) :
  forall acc : Z,
    0 <= acc < 2 ^ 32 ->
    fold_left (fun sum b => u32 (sum + b)) data acc = u32 (acc + byte_sum data).
Proof.
  induction data as [|b data IH]; intros acc Hacc; simpl.
  - rewrite Z.add_0_r. unfold u32. now rewrite Z.mod_small.
  - rewrite IH by (unfold u32; apply Z.mod_pos_bound; lia).
    unfold u32. rewrite Z.add_mod_idemp_l by lia. f_equal. lia.
Qed.

(** [checksum_sum] is the sum of the bytes modulo 256. *)
Lemma checksum_sum_mod (data : list Z) :
  checksum_sum data = byte_sum data mod 256.
Proof.
  unfold checksum_sum. rewrite checksum_fold by lia. simpl (0 + _).
  change 255 with (Z.ones 8). rewrite Z.land_ones by lia.
  unfold u32. apply Z.mod_mod_divide. exists (2 ^ 24). reflexivity.
Qed.

Section Commands.

Context {W : Type} {T : Transport W}.

Lemma read_exact_loop_run (fuel : nat) :
  forall (buf : list Z) (n t : Z) (s : state W),
    (Z.to_nat (n - len buf) < fuel)%nat ->
    exists r more s' d,
      read_exact_loop fuel buf n t s = Ret (r, buf ++ more) s' /\
      trace s' = trace s ++ d /\ writes_of d = [] /\
      Forall is_byte more /\
      (r = 1 \/ r <= 0) /\
      (r = 1 -> len buf <= n -> len (buf ++ more) = n).
Proof.
  induction fuel as [|fuel IH]; intros buf n t s Hf; [lia|].
  cbn [read_exact_loop].
  destruct (len buf <? n) eqn:Hlt.
  - apply Z.ltb_lt in Hlt.
    unfold bind at 1. unfold serial_read_timeout.
    destruct (tr_read (dev s) (n - len buf) t) as [[e| |bs] w] eqn:Hr.
    + cbn. exists (-1), [], (mkState w e (trace s ++ [EvRead (n - len buf) t])),
        [EvRead (n - len buf) t].
      rewrite app_nil_r. repeat split; auto; try lia.
    + cbn. exists 0, [], (mkState w (errno s) (trace s ++ [EvRead (n - len buf) t])),
        [EvRead (n - len buf) t].
      rewrite app_nil_r. repeat split; auto; try lia.
    + apply tr_read_fits in Hr. destruct Hr as [Hl Hb].
      replace (len bs <? 0) with false by (symmetry; apply Z.ltb_ge; lia).
      replace (len bs =? 0) with false by (symmetry; apply Z.eqb_neq; lia).
      destruct (IH (buf ++ bs) n t
                   (mkState w (errno s) (trace s ++ [EvRead (n - len buf) t])))
        as (r & more & s' & d & E & Ht & Hw & Hm & Hr & Hlen).
      { rewrite len_app. lia. }
      exists r, (bs ++ more), s', (EvRead (n - len buf) t :: d).
      rewrite app_assoc. split; [exact E|].
      cbn [trace] in Ht. rewrite <- app_assoc in Ht.
      repeat split; auto.
      * apply Forall_app. auto.
      * intros H1 H2. apply Hlen; auto. rewrite len_app. lia.
  - apply Z.ltb_ge in Hlt.
    exists 1, [], s, []. rewrite !app_nil_r.
    repeat split; auto. intros _ H. lia.
Qed.

Lemma read_exact_timeout_run (n t : Z) (s : state W) :
  exists r out s' d,
    read_exact_timeout n t s = Ret (r, out) s' /\
    trace s' = trace s ++ d /\ writes_of d = [] /\
    Forall is_byte out /\
    (r = 1 \/ r <= 0) /\
    (r = 1 -> 0 <= n -> len out = n).
Proof.
  unfold read_exact_timeout.
  destruct (read_exact_loop_run (S (Z.to_nat n)) [] n t s)
    as (r & more & s' & d & E & Ht & Hw & Hm & Hr & Hlen).
  { rewrite len_nil. lia. }
  exists r, more, s', d. simpl in E, Hlen.
  repeat split; auto.
Qed.

Lemma sbl_wait_ack_run (t : Z) (s : state W) :
  t <= TIMEOUT_MAX ->
  exists r s' d,
    sbl_wait_ack t s = Ret r s' /\ trace s' = trace s ++ d /\ writes_of d = [].
Proof.
  intros Ht. unfold sbl_wait_ack.
  rewrite (wait_ack_loop_run (slices t) t 0 s);
    try assumption; try lia; try reflexivity.
  2:{ unfold slices. f_equal. f_equal. lia. }
  eexists _, _, _. split; [reflexivity|]. split; [reflexivity|].
  apply writes_of_reads.
Qed.

(** The response block always returns; it writes nothing, or the reply
    [0x00, 0xCC] once. *)
Lemma read_response_run (out_max t : Z) (s : state W) :
  exists r out s' d,
    read_response out_max t s = Ret (r, out) s' /\
    trace s' = trace s ++ d /\
    (writes_of d = [] \/ writes_of d = [[0x00; SBL_ACK]]).
Proof.
  unfold read_response.
  destruct (read_exact_timeout_run 1 50 s)
    as (r & szb & s1 & d1 & E1 & T1 & W1 & _).
  rewrite (bind_run _ _ _ _ _ E1).
  destruct ((r >? 0) && negb (nth 0 szb 0 =? 0)).
  2:{ exists 0, [], s1, d1. unfold ret. auto. }
  destruct (read_exact_timeout_run 1 t s1)
    as (r2 & csb & s2 & d2 & E2 & T2 & W2 & _).
  rewrite (bind_run _ _ _ _ _ E2).
  assert (T12 : trace s2 = trace s ++ (d1 ++ d2))
    by (rewrite T2, T1, app_assoc; reflexivity).
  assert (W12 : writes_of (d1 ++ d2) = [])
    by (rewrite writes_of_app, W1, W2; reflexivity).
  destruct (r2 <=? 0).
  { exists (-1), [], s2, (d1 ++ d2). unfold ret. auto. }
  destruct (size_t (nth 0 szb 0 - 2) >? out_max).
  { exists (-1), [], (mkState (dev s2) EMSGSIZE (trace s2)), (d1 ++ d2).
    unfold bind, set_errno, ret. auto. }
  destruct (read_exact_timeout_run (size_t (nth 0 szb 0 - 2)) t s2)
    as (r3 & out & s3 & d3 & E3 & T3 & W3 & _).
  rewrite (bind_run _ _ _ _ _ E3).
  assert (T123 : trace s3 = trace s ++ (d1 ++ d2 ++ d3))
    by (rewrite T3, T12, <- !app_assoc; reflexivity).
  assert (W123 : writes_of (d1 ++ d2 ++ d3) = [])
    by (rewrite !writes_of_app, W1, W2, W3; reflexivity).
  destruct (r3 <=? 0).
  { exists (-1), out, s3, (d1 ++ d2 ++ d3). unfold ret. auto. }
  unfold bind at 1. unfold serial_write_all.
  assert (W4 : writes_of ((d1 ++ d2 ++ d3) ++ [EvWrite [0; SBL_ACK]])
               = [[0; SBL_ACK]])
    by (rewrite writes_of_app, W123; reflexivity).
  assert (T4 : (trace s ++ d1 ++ d2 ++ d3) ++ [EvWrite [0; SBL_ACK]]
               = trace s ++ (d1 ++ d2 ++ d3) ++ [EvWrite [0; SBL_ACK]])
    by (rewrite <- app_assoc; reflexivity).
  destruct (tr_write (dev s3) [0; SBL_ACK]) as [[|e] w4].
  - change (len [0; SBL_ACK] <? 0) with false. cbv iota.
    destruct (negb (checksum_sum out =? nth 0 csb 0)).
    + eexists (-1), out, _, ((d1 ++ d2 ++ d3) ++ [EvWrite [0; SBL_ACK]]).
      unfold bind, set_errno, ret. cbn [trace dev].
      split; [reflexivity|]. rewrite T123. auto.
    + eexists _, out, _, ((d1 ++ d2 ++ d3) ++ [EvWrite [0; SBL_ACK]]).
      unfold ret. cbn [trace].
      split; [reflexivity|]. rewrite T123. auto.
  - change (-1 <? 0) with true. cbv iota.
    eexists (-1), out, _, ((d1 ++ d2 ++ d3) ++ [EvWrite [0; SBL_ACK]]).
    unfold ret. cbn [trace].
    split; [reflexivity|]. rewrite T123. auto.
Qed.

(** A valid command always returns; its frame is the first thing written,
    in one call, and nothing but the reply to a response follows. *)
Lemma sbl_send_cmd_run (data : list Z) (out_max t : Z) (s : state W) :
  1 <= len data <= 253 -> t <= TIMEOUT_MAX ->
  exists r out s' rest,
    sbl_send_cmd data out_max t s = Ret (r, out) s' /\
    trace s' = trace s ++ EvWrite (frame_of data) :: rest /\
    (writes_of rest = [] \/ writes_of rest = [[0x00; SBL_ACK]]).
Proof.
  intros Hl Ht. unfold sbl_send_cmd.
  replace ((len data =? 0) || (len data >? 253)) with false.
  2:{ symmetry. apply orb_false_iff. split; [apply Z.eqb_neq|rewrite Z.gtb_ltb; apply Z.ltb_ge]; lia. }
  assert (Hf : u8 (len data + 2) :: checksum_sum data :: data = frame_of data).
  { unfold frame_of, u8. rewrite Z.mod_small by (change (2 ^ 8) with 256; lia).
    now rewrite checksum_sum_mod. }
  rewrite Hf. unfold bind at 1. unfold serial_write_all.
  destruct (tr_write (dev s) (frame_of data)) as [[|e] w1].
  - replace (len (frame_of data) <? 0) with false
      by (symmetry; apply Z.ltb_ge, len_nonneg).
    set (s1 := mkState w1 (errno s) (trace s ++ [EvWrite (frame_of data)])).
    destruct (sbl_wait_ack_run t s1 Ht) as (a & s2 & d2 & E2 & T2 & W2).
    rewrite (bind_run _ _ _ _ _ E2).
    cbn [trace s1] in T2. rewrite <- app_assoc in T2. simpl in T2.
    destruct (negb (a =? 0)).
    { exists (-1), [], s2, d2. unfold ret. auto. }
    destruct (negb (out_max =? 0)).
    + destruct (read_response_run out_max t s2)
        as (r & out & s3 & d3 & E3 & T3 & W3).
      exists r, out, s3, (d2 ++ d3). split; [exact E3|].
      rewrite T3, T2, <- app_assoc. split; [reflexivity|].
      rewrite writes_of_app, W2. exact W3.
    + exists 0, [], s2, d2. unfold ret. auto.
  - change (-1 <? 0) with true. cbv iota.
    eexists (-1), [], _, []. unfold ret. cbn [trace]. auto.
Qed.

End Commands.

(** C6.  A command payload of 1 to 253 bytes goes out as the frame
    [len + 2, sum of the payload bytes mod 256, payload...], handed to the
    transport in a single write, the first call of the command; the only
    other write the command can make is the two-byte reply that
    acknowledges a response packet. *)
Theorem sbl_send_cmd_frame_single_write {W : Type} {T : Transport W}
        (data : list Z) (out_max timeout_ms : Z) (s : state W) :
  1 <= len data <= 253 ->
  timeout_ms <= TIMEOUT_MAX ->
  exists r s' rest,
    sbl_send_cmd data out_max timeout_ms s = Ret r s' /\
    trace s' =
      trace s ++ EvWrite ((len data + 2) :: byte_sum data mod 256 :: data) :: rest /\
    (writes_of rest = [] \/ writes_of rest = [[0x00; SBL_ACK]]).
Proof.
  intros Hl Ht.
  destruct (sbl_send_cmd_run data out_max timeout_ms s Hl Ht)
    as (r & out & s' & rest & E & Htr & Hw).
  exists (r, out), s', rest. auto.
Qed.

(** An instance: SECTOR_ERASE of page [0x1000], acknowledged. *)
Lemma sbl_send_cmd_frame_single_write_witness :
  (1 <= len [0x26; 0; 0; 0x10; 0] <= 253 /\ 1000 <= TIMEOUT_MAX) /\
  exists r s' rest,
    sbl_send_cmd [0x26; 0; 0; 0x10; 0] 0 1000 (boot dev_ack) = Ret r s' /\
    trace s' = EvWrite [7; 0x36; 0x26; 0; 0; 0x10; 0] :: rest /\
    (writes_of rest = [] \/ writes_of rest = [[0x00; SBL_ACK]]).
Proof.
  split; [split; [unfold len; simpl; lia | unfold TIMEOUT_MAX; lia]|].
  apply (sbl_send_cmd_frame_single_write
           [0x26; 0; 0; 0x10; 0] 0 1000 (boot dev_ack)).
  - unfold len; simpl; lia.
  - unfold TIMEOUT_MAX; lia.
Defined.

(** C8.  An empty payload, or one of more than 253 bytes, is refused with
    -1 and [EINVAL]; no call is made on the transport, and nothing but
    [errno] changes. *)
Theorem sbl_send_cmd_invalid_length {W : Type} {T : Transport W}
        (data : list Z) (out_max timeout_ms : Z) (s : state W) :
  len data = 0 \/ len data > 253 ->
  sbl_send_cmd data out_max timeout_ms s
  = Ret (-1, []) (mkState (dev s) EINVAL (trace s)).
Proof.
  intros Hl. unfold sbl_send_cmd.
  replace ((len data =? 0) || (len data >? 253)) with true.
  - reflexivity.
  - symmetry. apply orb_true_iff. destruct Hl as [Hl|Hl].
    + left. now apply Z.eqb_eq.
    + right. rewrite Z.gtb_ltb. apply Z.ltb_lt. lia.
Qed.

(** Instances: the empty payload and a payload of 254 bytes. *)
Lemma sbl_send_cmd_invalid_length_witness :
  (len (@nil Z) = 0 \/ len (@nil Z) > 253) /\
  sbl_send_cmd [] 4 1000 (boot dev_ack)
  = Ret (-1, []) (mkState dev_ack EINVAL []) /\
  sbl_send_cmd (repeat 0 254) 4 1000 (boot dev_ack)
  = Ret (-1, []) (mkState dev_ack EINVAL []).
Proof.
  split; [left; reflexivity|]. split.
  - apply (sbl_send_cmd_invalid_length [] 4 1000 (boot dev_ack)).
    left. reflexivity.
  - apply (sbl_send_cmd_invalid_length (repeat 0 254) 4 1000 (boot dev_ack)).
    right. unfold len. rewrite repeat_length. simpl. lia.
Defined.

(* ================================================================== *)
(** ** Responses *)

Lemma to_int_small (x : Z) : 0 <= x < 2 ^ 31 -> to_int x = x.
Proof.
  intros H. unfold to_int. rewrite Z.mod_small; lia.
Qed.

Lemma land_low_high (lo hi k : Z) :
  0 <= k -> 0 <= lo < 2 ^ k -> Z.land lo (hi * 2 ^ k) = 0.
Proof.
  intros Hk Hlo. apply Z.bits_inj'. intros n Hn.
  rewrite Z.land_spec, Z.bits_0, <- Z.shiftl_mul_pow2 by lia.
  destruct (Z_lt_le_dec n k) as [Hlt|Hge].
  - rewrite Z.shiftl_spec_low by lia. apply andb_false_r.
  - rewrite <- (Z.mod_small lo (2 ^ k)) by lia.
    rewrite Z.mod_pow2_bits_high by lia. reflexivity.
Qed.

Lemma lor_low_high (lo hi k : Z) :
  0 <= k -> 0 <= lo < 2 ^ k -> Z.lor lo (hi * 2 ^ k) = lo + hi * 2 ^ k.
Proof.
  intros Hk Hlo. rewrite <- Z.add_lor_land, land_low_high by lia. lia.
Qed.

Lemma u32_shiftl_byte (b k : Z) :
  is_byte b -> 0 <= k <= 24 -> u32 (Z.shiftl b k) = b * 2 ^ k.
Proof.
  unfold is_byte, u32. intros Hb Hk. rewrite Z.shiftl_mul_pow2 by lia.
  assert (Hp : 0 < 2 ^ k) by (apply Z.pow_pos_nonneg; lia).
  assert (Hq : 2 ^ k <= 2 ^ 24) by (apply Z.pow_le_mono_r; lia).
  apply Z.mod_small. change (2 ^ 24) with 16777216 in Hq.
  change (2 ^ 32) with 4294967296. nia.
Qed.

(** The little-endian expression of [sbl_get_chip_id]. *)
Lemma decode_le (b0 b1 b2 b3 : Z) :
  is_byte b0 -> is_byte b1 -> is_byte b2 -> is_byte b3 ->
  Z.lor (Z.lor (Z.lor b0 (u32 (Z.shiftl b1 8))) (u32 (Z.shiftl b2 16)))
        (u32 (Z.shiftl b3 24))
  = b0 + b1 * 2 ^ 8 + b2 * 2 ^ 16 + b3 * 2 ^ 24.
Proof.
  intros H0 H1 H2 H3. rewrite !u32_shiftl_byte by (auto; lia).
  unfold is_byte in *.
  rewrite (lor_low_high b0 b1 8) by lia.
  rewrite (lor_low_high (b0 + b1 * 2 ^ 8) b2 16) by lia.
  rewrite (lor_low_high (b0 + b1 * 2 ^ 8 + b2 * 2 ^ 16) b3 24) by lia.
  reflexivity.
Qed.

(** The big-endian expression of [sbl_crc32]. *)
Lemma decode_be (b0 b1 b2 b3 : Z) :
  is_byte b0 -> is_byte b1 -> is_byte b2 -> is_byte b3 ->
  Z.lor (Z.lor (Z.lor (u32 (Z.shiftl b0 24)) (u32 (Z.shiftl b1 16)))
               (u32 (Z.shiftl b2 8))) b3
  = b0 * 2 ^ 24 + b1 * 2 ^ 16 + b2 * 2 ^ 8 + b3.
Proof.
  intros H0 H1 H2 H3. rewrite !u32_shiftl_byte by (auto; lia).
  unfold is_byte in *.
  rewrite (Z.lor_comm (b0 * 2 ^ 24)).
  rewrite (lor_low_high (b1 * 2 ^ 16) b0 24) by lia.
  rewrite (Z.lor_comm _ (b2 * 2 ^ 8)).
  replace (b1 * 2 ^ 16 + b0 * 2 ^ 24)
    with ((b1 + b0 * 2 ^ 8) * 2 ^ 16) by lia.
  rewrite (lor_low_high (b2 * 2 ^ 8) (b1 + b0 * 2 ^ 8) 16) by lia.
  rewrite Z.lor_comm.
  replace (b2 * 2 ^ 8 + (b1 + b0 * 2 ^ 8) * 2 ^ 16)
    with ((b2 + b1 * 2 ^ 8 + b0 * 2 ^ 16) * 2 ^ 8) by lia.
  rewrite (lor_low_high b3 _ 8) by lia.
  lia.
Qed.

(** C9.  Given the four response bytes [b0, b1, b2, b3] that
    [sbl_send_cmd] hands back, [sbl_get_chip_id] stores
    [b0 + b1*2^8 + b2*2^16 + b3*2^24] (first byte least significant), and
    [sbl_crc32] stores [b0*2^24 + b1*2^16 + b2*2^8 + b3] (first byte most
    significant). *)
Theorem chip_id_little_endian_crc32_big_endian {W : Type} {T : Transport W}
        (b0 b1 b2 b3 : Z) (timeout_ms old : Z) (addr length repeat : Z)
        (s s1 s2 s3 : state W) :
  is_byte b0 -> is_byte b1 -> is_byte b2 -> is_byte b3 ->
  sbl_send_cmd [CMD_GET_CHIP_ID] 4 timeout_ms s = Ret (4, [b0; b1; b2; b3]) s1 ->
  sbl_send_cmd (CMD_CRC32 :: be_bytes addr ++ be_bytes length ++ be_bytes repeat)
               4 timeout_ms s2 = Ret (4, [b0; b1; b2; b3]) s3 ->
  sbl_get_chip_id timeout_ms old s
  = Ret (0, b0 + b1 * 2 ^ 8 + b2 * 2 ^ 16 + b3 * 2 ^ 24) s1 /\
  sbl_crc32 addr length repeat timeout_ms old s2
  = Ret (0, b0 * 2 ^ 24 + b1 * 2 ^ 16 + b2 * 2 ^ 8 + b3) s3.
Proof.
  intros H0 H1 H2 H3 Eid Ecrc. split.
  - unfold sbl_get_chip_id. rewrite (bind_run _ _ _ _ _ Eid).
    cbn [Z.ltb Z.eqb Z.compare Pos.eqb nth]. cbv iota.
    rewrite decode_le by assumption. reflexivity.
  - unfold sbl_crc32. rewrite (bind_run _ _ _ _ _ Ecrc).
    cbn [Z.ltb Z.eqb Z.compare Pos.eqb nth negb]. cbv iota.
    rewrite decode_be by assumption. reflexivity.
Qed.

(** An instance: the payload [0x01, 0x02, 0x03, 0x04] is [0x04030201] as a
    chip id and [0x01020304] as a CRC. *)
Lemma chip_id_little_endian_crc32_big_endian_witness :
  exists s1 s3,
    sbl_get_chip_id 1000 0 (boot dev_reply_1234) = Ret (0, 0x04030201) s1 /\
    sbl_crc32 0 0x1000 0 1000 0 (boot dev_reply_1234) = Ret (0, 0x01020304) s3.
Proof.
  eexists _, _.
  apply (chip_id_little_endian_crc32_big_endian 1 2 3 4 1000 0 0 0x1000 0
           (boot dev_reply_1234) _ (boot dev_reply_1234) _);
    try (unfold is_byte; lia); vm_compute; reflexivity.
Defined.

Section Response.

Context {W : Type} {T : Transport W}.

Lemma read_exact_one (t b : Z) (s : state W) (w : W) :
  tr_read (dev s) 1 t = (RdData [b], w) ->
  read_exact_timeout 1 t s
  = Ret (1, [b]) (mkState w (errno s) (trace s ++ [EvRead 1 t])).
Proof.
  intros Hr. unfold read_exact_timeout. simpl Z.to_nat.
  cbn [read_exact_loop]. rewrite len_nil. cbn [Z.ltb Z.compare].
  unfold bind, serial_read_timeout. change (1 - 0) with 1. rewrite Hr.
  reflexivity.
Qed.

Lemma read_exact_nothing (t : Z) (s : state W) (w : W) :
  tr_read (dev s) 1 t = (RdNone, w) ->
  read_exact_timeout 1 t s
  = Ret (0, []) (mkState w (errno s) (trace s ++ [EvRead 1 t])).
Proof.
  intros Hr. unfold read_exact_timeout. simpl Z.to_nat.
  cbn [read_exact_loop]. rewrite len_nil. cbn [Z.ltb Z.compare].
  unfold bind, serial_read_timeout. change (1 - 0) with 1. rewrite Hr.
  reflexivity.
Qed.

Lemma read_exact_failure (t : Z) (e : errno_t) (s : state W) (w : W) :
  tr_read (dev s) 1 t = (RdFail e, w) ->
  read_exact_timeout 1 t s
  = Ret (-1, []) (mkState w e (trace s ++ [EvRead 1 t])).
Proof.
  intros Hr. unfold read_exact_timeout. simpl Z.to_nat.
  cbn [read_exact_loop]. rewrite len_nil. cbn [Z.ltb Z.compare].
  unfold bind, serial_read_timeout. change (1 - 0) with 1. rewrite Hr.
  reflexivity.
Qed.

End Response.

(** C7, as the code has it.  Once the size byte [sz] of a response has
    been read: a size byte of 0 is taken as no response, and the call
    succeeds with 0 payload bytes, reading and writing nothing more.  For
    any other size byte the checksum byte is read next, and the call fails
    with -1 if it does not come; once it has come, the payload length is
    [sz - 2] in [size_t] arithmetic, and the call fails with [EMSGSIZE]
    when that exceeds the buffer, which is the case of the size byte 1;
    otherwise a success returns [sz - 2], with exactly [sz - 2] payload
    bytes whose sum mod 256 is the checksum byte. *)
Theorem read_response_size_byte {W : Type} {T : Transport W}
        (out_max timeout_ms sz : Z) (s : state W) (w1 : W) :
  tr_read (dev s) 1 50 = (RdData [sz], w1) ->
  0 <= out_max < 2 ^ 31 ->
  let s1 := mkState w1 (errno s) (trace s ++ [EvRead 1 50]) in
  let tr2 := trace s1 ++ [EvRead 1 timeout_ms] in
  (sz = 0 -> read_response out_max timeout_ms s = Ret (0, []) s1) /\
  (sz <> 0 ->
   (forall w2 : W,
       tr_read w1 1 timeout_ms = (RdNone, w2) ->
       read_response out_max timeout_ms s
       = Ret (-1, []) (mkState w2 (errno s) tr2)) /\
   (forall (e : errno_t) (w2 : W),
       tr_read w1 1 timeout_ms = (RdFail e, w2) ->
       read_response out_max timeout_ms s
       = Ret (-1, []) (mkState w2 e tr2)) /\
   (forall (c : Z) (w2 : W),
       tr_read w1 1 timeout_ms = (RdData [c], w2) ->
       (sz = 1 \/ sz - 2 > out_max ->
        read_response out_max timeout_ms s
        = Ret (-1, []) (mkState w2 EMSGSIZE tr2)) /\
       (2 <= sz <= out_max + 2 ->
        exists r out s',
          read_response out_max timeout_ms s = Ret (r, out) s' /\
          (r = -1 \/
           r = sz - 2 /\ len out = sz - 2 /\ byte_sum out mod 256 = c)))).
Proof.
  intros Hr Hom s1 tr2.
  assert (Hsz : is_byte sz).
  { apply tr_read_fits in Hr. destruct Hr as [_ Hb]. now inversion Hb. }
  unfold is_byte in Hsz.
  assert (E1 := read_exact_one 50 sz s w1 Hr). fold s1 in E1.
  split.
  { intros ->. unfold read_response. rewrite (bind_run _ _ _ _ _ E1).
    reflexivity. }
  intros Hnz.
  assert (Hpeek :
             read_response out_max timeout_ms s
             = (x <- read_exact_timeout 1 timeout_ms ;;
                let ' (r2, csb) := x in
                if r2 <=? 0 then ret (-1, [])
                else
                  let rx_csum := nth 0 csb 0 in
                  let payload_len := size_t (sz - 2) in
                  if payload_len >? out_max then
                    set_errno EMSGSIZE ;; ret (-1, [])
                  else
                    ' (r3, out) <- read_exact_timeout payload_len timeout_ms ;;
                    if r3 <=? 0 then ret (-1, out)
                    else
                      w <- serial_write_all [0x00; SBL_ACK] ;;
                      if w <? 0 then ret (-1, out)
                      else if negb (checksum_sum out =? rx_csum) then
                        set_errno EPROTO ;; ret (-1, out)
                      else ret (to_int payload_len, out)) s1).
  { unfold read_response. rewrite (bind_run _ _ _ _ _ E1).
    cbn [nth]. replace (sz =? 0) with false by (symmetry; apply Z.eqb_neq; lia).
    reflexivity. }
  split; [|split].
  { intros w2 Hr2. rewrite Hpeek.
    rewrite (bind_run _ _ _ _ _ (read_exact_nothing timeout_ms s1 w2 Hr2)).
    reflexivity. }
  { intros e w2 Hr2. rewrite Hpeek.
    rewrite (bind_run _ _ _ _ _ (read_exact_failure timeout_ms e s1 w2 Hr2)).
    reflexivity. }
  intros c w2 Hr2.
  assert (E2 := read_exact_one timeout_ms c s1 w2 Hr2).
  set (s2 := mkState w2 (errno s1) (trace s1 ++ [EvRead 1 timeout_ms])) in E2.
  rewrite Hpeek, (bind_run _ _ _ _ _ E2).
  cbn [Z.leb Z.compare nth]. cbv zeta. split.
  - intros Hbig.
    replace (size_t (sz - 2) >? out_max) with true; [reflexivity|].
    symmetry. rewrite Z.gtb_ltb. apply Z.ltb_lt. unfold size_t.
    destruct (Z.eq_dec sz 1) as [-> | Hne].
    + change ((1 - 2) mod 2 ^ 64) with (2 ^ 64 - 1). lia.
    + rewrite Z.mod_small; lia.
  - intros Hfit.
    assert (Hpl : size_t (sz - 2) = sz - 2)
      by (unfold size_t; apply Z.mod_small; lia).
    rewrite Hpl.
    replace (sz - 2 >? out_max) with false
      by (symmetry; rewrite Z.gtb_ltb; apply Z.ltb_ge; lia).
    destruct (read_exact_timeout_run (sz - 2) timeout_ms s2)
      as (r3 & out & s3 & d3 & E3 & _ & _ & _ & Hr3 & Hlen).
    rewrite (bind_run _ _ _ _ _ E3).
    destruct (r3 <=? 0) eqn:Hle.
    { exists (-1), out, s3. unfold ret. auto. }
    apply Z.leb_gt in Hle.
    assert (Hout : len out = sz - 2) by (apply Hlen; lia).
    unfold bind at 1. unfold serial_write_all.
    destruct (tr_write (dev s3) [0; SBL_ACK]) as [[|e] w4].
    + change (len [0; SBL_ACK] <? 0) with false. cbv iota.
      destruct (checksum_sum out =? c) eqn:Hc; cbn [negb].
      * apply Z.eqb_eq in Hc. rewrite checksum_sum_mod in Hc.
        eexists _, out, _. unfold ret. split; [reflexivity|].
        right. rewrite to_int_small by lia. auto.
      * eexists (-1), out, _. unfold bind, set_errno, ret.
        split; [reflexivity|]. auto.
    + change (-1 <? 0) with true. cbv iota.
      eexists (-1), out, _. unfold ret. split; [reflexivity|]. auto.
Qed.

(** An instance: GET_STATUS read with a one-byte buffer, the device
    sending the size byte 3. *)
Lemma read_response_size_byte_witness :
  (script_read [Byte 3; Byte 0x40; Byte 0x40] 1 50
   = (RdData [3], [Byte 0x40; Byte 0x40]) /\ 0 <= 1 < 2 ^ 31) /\
  exists r out s',
    read_response 1 500 (boot [Byte 3; Byte 0x40; Byte 0x40]) = Ret (r, out) s' /\
    (r = -1 \/ r = 3 - 2 /\ len out = 3 - 2 /\ byte_sum out mod 256 = 0x40).
Proof.
  assert (H1 : script_read [Byte 3; Byte 0x40; Byte 0x40] 1 50
               = (RdData [3], [Byte 0x40; Byte 0x40])) by reflexivity.
  assert (H2 : 0 <= 1 < 2 ^ 31) by lia.
  split; [split; assumption|].
  refine (proj2 (proj2 (proj2 (proj2 (read_response_size_byte 1 500 3
                   (boot [Byte 3; Byte 0x40; Byte 0x40])
                   [Byte 0x40; Byte 0x40] H1 H2) _))
                   0x40 [Byte 0x40] _) _).
  - lia.
  - reflexivity.
  - lia.
Defined.

(** C7 does not hold as stated: after the ACK of GET_STATUS, a size byte
    of 0 does not make [sbl_send_cmd] fail; it returns 0, a success with no
    payload, and [errno] is left as it was. *)
Lemma size_byte_zero_counterexample :
  0 < 2 /\
  sbl_send_cmd [CMD_GET_STATUS] 1 500 (boot [Byte SBL_ACK; Byte 0])
  = Ret (0, [])
        (mkState [] (EOTHER 0)
                 [EvWrite [3; 0x23; 0x23]; EvRead 1 20; EvRead 1 50]).
Proof. split; [lia | vm_compute; reflexivity]. Qed.

(* ================================================================== *)
(** ** The erase length *)

Lemma pow2_mask (k : Z) :
  0 <= k < 32 -> u32 (Z.lnot (u32 (2 ^ k - 1))) = 2 ^ 32 - 2 ^ k.
Proof.
  intros Hk. unfold u32.
  assert (Hp : 0 < 2 ^ k) by (apply Z.pow_pos_nonneg; lia).
  assert (Hq : 2 ^ k <= 2 ^ 31) by (apply Z.pow_le_mono_r; lia).
  change (2 ^ 31) with 2147483648 in Hq. change (2 ^ 32) with 4294967296.
  rewrite (Z.mod_small (2 ^ k - 1)) by lia.
  rewrite Z.lnot_pred.
  replace (- 2 ^ k) with (4294967296 - 2 ^ k + (-1) * 4294967296) by lia.
  rewrite Z.mod_add by lia. apply Z.mod_small. lia.
Qed.

(** Masking with [~(2^k - 1)] in 32 bits keeps the multiple of [2^k] at or
    below the low 32 bits of [x]. *)
Lemma land_pow2_mask (x k : Z) :
  0 <= k < 32 ->
  Z.land x (2 ^ 32 - 2 ^ k) = (x mod 2 ^ 32) / 2 ^ k * 2 ^ k.
Proof.
  intros Hk.
  replace (2 ^ 32 - 2 ^ k) with (Z.shiftl (Z.ones (32 - k)) k).
  2:{ rewrite Z.shiftl_mul_pow2, Z.ones_equiv by lia.
      rewrite <- Z.sub_1_r, Z.mul_sub_distr_r, <- Z.pow_add_r by lia.
      replace (32 - k + k) with 32 by lia. lia. }
  rewrite <- Z.shiftl_mul_pow2, <- Z.shiftr_div_pow2 by lia.
  apply Z.bits_inj'. intros n Hn.
  rewrite Z.land_spec.
  destruct (Z_lt_le_dec n k) as [Hlt|Hge].
  - rewrite !Z.shiftl_spec_low by lia. apply andb_false_r.
  - rewrite !Z.shiftl_spec by lia. rewrite Z.shiftr_spec by lia.
    replace (n - k + k) with n by lia.
    destruct (Z_lt_le_dec n 32) as [Hlt|Hge32].
    + rewrite Z.ones_spec_low by lia.
      rewrite Z.mod_pow2_bits_low by lia. apply andb_true_r.
    + rewrite Z.ones_spec_high by lia.
      rewrite Z.mod_pow2_bits_high by lia. apply andb_false_r.
Qed.

(** Rounding down the low 32 bits to a multiple of [2^k] is rounding down,
    then keeping the low 32 bits. *)
Lemma round_down_u32 (y k : Z) :
  0 <= k < 32 ->
  (y mod 2 ^ 32) / 2 ^ k * 2 ^ k = u32 (y / 2 ^ k * 2 ^ k).
Proof.
  intros Hk. unfold u32.
  assert (Hp : 0 < 2 ^ k) by (apply Z.pow_pos_nonneg; lia).
  assert (Hm : 0 < 2 ^ (32 - k)) by (apply Z.pow_pos_nonneg; lia).
  replace (2 ^ 32) with (2 ^ k * 2 ^ (32 - k))
    by (rewrite <- Z.pow_add_r by lia; f_equal; lia).
  rewrite Z.rem_mul_r by lia.
  rewrite (Z.mul_comm (2 ^ k) (2 ^ (32 - k))).
  rewrite Z.mul_mod_distr_r by lia.
  f_equal.
  rewrite Z.add_comm, Z.mul_comm, Z.div_add_l by lia.
  rewrite (Z.div_small (y mod 2 ^ k)) by (apply Z.mod_pos_bound; lia).
  lia.
Qed.

(** The mask idiom on a power of two is the round-up, in 32 bits. *)
Lemma round_up_mask (image_len k : Z) :
  0 <= k < 32 -> 0 <= image_len -> image_len + 2 ^ k <= 2 ^ 64 ->
  u32 (Z.land (size_t (image_len + 2 ^ k - 1))
              (u32 (Z.lnot (u32 (2 ^ k - 1)))))
  = u32 (round_up image_len (2 ^ k)).
Proof.
  intros Hk Hi Hb.
  assert (Hp : 0 < 2 ^ k) by (apply Z.pow_pos_nonneg; lia).
  rewrite pow2_mask by assumption.
  unfold size_t. rewrite (Z.mod_small (image_len + 2 ^ k - 1)) by lia.
  rewrite land_pow2_mask, round_down_u32 by assumption.
  unfold round_up, u32. apply Z.mod_mod. lia.
Qed.

(** C3 does not hold for every [page_size > 0]: with a page size of 3
    the mask idiom does not round 1 up to 3. *)
Lemma erase_length_round_up_counterexample :
  0 < 3 /\ 0 mod 3 = 0 /\
  erase_length 0x20000 3 1 0 = 1 /\
  spec_erase_length 0x20000 3 1 0 = 3.
Proof. repeat split; vm_compute; reflexivity. Qed.

(** C3, as the code has it.  For a page size that is a power of two (and
    an image length that the [size_t] sum does not wrap), [erase_len] is
    first the round-up of [image_len] to [page_size], then capped as the
    specification says, every sum and difference taken modulo 2^32.  When
    furthermore [page_size <= flash_size], [base_addr <= flash_size -
    page_size] and [base_addr + round_up(image_len, page_size) < 2^32],
    nothing wraps, and it is the specification's value over the integers.
    For flash 0x20000, page 0x1000, image length 0x1500 and base 0 it is
    0x2000, the cap not applying. *)
Theorem erase_length_power_of_two
        (flash_size page_size image_len base_addr k : Z) :
  0 <= k < 32 -> page_size = 2 ^ k ->
  0 <= image_len -> image_len + page_size <= 2 ^ 64 ->
  is_u32 flash_size -> is_u32 base_addr ->
  erase_length flash_size page_size image_len base_addr
  = (let erase_len := u32 (round_up image_len page_size) in
     if u32 (base_addr + erase_len) >? u32 (flash_size - page_size)
     then u32 (u32 (flash_size - page_size) - base_addr)
     else erase_len) /\
  (page_size <= flash_size ->
   base_addr <= flash_size - page_size ->
   base_addr + round_up image_len page_size < 2 ^ 32 ->
   erase_length flash_size page_size image_len base_addr
   = spec_erase_length flash_size page_size image_len base_addr) /\
  erase_length 0x20000 0x1000 0x1500 0 = 0x2000 /\
  0 + round_up 0x1500 0x1000 <= 0x20000 - 0x1000.
Proof.
  intros Hk -> Hi Hb Hfs Hba.
  assert (Hp : 0 < 2 ^ k) by (apply Z.pow_pos_nonneg; lia).
  assert (E : erase_length flash_size (2 ^ k) image_len base_addr
              = (let erase_len := u32 (round_up image_len (2 ^ k)) in
                 if u32 (base_addr + erase_len) >? u32 (flash_size - 2 ^ k)
                 then u32 (u32 (flash_size - 2 ^ k) - base_addr)
                 else erase_len)).
  { unfold erase_length. rewrite round_up_mask by assumption. reflexivity. }
  split; [exact E|]. split; [|split; vm_compute; [reflexivity|discriminate]].
  intros Hle Hbase Hsum. rewrite E. unfold spec_erase_length. cbv zeta.
  unfold is_u32 in *.
  assert (Hr : 0 <= round_up image_len (2 ^ k)).
  { unfold round_up. apply Z.mul_nonneg_nonneg; [|lia].
    apply Z.div_pos; lia. }
  unfold u32.
  rewrite (Z.mod_small (round_up image_len (2 ^ k))) by lia.
  rewrite (Z.mod_small (base_addr + _)) by lia.
  rewrite (Z.mod_small (flash_size - 2 ^ k)) by lia.
  destruct (base_addr + round_up image_len (2 ^ k) >? flash_size - 2 ^ k);
    [|reflexivity].
  apply Z.mod_small. lia.
Qed.

(** An instance: the example of the specification. *)
Lemma erase_length_power_of_two_witness :
  erase_length 0x20000 0x1000 0x1500 0
  = spec_erase_length 0x20000 0x1000 0x1500 0 /\
  spec_erase_length 0x20000 0x1000 0x1500 0 = 0x2000.
Proof.
  split; [|reflexivity].
  refine (proj1 (proj2 (erase_length_power_of_two
                          0x20000 0x1000 0x1500 0 12 _ _ _ _ _ _)) _ _ _);
    try reflexivity; try (unfold is_u32; lia); try lia;
    vm_compute; reflexivity || discriminate.
Defined.

(* ================================================================== *)
(** ** What the commands put on the wire *)

Lemma be_value_be_bytes (a : Z) : is_u32 a -> be_value (be_bytes a) = a.
Proof.
  unfold is_u32, be_value, be_bytes, u8. intros Ha. cbn [fold_left].
  rewrite !Z.shiftr_div_pow2 by lia.
  change (2 ^ 32) with 4294967296 in Ha.
  change (2 ^ 24) with 16777216. change (2 ^ 16) with 65536.
  change (2 ^ 8) with 256.
  Z.div_mod_to_equations. lia.
Qed.

Lemma cmds_of_quiet (d : list io_event) :
  writes_of d = [] \/ writes_of d = [[0x00; SBL_ACK]] -> cmds_of d = [].
Proof. unfold cmds_of. intros [-> | ->]; reflexivity. Qed.

Lemma cmds_of_frame (data : list Z) (rest : list io_event) :
  1 <= len data ->
  writes_of rest = [] \/ writes_of rest = [[0x00; SBL_ACK]] ->
  cmds_of (EvWrite (frame_of data) :: rest) = [data].
Proof.
  intros Hl Hr.
  change (EvWrite (frame_of data) :: rest)
    with ([EvWrite (frame_of data)] ++ rest).
  rewrite cmds_of_app, (cmds_of_quiet rest Hr), app_nil_r.
  destruct data as [|c p]; [rewrite len_nil in Hl; lia|]. reflexivity.
Qed.

Section Wire.

Context {W : Type} {T : Transport W}.

Lemma sbl_send_cmd_sends (data : list Z) (out_max t : Z) :
  1 <= len data <= 253 -> t <= TIMEOUT_MAX ->
  sends (sbl_send_cmd data out_max t) [data].
Proof.
  intros Hl Ht s.
  destruct (sbl_send_cmd_run data out_max t s Hl Ht)
    as (r & out & s' & rest & E & Htr & Hw).
  exists (r, out), s', (EvWrite (frame_of data) :: rest).
  repeat split; auto. apply cmds_of_frame; [lia | exact Hw].
Qed.

Lemma len_be_bytes (x : Z) : len (be_bytes x) = 4.
Proof. reflexivity. Qed.

Lemma sbl_sector_erase_sends (addr t : Z) :
  t <= TIMEOUT_MAX ->
  sends (sbl_sector_erase addr t) [CMD_SECTOR_ERASE :: be_bytes addr].
Proof.
  intros Ht s. unfold sbl_sector_erase.
  destruct (sbl_send_cmd_sends (CMD_SECTOR_ERASE :: be_bytes addr) 0 t)
    with (s := s) as ([r out] & s' & d & E & Htr & Hc); auto.
  { rewrite len_cons, len_be_bytes. lia. }
  exists r, s', d. rewrite (bind_run _ _ _ _ _ E). auto.
Qed.

Lemma sbl_download_sends (addr total_len t : Z) :
  t <= TIMEOUT_MAX ->
  sends (sbl_download addr total_len t)
        [CMD_DOWNLOAD :: be_bytes addr ++ be_bytes total_len].
Proof.
  intros Ht s. unfold sbl_download.
  destruct (sbl_send_cmd_sends
              (CMD_DOWNLOAD :: be_bytes addr ++ be_bytes total_len) 0 t)
    with (s := s) as ([r out] & s' & d & E & Htr & Hc); auto.
  { rewrite len_cons, len_app, !len_be_bytes. lia. }
  exists r, s', d. rewrite (bind_run _ _ _ _ _ E). auto.
Qed.

Lemma sbl_reset_sends (t : Z) :
  t <= TIMEOUT_MAX -> sends (sbl_reset t) [[CMD_RESET]].
Proof.
  intros Ht s. unfold sbl_reset.
  destruct (sbl_send_cmd_sends [CMD_RESET] 0 t)
    with (s := s) as ([r out] & s' & d & E & Htr & Hc); auto.
  { unfold len; simpl; lia. }
  exists r, s', d. rewrite (bind_run _ _ _ _ _ E). auto.
Qed.

Lemma sbl_get_status_sends (t st : Z) :
  t <= TIMEOUT_MAX -> sends (sbl_get_status t st) [[CMD_GET_STATUS]].
Proof.
  intros Ht s. unfold sbl_get_status.
  destruct (sbl_send_cmd_sends [CMD_GET_STATUS] 1 t)
    with (s := s) as ([r out] & s' & d & E & Htr & Hc); auto.
  { unfold len; simpl; lia. }
  rewrite (bind_run _ _ _ _ _ E).
  destruct (r <? 0); [|destruct (r =? 1)];
    eexists _, s', d; unfold ret; auto.
Qed.

Lemma sbl_send_data_sends (chunk : list Z) (t : Z) :
  1 <= len chunk <= 252 -> t <= TIMEOUT_MAX ->
  sends (sbl_send_data chunk t) [CMD_SEND_DATA :: chunk].
Proof.
  intros Hl Ht s. unfold sbl_send_data.
  replace ((len chunk =? 0) || (len chunk >? 252)) with false.
  2:{ symmetry. apply orb_false_iff.
      split; [apply Z.eqb_neq|rewrite Z.gtb_ltb; apply Z.ltb_ge]; lia. }
  destruct (sbl_send_cmd_sends (CMD_SEND_DATA :: chunk) 0 t)
    with (s := s) as ([r out] & s' & d & E & Htr & Hc); auto.
  { rewrite len_cons. lia. }
  exists r, s', d. rewrite (bind_run _ _ _ _ _ E). auto.
Qed.

(** [sbl_send_data] returns whatever the chunk. *)
Lemma sbl_send_data_returns (chunk : list Z) (t : Z) (s : state W) :
  t <= TIMEOUT_MAX -> exists r s', sbl_send_data chunk t s = Ret r s'.
Proof.
  intros Ht.
  destruct (Z_le_gt_dec 1 (len chunk)) as [H1|H1];
    [destruct (Z_le_gt_dec (len chunk) 252) as [H2|H2]|].
  - destruct (sbl_send_data_sends chunk t ltac:(lia) Ht s)
      as (r & s' & _ & E & _).
    now exists r, s'.
  - unfold sbl_send_data.
    replace ((len chunk =? 0) || (len chunk >? 252)) with true.
    + eexists _, _. reflexivity.
    + symmetry. apply orb_true_iff. right. rewrite Z.gtb_ltb.
      apply Z.ltb_lt. lia.
  - unfold sbl_send_data.
    replace ((len chunk =? 0) || (len chunk >? 252)) with true.
    + eexists _, _. reflexivity.
    + symmetry. apply orb_true_iff. left. apply Z.eqb_eq.
      pose proof (len_nonneg chunk). lia.
Qed.

(* ------------------------------------------------------------------ *)
(** *** The erase loop *)

Lemma erase_loop_cmds (fuel : nat) :
  forall (a base_addr erase_len page_size : Z) (s s' : state W) (r : option Z),
    is_u32 a ->
    erase_loop fuel a base_addr erase_len page_size s = Ret r s' ->
    (r = None \/ r = Some (-1)) /\
    exists d, trace s' = trace s ++ d /\
              Forall (erase_cmd (u32 (base_addr + erase_len))) (cmds_of d).
Proof.
  induction fuel as [|fuel IH]; intros a ba el ps s s' r Ha E; [discriminate|].
  cbn [erase_loop] in E.
  destruct (a <? u32 (ba + el)) eqn:Hlt.
  2:{ inversion E; subst. split; [now left|].
      exists []. rewrite app_nil_r. split; auto. }
  apply Z.ltb_lt in Hlt.
  destruct (sbl_sector_erase_sends a 5000 ltac:(timeout_ok) s)
    as (r1 & s1 & d1 & E1 & T1 & C1).
  rewrite (bind_run _ _ _ _ _ E1) in E.
  assert (F1 : Forall (erase_cmd (u32 (ba + el))) (cmds_of d1)).
  { rewrite C1. constructor; [|constructor]. right. exists a. auto. }
  destruct (negb (r1 =? 0)).
  { inversion E; subst. split; [now right|]. exists d1. auto. }
  destruct (sbl_get_status_sends 1000 0 ltac:(timeout_ok) s1)
    as ([r2 st] & s2 & d2 & E2 & T2 & C2).
  rewrite (bind_run _ _ _ _ _ E2) in E.
  assert (F2 : Forall (erase_cmd (u32 (ba + el))) (cmds_of (d1 ++ d2))).
  { rewrite cmds_of_app. apply Forall_app. split; [exact F1|].
    rewrite C2. constructor; [|constructor]. now left. }
  assert (T12 : trace s2 = trace s ++ d1 ++ d2)
    by (rewrite T2, T1, app_assoc; reflexivity).
  destruct (negb (r2 =? 0)).
  { inversion E; subst. split; [now right|]. exists (d1 ++ d2). auto. }
  apply IH in E.
  2:{ unfold is_u32, u32. apply Z.mod_pos_bound. lia. }
  destruct E as (Hr & d3 & T3 & F3). split; [exact Hr|].
  exists ((d1 ++ d2) ++ d3). split.
  - rewrite T3, T12, <- !app_assoc. reflexivity.
  - rewrite cmds_of_app. apply Forall_app. auto.
Qed.

Lemma erase_loop_defined (fuel : nat) :
  forall (a base_addr erase_len page_size : Z) (s : state W),
    erase_loop fuel a base_addr erase_len page_size s <> Undefined.
Proof.
  induction fuel as [|fuel IH]; intros a ba el ps s; [discriminate|].
  cbn [erase_loop].
  destruct (a <? u32 (ba + el)); [|discriminate].
  destruct (sbl_sector_erase_sends a 5000 ltac:(timeout_ok) s)
    as (r1 & s1 & d1 & E1 & _).
  rewrite (bind_run _ _ _ _ _ E1).
  destruct (negb (r1 =? 0)); [discriminate|].
  destruct (sbl_get_status_sends 1000 0 ltac:(timeout_ok) s1)
    as ([r2 st] & s2 & d2 & E2 & _).
  rewrite (bind_run _ _ _ _ _ E2).
  destruct (negb (r2 =? 0)); [discriminate|]. apply IH.
Qed.

End Wire.

(* ================================================================== *)
(** ** The transfer loop *)

Lemma firstn_repeat {A} (x : A) (n p : nat) :
  firstn n (repeat x p) = repeat x (Nat.min n p).
Proof.
  revert p. induction n as [|n IH]; intros [|p]; simpl; auto.
  now rewrite IH.
Qed.

(** A chunk of [c] elements at offset [o]: the [copy] elements the image
    still has there, then padding, is the slice of the padded image. *)
Lemma chunk_slice {A} (x : A) (image : list A) (o c p : nat) :
  (o <= length image)%nat -> (o + c <= length image + p)%nat ->
  let copy := Nat.min c (length image - o) in
  firstn copy (skipn o image) ++ repeat x (c - copy)
  = firstn c (skipn o (image ++ repeat x p)).
Proof.
  intros Ho Hc copy.
  rewrite skipn_app. replace (o - length image)%nat with O by lia.
  cbn [skipn]. rewrite firstn_app, length_skipn, firstn_repeat.
  destruct (Nat.le_gt_cases c (length image - o)) as [Hle|Hgt].
  - subst copy. rewrite Nat.min_l by lia.
    replace (c - c)%nat with O by lia.
    replace (Nat.min (c - (length image - o)) p) with O by lia.
    reflexivity.
  - subst copy. rewrite Nat.min_r by lia.
    rewrite !firstn_all2 by (rewrite length_skipn; lia).
    f_equal. f_equal. lia.
Qed.

Lemma padded_length_facts (image_len : Z) :
  0 <= image_len -> image_len + 4 <= 2 ^ 64 ->
  padded_length image_len mod 4 = 0 /\
  image_len <= padded_length image_len < image_len + 4.
Proof.
  intros Hi Hb. unfold padded_length, size_t.
  destruct (image_len mod 4 =? 0) eqn:Hr; cbn [negb].
  - apply Z.eqb_eq in Hr. lia.
  - apply Z.eqb_neq in Hr.
    pose proof (Z.mod_pos_bound image_len 4 ltac:(lia)) as Hm.
    rewrite (Z.mod_small (image_len + (4 - image_len mod 4))) by lia.
    split; [|lia].
    pose proof (Z.div_mod image_len 4 ltac:(lia)) as Hd.
    replace (image_len + (4 - image_len mod 4))
      with ((image_len / 4 + 1) * 4) by lia.
    apply Z.mod_mul. lia.
Qed.

Lemma len_padded_image (image : list Z) :
  len image + 4 <= 2 ^ 64 ->
  len (padded_image image) = padded_length (len image).
Proof.
  intros Hb. pose proof (len_nonneg image) as Hi.
  destruct (padded_length_facts (len image) Hi Hb) as [_ Hp].
  unfold padded_image. rewrite len_app. unfold len at 2.
  rewrite repeat_length. lia.
Qed.

(** Inside the loop the chunk is the next slice of the padded image. *)
Lemma chunk_at_slice (image : list Z) (off : Z) :
  len image + 4 <= 2 ^ 64 ->
  let total_len := padded_length (len image) in
  0 <= off < total_len -> off mod 4 = 0 ->
  let c := chunk_length total_len off in
  1 <= c <= 252 /\ off + c <= total_len /\
  (c = 252 \/ off + c = total_len) /\
  firstn (Z.to_nat c) (chunk_at image total_len off)
  = firstn (Z.to_nat c) (skipn (Z.to_nat off) (padded_image image)) /\
  len (firstn (Z.to_nat c) (chunk_at image total_len off)) = c.
Proof.
  intros Hb total_len Hoff Hal c.
  pose proof (len_nonneg image) as Hi.
  destruct (padded_length_facts (len image) Hi Hb) as [Ht4 Hp].
  fold total_len in Ht4, Hp.
  assert (Hlt : off < len image).
  { pose proof (Z.div_mod off 4 ltac:(lia)) as Ho.
    pose proof (Z.div_mod total_len 4 ltac:(lia)) as Ht. lia. }
  assert (Hc : c = Z.min 252 (total_len - off)).
  { subst c. unfold chunk_length, size_t. rewrite Z.mod_small by lia.
    destruct (total_len - off >? 252) eqn:Hg.
    - rewrite Z.gtb_ltb in Hg. apply Z.ltb_lt in Hg. lia.
    - rewrite Z.gtb_ltb in Hg. apply Z.ltb_ge in Hg. lia. }
  assert (Hc1 : 1 <= c <= 252) by lia.
  assert (Hc2 : off + c <= total_len) by lia.
  assert (Hchunk : chunk_at image total_len off
                   = firstn (Z.to_nat c)
                            (skipn (Z.to_nat off) (padded_image image))).
  { unfold chunk_at. fold c. unfold size_t.
    rewrite (Z.mod_small (off + c)) by lia.
    rewrite (Z.mod_small (len image - off)) by lia.
    assert (Hcopy : (if off + c >? len image then len image - off else c)
                    = Z.min c (len image - off)).
    { destruct (off + c >? len image) eqn:Hg; rewrite Z.gtb_ltb in Hg.
      - apply Z.ltb_lt in Hg. lia.
      - apply Z.ltb_ge in Hg. lia. }
    rewrite Hcopy.
    rewrite (Z2Nat.inj_sub c) by lia.
    rewrite Z2Nat.inj_min, Z2Nat.inj_sub by lia.
    unfold len at 1 2. rewrite Nat2Z.id.
    apply chunk_slice.
    - unfold len in Hlt. lia.
    - unfold len in *. lia. }
  repeat split; try lia.
  - rewrite Hchunk. now rewrite firstn_firstn, Nat.min_id.
  - rewrite Hchunk, firstn_firstn, Nat.min_id.
    unfold len. rewrite length_firstn, length_skipn.
    assert (Hl : Z.of_nat (length (padded_image image)) = total_len)
      by exact (len_padded_image image Hb).
    lia.
Qed.

Lemma args_of_absent (op : Z) (cs : list (list Z)) :
  Forall (fun c => hd 0 c <> op) cs -> args_of op cs = [].
Proof.
  induction 1 as [|c cs Hc _ IH]; [reflexivity|].
  unfold args_of. cbn [flat_map]. fold (args_of op cs). rewrite IH.
  destruct c as [|o p]; [reflexivity|]. simpl in Hc.
  apply Z.eqb_neq in Hc. now rewrite Hc.
Qed.

Section Transfer.

Context {W : Type} {T : Transport W}.

Lemma send_loop_cmds (image : list Z) (fuel : nat) :
  len image + 4 <= 2 ^ 64 ->
  let total_len := padded_length (len image) in
  forall (off : Z) (s s' : state W) (r : option Z),
    0 <= off <= total_len -> off mod 4 = 0 ->
    send_loop fuel image total_len off s = Ret r s' ->
    exists d,
      trace s' = trace s ++ d /\
      (r = None \/ r = Some (-1)) /\
      Forall transfer_cmd (cmds_of d) /\
      Forall (fun c => 1 <= len c <= 252) (sent_data d) /\
      (exists rest,
          skipn (Z.to_nat off) (padded_image image)
          = concat (sent_data d) ++ rest) /\
      (r = None ->
       concat (sent_data d) = skipn (Z.to_nat off) (padded_image image) /\
       len (sent_data d) = (total_len - off + 251) / 252).
Proof.
  intros Hb total_len.
  induction fuel as [|fuel IH]; intros off s s' r Hoff Hal E; [discriminate|].
  cbn [send_loop] in E.
  destruct (off <? total_len) eqn:Hlt.
  2:{ apply Z.ltb_ge in Hlt. inversion E; subst.
      assert (off = total_len) by lia. subst off.
      exists []. rewrite app_nil_r. cbn [cmds_of writes_of flat_map sent_data args_of concat].
      repeat split; auto.
      - eexists. reflexivity.
      - symmetry. apply skipn_all2.
        assert (Hl : Z.of_nat (length (padded_image image)) = total_len)
          by exact (len_padded_image image Hb).
        lia.
      - rewrite Z.sub_diag. reflexivity. }
  apply Z.ltb_lt in Hlt. cbv zeta in E.
  destruct (chunk_at_slice image off Hb ltac:(fold total_len; lia) Hal)
    as (Hc1 & Hc2 & Hfull & Hslice & Hlen).
  fold total_len in Hc1, Hc2, Hfull, Hslice, Hlen.
  set (c := chunk_length total_len off) in *.
  set (chunk := firstn (Z.to_nat c) (chunk_at image total_len off)) in *.
  destruct (sbl_send_data_sends chunk 1000 ltac:(lia)
              ltac:(timeout_ok) s)
    as (r1 & s1 & d1 & E1 & T1 & C1).
  rewrite (bind_run _ _ _ _ _ E1) in E.
  assert (S1 : sent_data d1 = [chunk]).
  { unfold sent_data. rewrite C1. reflexivity. }
  assert (Hsplit : skipn (Z.to_nat off) (padded_image image)
                   = chunk ++ skipn (Z.to_nat (off + c)) (padded_image image)).
  { rewrite Hslice, Z2Nat.inj_add, Nat.add_comm, <- skipn_skipn by lia.
    now rewrite firstn_skipn. }
  assert (F1 : Forall transfer_cmd (cmds_of d1)).
  { rewrite C1. constructor; [|constructor]. now left. }
  assert (L1 : Forall (fun c => 1 <= len c <= 252) [chunk]).
  { constructor; [|constructor]. lia. }
  assert (Stop1 : forall d2,
             sent_data d2 = [] -> Forall transfer_cmd (cmds_of d2) ->
             Forall transfer_cmd (cmds_of (d1 ++ d2)) /\
             Forall (fun c => 1 <= len c <= 252) (sent_data (d1 ++ d2)) /\
             exists rest, skipn (Z.to_nat off) (padded_image image)
                          = concat (sent_data (d1 ++ d2)) ++ rest).
  { intros d2 S2 F2. unfold sent_data in *.
    rewrite cmds_of_app, args_of_app, S1, S2. cbn [app concat].
    rewrite app_nil_r. repeat split; auto.
    - apply Forall_app. auto.
    - eexists. exact Hsplit. }
  destruct (negb (r1 =? 0)).
  { inversion E; subst. exists d1.
    destruct (Stop1 [] eq_refl (Forall_nil _)) as (A1 & A2 & A3).
    rewrite app_nil_r in A1, A2, A3.
    repeat split; auto; discriminate. }
  destruct (sbl_get_status_sends 500 0 ltac:(timeout_ok) s1)
    as ([r2 st] & s2 & d2 & E2 & T2 & C2).
  rewrite (bind_run _ _ _ _ _ E2) in E.
  assert (S2 : sent_data d2 = []) by (unfold sent_data; rewrite C2; reflexivity).
  assert (F2 : Forall transfer_cmd (cmds_of d2)).
  { rewrite C2. constructor; [|constructor]. now right. }
  assert (T12 : trace s2 = trace s ++ d1 ++ d2)
    by (rewrite T2, T1, app_assoc; reflexivity).
  destruct (Stop1 d2 S2 F2) as (A1 & A2 & A3).
  destruct (negb (r2 =? 0)).
  { inversion E; subst. exists (d1 ++ d2). repeat split; auto; discriminate. }
  destruct (negb (st =? 64)).
  { inversion E; subst. exists (d1 ++ d2). repeat split; auto; discriminate. }
  assert (Hnext : size_t (off + c) = off + c).
  { unfold size_t. apply Z.mod_small.
    pose proof (padded_length_facts (len image) (len_nonneg image) Hb).
    fold total_len in H. lia. }
  rewrite Hnext in E.
  apply IH in E; [|lia|].
  2:{ destruct Hfull as [-> | ->].
      - rewrite <- Z.add_mod_idemp_l, Hal by lia. reflexivity.
      - apply (padded_length_facts (len image) (len_nonneg image) Hb). }
  destruct E as (d3 & T3 & R3 & F3 & L3 & (rest & P3) & Q3).
  exists ((d1 ++ d2) ++ d3).
  assert (S12 : sent_data (d1 ++ d2) = [chunk]).
  { unfold sent_data in *. rewrite cmds_of_app, args_of_app, S1, S2.
    reflexivity. }
  assert (S123 : sent_data ((d1 ++ d2) ++ d3) = chunk :: sent_data d3).
  { unfold sent_data in *. rewrite cmds_of_app, args_of_app, S12.
    reflexivity. }
  rewrite S123. cbn [concat].
  split; [rewrite T3, T12, <- !app_assoc; reflexivity|].
  split; [exact R3|].
  split; [rewrite cmds_of_app; apply Forall_app; auto|].
  split; [constructor; [lia|exact L3]|].
  split.
  - exists rest. rewrite Hsplit, P3, app_assoc. reflexivity.
  - intros ->. destruct (Q3 eq_refl) as [Q3a Q3b]. split.
    + rewrite Hsplit, Q3a. reflexivity.
    + rewrite len_cons, Q3b.
      destruct Hfull as [Hf | Hf].
      * replace (total_len - off + 251)
          with (total_len - (off + c) + 251 + 1 * 252) by lia.
        rewrite Z.div_add by lia. lia.
      * replace (total_len - (off + c) + 251) with 251 by lia.
        change (251 / 252) with 0.
        replace (total_len - off + 251) with (c - 1 + 1 * 252) by lia.
        rewrite Z.div_add, Z.div_small by lia. lia.
Qed.

Lemma send_loop_defined (image : list Z) (total_len : Z) (fuel : nat) :
  forall (off : Z) (s : state W),
    send_loop fuel image total_len off s <> Undefined.
Proof.
  induction fuel as [|fuel IH]; intros off s; [discriminate|].
  cbn [send_loop].
  destruct (off <? total_len); [|discriminate]. cbv zeta.
  destruct (sbl_send_data_returns
              (firstn (Z.to_nat (chunk_length total_len off))
                      (chunk_at image total_len off)) 1000 s
              ltac:(timeout_ok))
    as (r1 & s1 & E1).
  rewrite (bind_run _ _ _ _ _ E1).
  destruct (negb (r1 =? 0)); [discriminate|].
  destruct (sbl_get_status_sends 500 0 ltac:(timeout_ok) s1)
    as ([r2 st] & s2 & d2 & E2 & _).
  rewrite (bind_run _ _ _ _ _ E2).
  destruct (negb (r2 =? 0)); [discriminate|].
  destruct (negb (st =? 64)); [discriminate|].
  apply IH.
Qed.

End Transfer.

(* ================================================================== *)
(** ** [sbl_program_binary] *)

Lemma erase_cmds_pages (bound : Z) (cs : list (list Z)) :
  Forall (erase_cmd bound) cs ->
  Forall (fun a => 0 <= a < bound) (map be_value (args_of CMD_SECTOR_ERASE cs)) /\
  args_of CMD_SEND_DATA cs = [].
Proof.
  induction 1 as [|c cs Hc _ [IH1 IH2]]; [split; [constructor|reflexivity]|].
  unfold args_of in *. cbn [flat_map]. rewrite map_app, IH2.
  destruct Hc as [-> | (a & Ha & Hlt & ->)].
  - split; [exact IH1|reflexivity].
  - split; [|reflexivity]. cbn [Z.eqb CMD_SECTOR_ERASE Pos.eqb map app].
    constructor; [|exact IH1].
    rewrite be_value_be_bytes by assumption. unfold is_u32 in Ha. lia.
Qed.

Lemma transfer_cmds_no_erase (cs : list (list Z)) :
  Forall transfer_cmd cs -> Forall (fun c => hd 0 c <> CMD_SECTOR_ERASE) cs.
Proof.
  apply Forall_impl. intros c [H | ->]; [rewrite H|]; discriminate.
Qed.

(** The cap makes [base_addr + erase_len <= flash_size - page_size] hold
    in 32-bit unsigned arithmetic, whatever the arguments. *)
Lemma erase_length_capped (flash_size page_size image_len base_addr : Z) :
  u32 (base_addr + erase_length flash_size page_size image_len base_addr)
  <= u32 (flash_size - page_size).
Proof.
  unfold erase_length. cbv zeta.
  destruct (u32 (base_addr + _) >? u32 (flash_size - page_size)) eqn:Hg.
  - unfold u32. rewrite Zplus_mod_idemp_r.
    replace (base_addr + ((flash_size - page_size) mod 2 ^ 32 - base_addr))
      with ((flash_size - page_size) mod 2 ^ 32) by lia.
    rewrite Z.mod_mod by lia. lia.
  - rewrite Z.gtb_ltb in Hg. apply Z.ltb_ge in Hg. exact Hg.
Qed.

Section Termination.

Context {W : Type} {T : Transport W}.

(** With room for one more page below 2^32 the erase loop ends: [a]
    advances by [page_size] without wrapping. *)
Lemma erase_loop_returns (fuel : nat) :
  forall (a base_addr erase_len page_size : Z) (s : state W),
    0 < page_size -> 0 <= a ->
    u32 (base_addr + erase_len) + page_size <= 2 ^ 32 ->
    (Z.to_nat (u32 (base_addr + erase_len) - a) < fuel)%nat ->
    exists r s', erase_loop fuel a base_addr erase_len page_size s = Ret r s'.
Proof.
  induction fuel as [|fuel IH]; intros a ba el ps s Hps Ha Hroom Hf; [lia|].
  cbn [erase_loop].
  destruct (a <? u32 (ba + el)) eqn:Hlt; [|eexists _, _; reflexivity].
  apply Z.ltb_lt in Hlt.
  destruct (sbl_sector_erase_sends a 5000 ltac:(timeout_ok) s)
    as (r1 & s1 & d1 & E1 & _).
  rewrite (bind_run _ _ _ _ _ E1).
  destruct (negb (r1 =? 0)); [eexists _, _; reflexivity|].
  destruct (sbl_get_status_sends 1000 0 ltac:(timeout_ok) s1)
    as ([r2 st] & s2 & d2 & E2 & _).
  rewrite (bind_run _ _ _ _ _ E2).
  destruct (negb (r2 =? 0)); [eexists _, _; reflexivity|].
  assert (Hnext : u32 (a + ps) = a + ps)
    by (unfold u32; apply Z.mod_small; lia).
  rewrite Hnext. apply IH; lia.
Qed.

(** The transfer loop ends: [off] advances by at least one byte. *)
Lemma send_loop_returns (image : list Z) (total_len : Z) (fuel : nat) :
  forall (off : Z) (s : state W),
    0 <= off -> total_len < 2 ^ 64 ->
    (Z.to_nat (total_len - off) < fuel)%nat ->
    exists r s', send_loop fuel image total_len off s = Ret r s'.
Proof.
  induction fuel as [|fuel IH]; intros off s Hoff Ht Hf; [lia|].
  cbn [send_loop].
  destruct (off <? total_len) eqn:Hlt; [|eexists _, _; reflexivity].
  apply Z.ltb_lt in Hlt. cbv zeta.
  destruct (sbl_send_data_returns
              (firstn (Z.to_nat (chunk_length total_len off))
                      (chunk_at image total_len off)) 1000 s
              ltac:(timeout_ok))
    as (r1 & s1 & E1).
  rewrite (bind_run _ _ _ _ _ E1).
  destruct (negb (r1 =? 0)); [eexists _, _; reflexivity|].
  destruct (sbl_get_status_sends 500 0 ltac:(timeout_ok) s1)
    as ([r2 st] & s2 & d2 & E2 & _).
  rewrite (bind_run _ _ _ _ _ E2).
  destruct (negb (r2 =? 0)); [eexists _, _; reflexivity|].
  destruct (negb (st =? 64)); [eexists _, _; reflexivity|].
  assert (Hc : 1 <= chunk_length total_len off <= total_len - off).
  { unfold chunk_length, size_t. rewrite Z.mod_small by lia.
    destruct (total_len - off >? 252) eqn:Hg; rewrite Z.gtb_ltb in Hg.
    - apply Z.ltb_lt in Hg. lia.
    - lia. }
  assert (Hnext : size_t (off + chunk_length total_len off)
                  = off + chunk_length total_len off)
    by (unfold size_t; apply Z.mod_small; lia).
  rewrite Hnext. apply IH; lia.
Qed.

(** In a flash that holds at least one page, [sbl_program_binary] returns
    once the fuel covers the two loops. *)
Lemma program_binary_returns (flash_size page_size : Z) (image : list Z)
      (base_addr : Z) (s : state W) :
  0 < page_size <= flash_size -> flash_size < 2 ^ 32 ->
  is_u32 base_addr -> len image + 4 <= 2 ^ 64 ->
  exists fuel0, forall fuel, (fuel0 <= fuel)%nat ->
    exists r s',
      sbl_program_binary fuel flash_size page_size image base_addr s = Ret r s'.
Proof.
  intros Hps Hfs Hba Hb.
  set (erase_len := erase_length flash_size page_size (len image) base_addr).
  set (total_len := padded_length (len image)).
  exists (S (Z.to_nat (u32 (base_addr + erase_len) - base_addr))
          + S (Z.to_nat total_len))%nat.
  intros fuel Hfuel.
  unfold sbl_program_binary, u32_rem. fold erase_len total_len.
  replace (page_size =? 0) with false by (symmetry; apply Z.eqb_neq; lia).
  unfold bind at 1. unfold ret at 1.
  destruct (negb (base_addr mod page_size =? 0)); [eexists _, _; reflexivity|].
  assert (Hroom : u32 (base_addr + erase_len) + page_size <= 2 ^ 32).
  { pose proof (erase_length_capped flash_size page_size (len image) base_addr)
      as Hcap.
    fold erase_len in Hcap. unfold u32 at 2 in Hcap.
    rewrite Z.mod_small in Hcap by lia. lia. }
  destruct (erase_loop_returns fuel base_addr base_addr erase_len page_size s)
    as ([r1|] & s1 & E1); try lia.
  { unfold is_u32 in Hba. lia. }
  { rewrite (bind_run _ _ _ _ _ E1). eexists _, _; reflexivity. }
  rewrite (bind_run _ _ _ _ _ E1).
  destruct (sbl_download_sends base_addr (u32 total_len) 1000
              ltac:(timeout_ok) s1)
    as (r2 & s2 & d2 & E2 & _).
  rewrite (bind_run _ _ _ _ _ E2).
  destruct (negb (r2 =? 0)); [eexists _, _; reflexivity|].
  destruct (sbl_get_status_sends 500 0 ltac:(timeout_ok) s2)
    as ([r3 st] & s3 & d3 & E3 & _).
  rewrite (bind_run _ _ _ _ _ E3).
  destruct (negb (r3 =? 0)); [eexists _, _; reflexivity|].
  destruct (negb (st =? 64)); [eexists _, _; reflexivity|].
  pose proof (padded_length_facts (len image) (len_nonneg image) Hb) as Hp.
  fold total_len in Hp.
  destruct (send_loop_returns image total_len fuel 0 s3)
    as ([r4|] & s4 & E4); try lia.
  { rewrite (bind_run _ _ _ _ _ E4). eexists _, _; reflexivity. }
  rewrite (bind_run _ _ _ _ _ E4).
  destruct (sbl_reset_sends 1000 ltac:(timeout_ok) s4)
    as (r5 & s5 & d5 & E5 & _).
  rewrite (bind_run _ _ _ _ _ E5). eexists _, _; reflexivity.
Qed.

End Termination.

Section Program.

Context {W : Type} {T : Transport W}.

(** Every run of [sbl_program_binary] that returns splits into the erase
    phase [d1] and the rest [d2]. *)
Lemma program_binary_phases (fuel : nat) (flash_size page_size : Z)
      (image : list Z) (base_addr : Z) (s s' : state W) (r : Z) :
  is_u32 base_addr -> len image + 4 <= 2 ^ 64 ->
  sbl_program_binary fuel flash_size page_size image base_addr s = Ret r s' ->
  let erase_len := erase_length flash_size page_size (len image) base_addr in
  let total_len := padded_length (len image) in
  exists d1 d2,
    trace s' = trace s ++ d1 ++ d2 /\
    Forall (erase_cmd (u32 (base_addr + erase_len))) (cmds_of d1) /\
    Forall (fun c => hd 0 c <> CMD_SECTOR_ERASE) (cmds_of d2) /\
    Forall (fun c => 1 <= len c <= 252) (sent_data d2) /\
    (exists rest, padded_image image = concat (sent_data d2) ++ rest) /\
    (r = 0 ->
     concat (sent_data d2) = padded_image image /\
     len (sent_data d2) = (total_len + 251) / 252).
Proof.
  intros Hba Hb E erase_len total_len.
  unfold sbl_program_binary in E. fold erase_len total_len in E.
  apply bind_Ret in E. destruct E as (m & s0 & E0 & E).
  unfold u32_rem in E0. destruct (page_size =? 0); [discriminate|].
  inversion E0; subst m s0; clear E0.
  assert (Hnone : forall d2,
             Forall (fun c => hd 0 c <> CMD_SECTOR_ERASE /\
                              hd 0 c <> CMD_SEND_DATA) (cmds_of d2) ->
             Forall (fun c => hd 0 c <> CMD_SECTOR_ERASE) (cmds_of d2) /\
             Forall (fun c => 1 <= len c <= 252) (sent_data d2) /\
             (exists rest, padded_image image = concat (sent_data d2) ++ rest)).
  { intros d2 H2.
    assert (S2 : sent_data d2 = []).
    { apply args_of_absent. revert H2. apply Forall_impl. tauto. }
    rewrite S2. repeat split.
    - revert H2. apply Forall_impl. tauto.
    - constructor.
    - eexists. reflexivity. }
  destruct (negb (base_addr mod page_size =? 0)).
  { inversion E; subst. exists [], [].
    destruct (Hnone [] (Forall_nil _)) as (A1 & A2 & A3).
    rewrite !app_nil_r. repeat split; auto; try constructor; discriminate. }
  apply bind_Ret in E. destruct E as (e & s1 & E1 & E).
  apply erase_loop_cmds in E1; [|assumption].
  destruct E1 as (He & d1 & T1 & F1). fold erase_len in F1.
  destruct He as [-> | ->].
  2:{ inversion E; subst. exists d1, [].
      destruct (Hnone [] (Forall_nil _)) as (A1 & A2 & A3).
      rewrite app_nil_r. repeat split; auto; discriminate. }
  destruct (sbl_download_sends base_addr (u32 total_len) 1000
              ltac:(timeout_ok) s1)
    as (r2 & s2 & d2 & E2 & T2 & C2).
  rewrite (bind_run _ _ _ _ _ E2) in E.
  assert (O2 : Forall (fun c => hd 0 c <> CMD_SECTOR_ERASE /\
                                hd 0 c <> CMD_SEND_DATA) (cmds_of d2)).
  { rewrite C2. constructor; [|constructor]. split; discriminate. }
  destruct (negb (r2 =? 0)).
  { inversion E; subst. exists d1, d2.
    destruct (Hnone d2 O2) as (A1 & A2 & A3).
    rewrite T2, T1, <- app_assoc. repeat split; auto; discriminate. }
  destruct (sbl_get_status_sends 500 0 ltac:(timeout_ok) s2)
    as ([r3 st] & s3 & d3 & E3 & T3 & C3).
  rewrite (bind_run _ _ _ _ _ E3) in E.
  assert (O3 : Forall (fun c => hd 0 c <> CMD_SECTOR_ERASE /\
                                hd 0 c <> CMD_SEND_DATA) (cmds_of (d2 ++ d3))).
  { rewrite cmds_of_app. apply Forall_app. split; [exact O2|].
    rewrite C3. constructor; [|constructor]. split; discriminate. }
  assert (T123 : trace s3 = trace s ++ d1 ++ d2 ++ d3)
    by (rewrite T3, T2, T1, <- !app_assoc; reflexivity).
  destruct (Hnone (d2 ++ d3) O3) as (A1 & A2 & A3).
  destruct (negb (r3 =? 0)).
  { inversion E; subst. exists d1, (d2 ++ d3). repeat split; auto; discriminate. }
  destruct (negb (st =? 64)).
  { inversion E; subst. exists d1, (d2 ++ d3). repeat split; auto; discriminate. }
  apply bind_Ret in E. destruct E as (l & s4 & E4 & E).
  assert (Htot : 0 <= 0 <= padded_length (len image)).
  { pose proof (padded_length_facts (len image) (len_nonneg image) Hb).
    pose proof (len_nonneg image). lia. }
  apply (send_loop_cmds image fuel Hb) in E4; [|exact Htot|reflexivity].
  destruct E4 as (d4 & T4 & R4 & F4 & L4 & P4 & Q4).
  fold total_len in Q4. cbn [Z.to_nat skipn] in P4, Q4.
  rewrite Z.sub_0_r in Q4.
  assert (S23 : sent_data (d2 ++ d3) = []).
  { apply args_of_absent. revert O3. apply Forall_impl. tauto. }
  assert (Hrest : forall d5,
             Forall (fun c => hd 0 c <> CMD_SECTOR_ERASE /\
                              hd 0 c <> CMD_SEND_DATA) (cmds_of d5) ->
             Forall (fun c => hd 0 c <> CMD_SECTOR_ERASE)
                    (cmds_of ((d2 ++ d3) ++ d4 ++ d5)) /\
             sent_data ((d2 ++ d3) ++ d4 ++ d5) = sent_data d4).
  { intros d5 O5. split.
    - rewrite !cmds_of_app. repeat (apply Forall_app; split).
      + revert O2. apply Forall_impl. tauto.
      + rewrite C3. constructor; [discriminate|constructor].
      + now apply transfer_cmds_no_erase.
      + revert O5. apply Forall_impl. tauto.
    - unfold sent_data in *.
      rewrite cmds_of_app, args_of_app, S23.
      rewrite cmds_of_app, args_of_app.
      rewrite (args_of_absent CMD_SEND_DATA (cmds_of d5)), app_nil_r.
      + reflexivity.
      + revert O5. apply Forall_impl. tauto. }
  destruct R4 as [-> | ->].
  2:{ inversion E; subst. exists d1, ((d2 ++ d3) ++ d4 ++ []).
      destruct (Hrest [] (Forall_nil _)) as (B1 & B2). rewrite B2.
      split; [rewrite T4, T123, app_nil_r, <- !app_assoc; reflexivity|].
      repeat split; auto; discriminate. }
  destruct (sbl_reset_sends 1000 ltac:(timeout_ok) s4)
    as (r5 & s5 & d5 & E5 & T5 & C5).
  rewrite (bind_run _ _ _ _ _ E5) in E. inversion E; subst.
  assert (O5 : Forall (fun c => hd 0 c <> CMD_SECTOR_ERASE /\
                                hd 0 c <> CMD_SEND_DATA) (cmds_of d5)).
  { rewrite C5. constructor; [|constructor]. split; discriminate. }
  destruct (Hrest d5 O5) as (B1 & B2).
  exists d1, ((d2 ++ d3) ++ d4 ++ d5). rewrite B2.
  split; [rewrite T5, T4, T123, <- !app_assoc; reflexivity|].
  destruct (Q4 eq_refl) as [Q4a Q4b].
  repeat split; auto.
Qed.

Lemma program_binary_defined (fuel : nat) (flash_size page_size : Z)
      (image : list Z) (base_addr : Z) (s : state W) :
  page_size <> 0 ->
  sbl_program_binary fuel flash_size page_size image base_addr s <> Undefined.
Proof.
  intros Hps. unfold sbl_program_binary, u32_rem.
  apply Z.eqb_neq in Hps. rewrite Hps.
  unfold bind at 1. unfold ret at 1.
  destruct (negb (base_addr mod page_size =? 0)); [discriminate|].
  unfold bind at 1.
  destruct (erase_loop fuel base_addr base_addr _ page_size s)
    as [[r|] s1| |] eqn:E1; try discriminate.
  2:{ exfalso. revert E1. apply erase_loop_defined. }
  destruct (sbl_download_sends base_addr
              (u32 (padded_length (len image))) 1000
              ltac:(timeout_ok) s1)
    as (r2 & s2 & d2 & E2 & _).
  rewrite (bind_run _ _ _ _ _ E2).
  destruct (negb (r2 =? 0)); [discriminate|].
  destruct (sbl_get_status_sends 500 0 ltac:(timeout_ok) s2)
    as ([r3 st] & s3 & d3 & E3 & _).
  rewrite (bind_run _ _ _ _ _ E3).
  destruct (negb (r3 =? 0)); [discriminate|].
  destruct (negb (st =? 64)); [discriminate|].
  unfold bind at 1.
  destruct (send_loop fuel image (padded_length (len image)) 0 s3)
    as [[r|] s4| |] eqn:E4; try discriminate.
  2:{ exfalso. revert E4. apply send_loop_defined. }
  destruct (sbl_reset_sends 1000 ltac:(timeout_ok) s4)
    as (r5 & s5 & d5 & E5 & _).
  rewrite (bind_run _ _ _ _ _ E5). discriminate.
Qed.

End Program.

(* ------------------------------------------------------------------ *)
(** *** A device that accepts everything *)

Section Accepting.

Context {W : Type} {T : Transport W}.

Variables I J : W -> Prop.
Hypothesis Hack : acks_frames I J.
Hypothesis Hok : reports_success J I.

Lemma frame_of_data (data : list Z) :
  1 <= len data <= 253 ->
  u8 (len data + 2) :: checksum_sum data :: data = frame_of data.
Proof.
  intros Hl. unfold frame_of, u8. rewrite checksum_sum_mod.
  rewrite Z.mod_small by (change (2 ^ 8) with 256; lia). reflexivity.
Qed.

Lemma wait_ack_first (t : Z) (s : state W) (w : W) :
  1 <= t ->
  tr_read (dev s) 1 step_ms = (RdData [SBL_ACK], w) ->
  sbl_wait_ack t s
  = Ret 0 (mkState w (errno s) (trace s ++ [EvRead 1 step_ms])).
Proof.
  intros Ht Hr. unfold sbl_wait_ack. cbn [wait_ack_loop].
  replace (0 <? t) with true by (symmetry; apply Z.ltb_lt; lia).
  unfold bind at 1. unfold serial_read_timeout. rewrite Hr. reflexivity.
Qed.

Lemma read_one (t : Z) (s : state W) (b : Z) (w : W) :
  tr_read (dev s) 1 t = (RdData [b], w) ->
  read_exact_timeout 1 t s
  = Ret (1, [b]) (mkState w (errno s) (trace s ++ [EvRead 1 t])).
Proof.
  intros Hr. unfold read_exact_timeout. cbn [Z.to_nat Pos.to_nat Pos.iter_op
    Nat.add read_exact_loop].
  change (len []) with 0. cbn [Z.ltb Z.compare Z.sub Z.opp Z.add].
  unfold bind at 1. unfold serial_read_timeout. rewrite Hr.
  change (len [b]) with 1. cbn [Z.ltb Z.eqb Z.compare app len].
  reflexivity.
Qed.

(** A command without response is acknowledged. *)
Lemma accepted_command (data : list Z) (t : Z) (s : state W) :
  I (dev s) -> 1 <= len data <= 253 -> 1 <= t ->
  exists s1,
    sbl_send_cmd data 0 t s = Ret (0, []) s1 /\
    J (dev s1) /\
    trace s1 = trace s ++ [EvWrite (frame_of data); EvRead 1 step_ms].
Proof.
  intros Hi Hl Ht.
  destruct (Hack (dev s) (frame_of data) Hi) as (w1 & w2 & Hw & Hr & Hj).
  unfold sbl_send_cmd.
  replace ((len data =? 0) || (len data >? 253)) with false.
  2:{ symmetry. apply orb_false_iff.
      split; [apply Z.eqb_neq|rewrite Z.gtb_ltb; apply Z.ltb_ge]; lia. }
  cbv zeta. rewrite (frame_of_data data Hl).
  unfold bind at 1. unfold serial_write_all at 1. rewrite Hw.
  replace (len (frame_of data) <? 0) with false
    by (symmetry; apply Z.ltb_ge; apply len_nonneg).
  unfold bind at 1. rewrite (wait_ack_first t _ w2 Ht) by exact Hr.
  cbn [Z.eqb negb errno trace]. unfold ret.
  eexists. split; [reflexivity|]. cbn [dev trace].
  split; [exact Hj|]. now rewrite <- app_assoc.
Qed.

(** The status query answers SUCCESS. *)
Lemma accepted_status (t old : Z) (s : state W) :
  J (dev s) -> 1 <= t ->
  exists s2 d,
    sbl_get_status t old s = Ret (0, COMMAND_RET_SUCCESS) s2 /\
    I (dev s2) /\
    trace s2 = trace s ++ d /\
    cmds_of d = [[CMD_GET_STATUS]].
Proof.
  intros Hj Ht.
  destruct (Hok (dev s) t Hj)
    as (w1 & w2 & w3 & w4 & w5 & w6 & Hw & Hr & H3 & H4 & H5 & H6 & Hi).
  assert (E : exists s2 d,
             sbl_send_cmd [CMD_GET_STATUS] 1 t s
             = Ret (1, [COMMAND_RET_SUCCESS]) s2 /\
             I (dev s2) /\ trace s2 = trace s ++ d /\
             cmds_of d = [[CMD_GET_STATUS]]).
  { unfold sbl_send_cmd.
    change ((len [CMD_GET_STATUS] =? 0) || (len [CMD_GET_STATUS] >? 253))
      with false.
    cbv zeta.
    rewrite (frame_of_data [CMD_GET_STATUS])
      by (change (len [CMD_GET_STATUS]) with 1; lia).
    unfold bind at 1. unfold serial_write_all at 1. rewrite Hw.
    change (len (frame_of [CMD_GET_STATUS]) <? 0) with false. cbv iota.
    unfold bind at 1. rewrite (wait_ack_first t _ w2 Ht) by exact Hr.
    cbn [Z.eqb negb Pos.eqb errno trace dev].
    unfold read_response.
    unfold bind at 1. rewrite (read_one 50 _ 3 w3) by exact H3.
    cbn [nth errno trace dev].
    change ((1 >? 0) && negb (3 =? 0)) with true. cbv iota.
    unfold bind at 1.
    rewrite (read_one t _ COMMAND_RET_SUCCESS w4) by exact H4.
    cbn [nth errno trace dev].
    change (1 <=? 0) with false. cbv iota.
    change (size_t (3 - 2)) with 1. change (1 >? 1) with false. cbv iota.
    unfold bind at 1.
    rewrite (read_one t _ COMMAND_RET_SUCCESS w5) by exact H5.
    cbn [errno trace dev]. change (1 <=? 0) with false. cbv iota.
    unfold bind at 1. unfold serial_write_all at 1. cbn [dev]. rewrite H6.
    change (len [0; SBL_ACK] <? 0) with false. cbv iota.
    change (negb (checksum_sum [COMMAND_RET_SUCCESS] =? COMMAND_RET_SUCCESS))
      with false. cbv iota.
    change (to_int 1) with 1. unfold ret.
    eexists _, _. split; [reflexivity|]. cbn [dev trace errno].
    split; [exact Hi|]. split.
    - rewrite <- !app_assoc. reflexivity.
    - reflexivity. }
  destruct E as (s2 & d & E & Hi2 & Htr & Hc).
  exists s2, d. unfold sbl_get_status. rewrite (bind_run _ _ _ _ _ E).
  auto.
Qed.

Lemma accepted_erase (a : Z) (s : state W) :
  I (dev s) ->
  exists s1, sbl_sector_erase a 5000 s = Ret 0 s1 /\ J (dev s1).
Proof.
  intros Hi. unfold sbl_sector_erase. cbv zeta.
  destruct (accepted_command (CMD_SECTOR_ERASE :: be_bytes a) 5000 s Hi)
    as (s1 & E & Hj & _); [rewrite len_cons, len_be_bytes; lia|lia|].
  exists s1. rewrite (bind_run _ _ _ _ _ E). auto.
Qed.

Lemma accepted_download (a n : Z) (s : state W) :
  I (dev s) ->
  exists s1, sbl_download a n 1000 s = Ret 0 s1 /\ J (dev s1).
Proof.
  intros Hi. unfold sbl_download. cbv zeta.
  destruct (accepted_command
              (CMD_DOWNLOAD :: be_bytes a ++ be_bytes n) 1000 s Hi)
    as (s1 & E & Hj & _);
    [rewrite len_cons, len_app, !len_be_bytes; lia|lia|].
  exists s1. rewrite (bind_run _ _ _ _ _ E). auto.
Qed.

Lemma accepted_data (chunk : list Z) (s : state W) :
  I (dev s) -> 1 <= len chunk <= 252 ->
  exists s1, sbl_send_data chunk 1000 s = Ret 0 s1 /\ J (dev s1).
Proof.
  intros Hi Hl. unfold sbl_send_data. cbv zeta.
  replace ((len chunk =? 0) || (len chunk >? 252)) with false.
  2:{ symmetry. apply orb_false_iff.
      split; [apply Z.eqb_neq|rewrite Z.gtb_ltb; apply Z.ltb_ge]; lia. }
  destruct (accepted_command (CMD_SEND_DATA :: chunk) 1000 s Hi)
    as (s1 & E & Hj & _); [rewrite len_cons; lia|lia|].
  exists s1. rewrite (bind_run _ _ _ _ _ E). auto.
Qed.

(** On such a device the erase loop runs to its end. *)
Lemma erase_loop_accepted (fuel : nat) :
  forall (a base_addr erase_len page_size : Z) (s : state W),
    I (dev s) -> 0 < page_size -> 0 <= a ->
    u32 (base_addr + erase_len) + page_size <= 2 ^ 32 ->
    (Z.to_nat (u32 (base_addr + erase_len) - a) < fuel)%nat ->
    exists s',
      erase_loop fuel a base_addr erase_len page_size s = Ret None s' /\
      I (dev s').
Proof.
  induction fuel as [|fuel IH]; intros a ba el ps s Hi Hp Ha Hroom Hf; [lia|].
  cbn [erase_loop].
  destruct (a <? u32 (ba + el)) eqn:Hlt; [|now exists s].
  apply Z.ltb_lt in Hlt.
  destruct (accepted_erase a s Hi) as (s1 & E1 & Hj).
  rewrite (bind_run _ _ _ _ _ E1). cbn [Z.eqb negb].
  destruct (accepted_status 1000 0 s1 Hj ltac:(lia))
    as (s2 & d & E2 & Hi2 & _).
  rewrite (bind_run _ _ _ _ _ E2). cbn [Z.eqb negb].
  replace (u32 (a + ps)) with (a + ps)
    by (unfold u32; symmetry; apply Z.mod_small; lia).
  apply IH; try assumption; lia.
Qed.

(** And so does the transfer loop. *)
Lemma send_loop_accepted (image : list Z) (fuel : nat) :
  len image + 4 <= 2 ^ 64 ->
  let total_len := padded_length (len image) in
  forall (off : Z) (s : state W),
    I (dev s) -> 0 <= off <= total_len -> off mod 4 = 0 ->
    (Z.to_nat (total_len - off) < fuel)%nat ->
    exists s',
      send_loop fuel image total_len off s = Ret None s' /\ I (dev s').
Proof.
  intros Hb total_len.
  induction fuel as [|fuel IH]; intros off s Hi Hoff Hal Hf; [lia|].
  cbn [send_loop].
  destruct (off <? total_len) eqn:Hlt; [|now exists s].
  apply Z.ltb_lt in Hlt. cbv zeta.
  destruct (chunk_at_slice image off Hb ltac:(fold total_len; lia) Hal)
    as (Hc1 & Hc2 & Hfull & _ & Hclen).
  fold total_len in Hc1, Hc2, Hfull, Hclen.
  destruct (accepted_data _ s Hi ltac:(rewrite Hclen; lia)) as (s1 & E1 & Hj).
  rewrite (bind_run _ _ _ _ _ E1). cbn [Z.eqb negb].
  destruct (accepted_status 500 0 s1 Hj ltac:(lia))
    as (s2 & d & E2 & Hi2 & _).
  rewrite (bind_run _ _ _ _ _ E2).
  change (negb (0 =? 0)) with false. cbv iota.
  change (negb (COMMAND_RET_SUCCESS =? 64)) with false. cbv iota.
  pose proof (padded_length_facts (len image) (len_nonneg image) Hb)
    as [Ht4 Hp].
  fold total_len in Ht4, Hp.
  replace (size_t (off + chunk_length total_len off))
    with (off + chunk_length total_len off)
    by (unfold size_t; symmetry; apply Z.mod_small; lia).
  apply IH; try assumption; try lia.
  destruct Hfull as [Hfl | Hfl]; rewrite Hfl.
  - rewrite <- Z.add_mod_idemp_l, Hal by lia. reflexivity.
  - exact Ht4.
Qed.

(** So the whole of [sbl_program_binary] returns 0. *)
Lemma program_binary_accepted (flash_size page_size : Z) (image : list Z)
      (base_addr : Z) (s : state W) :
  I (dev s) ->
  0 < page_size <= flash_size -> flash_size < 2 ^ 32 ->
  is_u32 base_addr -> len image + 4 <= 2 ^ 64 ->
  base_addr mod page_size = 0 ->
  exists fuel0, forall fuel, (fuel0 <= fuel)%nat ->
    exists s',
      sbl_program_binary fuel flash_size page_size image base_addr s
      = Ret 0 s'.
Proof.
  intros Hi Hps Hfs Hba Hb Hal.
  set (erase_len := erase_length flash_size page_size (len image) base_addr).
  set (total_len := padded_length (len image)).
  exists (S (Z.to_nat (u32 (base_addr + erase_len) - base_addr))
          + S (Z.to_nat total_len))%nat.
  intros fuel Hfuel.
  unfold sbl_program_binary, u32_rem. fold erase_len total_len.
  replace (page_size =? 0) with false by (symmetry; apply Z.eqb_neq; lia).
  unfold bind at 1. unfold ret at 1. rewrite Hal. cbn [Z.eqb negb].
  assert (Hroom : u32 (base_addr + erase_len) + page_size <= 2 ^ 32).
  { pose proof (erase_length_capped flash_size page_size (len image) base_addr)
      as Hcap.
    fold erase_len in Hcap. unfold u32 at 2 in Hcap.
    rewrite Z.mod_small in Hcap by lia. lia. }
  destruct (erase_loop_accepted fuel base_addr base_addr erase_len page_size s)
    as (s1 & E1 & Hi1); try assumption; try lia.
  { unfold is_u32 in Hba. lia. }
  rewrite (bind_run _ _ _ _ _ E1).
  destruct (accepted_download base_addr (u32 total_len) s1 Hi1)
    as (s2 & E2 & Hj2).
  rewrite (bind_run _ _ _ _ _ E2). cbn [Z.eqb negb].
  destruct (accepted_status 500 0 s2 Hj2 ltac:(lia))
    as (s3 & d3 & E3 & Hi3 & _).
  rewrite (bind_run _ _ _ _ _ E3).
  change (negb (0 =? 0)) with false. cbv iota.
  change (negb (COMMAND_RET_SUCCESS =? 64)) with false. cbv iota.
  pose proof (padded_length_facts (len image) (len_nonneg image) Hb) as Hp.
  fold total_len in Hp. pose proof (len_nonneg image) as Hl.
  destruct (send_loop_accepted image fuel Hb 0 s3)
    as (s4 & E4 & Hi4); try assumption; try reflexivity.
  { fold total_len. lia. }
  { fold total_len. lia. }
  fold total_len in E4. rewrite (bind_run _ _ _ _ _ E4).
  destruct (sbl_reset_sends 1000 ltac:(timeout_ok) s4)
    as (r5 & s5 & d5 & E5 & _).
  rewrite (bind_run _ _ _ _ _ E5). now exists s5.
Qed.

End Accepting.

(** The device [steady_transport] is one: it acknowledges from position 0
    and reports SUCCESS from position 1. *)
Lemma steady_acks_frames :
  acks_frames (fun w : nat => w = 0%nat) (fun w : nat => w = 1%nat).
Proof. intros w frame ->. exists 0%nat, 1%nat. repeat split. Qed.

Lemma steady_reports_success :
  reports_success (fun w : nat => w = 1%nat) (fun w : nat => w = 0%nat).
Proof.
  intros w t ->. exists 1%nat, 2%nat, 3%nat, 4%nat, 0%nat, 0%nat.
  repeat split.
Qed.

(* ================================================================== *)
(** ** Simulated runs *)

(** C1, on the code: the status read after SECTOR_ERASE is fetched but not
    compared with [0x40].  Programming 0x1001 bytes at 0 (two pages of
    0x1000) on a device that answers FLASH_FAIL after the second erase,
    [sbl_program_binary] consumes that answer, goes on to DOWNLOAD and 17
    SEND_DATA, and returns 0. *)
Theorem erase_status_not_checked :
  sbl_get_status 1000 0 (boot (dev_status COMMAND_RET_FLASH_FAIL))
  = Ret (0, COMMAND_RET_FLASH_FAIL)
        (mkState [] (EOTHER 0)
                 [EvWrite [3; 0x23; 0x23];
                  EvRead 1 20; EvRead 1 50; EvRead 1 1000; EvRead 1 1000;
                  EvWrite [0; SBL_ACK]]) /\
  exists s',
    sbl_program_binary 20 0x20000 0x1000 (demo_image 0x1001) 0
                       (boot (dev_second_erase_fails 17)) = Ret 0 s' /\
    dev s' = [] /\
    erased_pages (trace s') = [0; 0x1000] /\
    args_of CMD_DOWNLOAD (cmds_of (trace s')) = [be_bytes 0 ++ be_bytes 0x1004] /\
    concat (sent_data (trace s')) = demo_image 0x1001 ++ [0xFF; 0xFF; 0xFF] /\
    len (sent_data (trace s')) = 17.
Proof.
  split; [vm_compute; reflexivity|].
  eexists. split; [vm_compute; reflexivity|].
  repeat split; vm_compute; reflexivity.
Qed.

(* ================================================================== *)
(** ** The programming workflow *)

(** C2.  [total_len] is [image_len] rounded up to a multiple of 4.  In a
    flash that holds at least one page, [sbl_program_binary] returns once
    the fuel covers its loops.  In every run that returns, each SEND_DATA
    carries between 1 and 252 bytes, and the chunks sent, put end to end,
    are a prefix of the image followed by [total_len - image_len] bytes
    [0xFF]; when the run returns 0 they are all of it, in
    [ceil(total_len / 252)] chunks: 3 chunks for an image of 517 bytes.
    And the run does return 0, having sent all of it, on every device that
    acknowledges each frame and answers each GET_STATUS with SUCCESS, when
    the base address is page aligned. *)
Theorem program_binary_sends_padded_image {W : Type} {T : Transport W}
        (flash_size page_size : Z) (image : list Z) (base_addr : Z)
        (s : state W) :
  is_u32 base_addr -> len image + 4 <= 2 ^ 64 ->
  let image_len := len image in
  let total_len := padded_length image_len in
  let padded := image ++ repeat 0xFF (Z.to_nat (total_len - image_len)) in
  (total_len = round_up image_len 4 /\
   total_len mod 4 = 0 /\ image_len <= total_len < image_len + 4) /\
  (0 < page_size <= flash_size -> flash_size < 2 ^ 32 ->
   exists fuel0, forall fuel, (fuel0 <= fuel)%nat ->
     exists r s',
       sbl_program_binary fuel flash_size page_size image base_addr s
       = Ret r s') /\
  (forall (fuel : nat) (r : Z) (s' : state W),
      sbl_program_binary fuel flash_size page_size image base_addr s
      = Ret r s' ->
      exists d,
        trace s' = trace s ++ d /\
        Forall (fun chunk => 1 <= len chunk <= 252) (sent_data d) /\
        (exists rest, padded = concat (sent_data d) ++ rest) /\
        (r = 0 ->
         concat (sent_data d) = padded /\
         len (sent_data d) = (total_len + 251) / 252 /\
         (image_len = 517 -> len (sent_data d) = 3))) /\
  (forall I J : W -> Prop,
      acks_frames I J -> reports_success J I -> I (dev s) ->
      0 < page_size <= flash_size -> flash_size < 2 ^ 32 ->
      base_addr mod page_size = 0 ->
      exists fuel0, forall fuel, (fuel0 <= fuel)%nat ->
        exists s' d,
          sbl_program_binary fuel flash_size page_size image base_addr s
          = Ret 0 s' /\
          trace s' = trace s ++ d /\
          Forall (fun chunk => 1 <= len chunk <= 252) (sent_data d) /\
          concat (sent_data d) = padded /\
          len (sent_data d) = (total_len + 251) / 252 /\
          (image_len = 517 -> len (sent_data d) = 3)).
Proof.
  intros Hba Hb image_len total_len padded.
  assert (Hruns : forall (fuel : nat) (r : Z) (s' : state W),
             sbl_program_binary fuel flash_size page_size image base_addr s
             = Ret r s' ->
             exists d,
               trace s' = trace s ++ d /\
               Forall (fun chunk => 1 <= len chunk <= 252) (sent_data d) /\
               (exists rest, padded = concat (sent_data d) ++ rest) /\
               (r = 0 ->
                concat (sent_data d) = padded /\
                len (sent_data d) = (total_len + 251) / 252 /\
                (image_len = 517 -> len (sent_data d) = 3))).
  { intros fuel r s' E.
    destruct (program_binary_phases fuel flash_size page_size image base_addr
                s s' r Hba Hb E)
      as (d1 & d2 & Htr & F1 & _ & L2 & P2 & Q2).
    apply erase_cmds_pages in F1. destruct F1 as [_ S1].
    assert (Hs : sent_data (d1 ++ d2) = sent_data d2).
    { unfold sent_data in *. rewrite cmds_of_app, args_of_app, S1.
      reflexivity. }
    exists (d1 ++ d2). rewrite Hs.
    split; [exact Htr|]. split; [exact L2|]. split; [exact P2|].
    intros Hr. destruct (Q2 Hr) as [Qa Qb].
    split; [exact Qa|]. split; [exact Qb|].
    intros H517. rewrite Qb. fold image_len. rewrite H517. reflexivity. }
  split.
  { pose proof (padded_length_facts image_len (len_nonneg image) Hb) as Hp.
    fold total_len in Hp. split; [|exact Hp].
    unfold round_up. destruct Hp as [H4 Hr].
    pose proof (Z.div_mod total_len 4 ltac:(lia)) as Ht.
    pose proof (Z.div_mod (image_len + 4 - 1) 4 ltac:(lia)) as Hi.
    pose proof (Z.mod_pos_bound (image_len + 4 - 1) 4 ltac:(lia)) as Hm.
    lia. }
  split; [intros Hps Hfs; now apply program_binary_returns|].
  split; [exact Hruns|].
  intros I J Hack Hok Hi Hps Hfs Hal.
  destruct (program_binary_accepted I J Hack Hok flash_size page_size
              image base_addr s Hi Hps Hfs Hba Hb Hal)
    as (fuel0 & Hrun).
  exists fuel0. intros fuel Hfuel.
  destruct (Hrun fuel Hfuel) as (s' & E).
  destruct (Hruns fuel 0 s' E) as (d & Htr & Hl & _ & Hall).
  destruct (Hall eq_refl) as (Hc & Hn & H517).
  exists s', d. repeat split; assumption.
Qed.

(** An instance: 517 bytes programmed at 0 on a device that reports
    SUCCESS throughout go out in 3 chunks, the last three bytes [0xFF]. *)
Lemma program_binary_sends_padded_image_witness :
  (is_u32 0 /\ len (demo_image 517) + 4 <= 2 ^ 64) /\
  (exists s',
     sbl_program_binary 5 0x20000 0x1000 (demo_image 517) 0
                        (boot (dev_success 1 3)) = Ret 0 s' /\
     exists d,
       trace s' = d /\
       concat (sent_data d) = demo_image 517 ++ [0xFF; 0xFF; 0xFF] /\
       len (sent_data d) = 3) /\
  (exists fuel0, forall fuel, (fuel0 <= fuel)%nat ->
     exists s' d,
       sbl_program_binary fuel 0x20000 0x1000 (demo_image 517) 0
                          (mkState 0%nat (EOTHER 0) []) = Ret 0 s' /\
       trace s' = [] ++ d /\
       len (sent_data d) = 3).
Proof.
  assert (H0 : is_u32 0) by (unfold is_u32; lia).
  assert (Hl : len (demo_image 517) + 4 <= 2 ^ 64) by (vm_compute; discriminate).
  split; [split; assumption|]. split.
  - eexists. split; [vm_compute; reflexivity|].
    match goal with
    | |- exists d, trace ?st = d /\ _ =>
        destruct (proj1 (proj2 (proj2 (program_binary_sends_padded_image
                                         0x20000 0x1000 (demo_image 517) 0
                                         (boot (dev_success 1 3)) H0 Hl)))
                        5%nat 0 st)
          as (d & Htr & _ & _ & Hok)
    end.
    + vm_compute. reflexivity.
    + destruct (Hok eq_refl) as (Hc & _ & H3).
      exists d. split; [exact Htr|]. split; [exact Hc|].
      apply H3. reflexivity.
  - destruct (proj2 (proj2 (proj2 (program_binary_sends_padded_image
                                     0x20000 0x1000 (demo_image 517) 0
                                     (mkState 0%nat (EOTHER 0) []) H0 Hl)))
                    (fun w : nat => w = 0%nat) (fun w : nat => w = 1%nat)
                    steady_acks_frames steady_reports_success eq_refl
                    ltac:(lia) ltac:(lia) eq_refl)
      as (fuel0 & Hrun).
    exists fuel0. intros fuel Hfuel.
    destruct (Hrun fuel Hfuel) as (s' & d & E & Htr & _ & _ & _ & H3).
    exists s', d. split; [exact E|]. split; [exact Htr|].
    apply H3. reflexivity.
Defined.

(** C4.  The erase length that [sbl_program_binary] computes satisfies
    [base_addr + erase_len <= flash_size - page_size] in 32-bit unsigned
    arithmetic.  In a flash that holds at least one page the call returns
    once the fuel covers its loops, and in every run that returns (those
    that pass the alignment check are the ones that erase at all) each
    address given to SECTOR_ERASE is below [flash_size - page_size], the
    start of the last page. *)
Theorem erase_stays_below_last_page {W : Type} {T : Transport W}
        (flash_size page_size : Z) (image : list Z) (base_addr : Z)
        (s : state W) :
  is_u32 base_addr -> len image + 4 <= 2 ^ 64 ->
  let erase_len := erase_length flash_size page_size (len image) base_addr in
  let last_page_start := u32 (flash_size - page_size) in
  u32 (base_addr + erase_len) <= last_page_start /\
  (0 < page_size <= flash_size -> flash_size < 2 ^ 32 ->
   exists fuel0, forall fuel, (fuel0 <= fuel)%nat ->
     exists r s',
       sbl_program_binary fuel flash_size page_size image base_addr s
       = Ret r s') /\
  (forall (fuel : nat) (r : Z) (s' : state W),
      sbl_program_binary fuel flash_size page_size image base_addr s
      = Ret r s' ->
      exists d,
        trace s' = trace s ++ d /\
        Forall (fun a => 0 <= a < last_page_start) (erased_pages d)).
Proof.
  intros Hba Hb erase_len last_page_start.
  assert (Hinv : u32 (base_addr + erase_len) <= last_page_start)
    by apply erase_length_capped.
  split; [exact Hinv|].
  split; [intros Hps Hfs; now apply program_binary_returns|].
  intros fuel r s' E.
  destruct (program_binary_phases fuel flash_size page_size image base_addr
              s s' r Hba Hb E)
    as (d1 & d2 & Htr & F1 & F2 & _).
  fold erase_len in F1.
  apply erase_cmds_pages in F1. destruct F1 as [P1 _].
  exists (d1 ++ d2). split; [exact Htr|].
  unfold erased_pages in *.
  rewrite cmds_of_app, args_of_app, (args_of_absent _ _ F2), app_nil_r.
  revert P1. apply Forall_impl. intros a Ha. lia.
Qed.

(** An instance: 0x1001 bytes at 0 in a flash of 0x20000 with pages of
    0x1000 erase the pages 0 and 0x1000, below 0x1F000. *)
Lemma erase_stays_below_last_page_witness :
  (is_u32 0 /\ len (demo_image 0x1001) + 4 <= 2 ^ 64) /\
  exists s',
    sbl_program_binary 20 0x20000 0x1000 (demo_image 0x1001) 0
                       (boot (dev_success 2 17)) = Ret 0 s' /\
    erased_pages (trace s') = [0; 0x1000] /\
    Forall (fun a => 0 <= a < 0x1F000) (erased_pages (trace s')).
Proof.
  assert (H0 : is_u32 0) by (unfold is_u32; lia).
  assert (Hl : len (demo_image 0x1001) + 4 <= 2 ^ 64)
    by (vm_compute; discriminate).
  split; [split; assumption|].
  eexists. split; [vm_compute; reflexivity|].
  split; [vm_compute; reflexivity|].
  match goal with
  | |- Forall _ (erased_pages (trace ?st)) =>
      destruct (proj2 (proj2 (erase_stays_below_last_page
                                0x20000 0x1000 (demo_image 0x1001) 0
                                (boot (dev_success 2 17)) H0 Hl))
                      20%nat 0 st)
        as (d & Htr & Hd)
  end.
  - vm_compute. reflexivity.
  - cbn [boot trace app] in Htr. rewrite Htr. exact Hd.
Defined.

(** C10.  [sbl_program_binary] evaluates [base_addr % page_size] before
    anything else and without a guard: whatever the other arguments, the
    transport and the fuel, the call is undefined (a division by zero)
    exactly when [page_size] is 0.  The erase length itself, which uses the
    page size only in [+], [-], [&] and [~], is a total function. *)
Theorem program_binary_undefined_iff_page_size_zero
        {W : Type} {T : Transport W}
        (fuel : nat) (flash_size page_size : Z) (image : list Z)
        (base_addr : Z) (s : state W) :
  sbl_program_binary fuel flash_size page_size image base_addr s = Undefined
  <-> page_size = 0.
Proof.
  split.
  - intros E. destruct (Z.eq_dec page_size 0) as [H|H]; [exact H|].
    exfalso. revert E. now apply program_binary_defined.
  - intros ->. reflexivity.
Qed.

(* ================================================================== *)
(** ** Further properties of [sbl.c] *)

Lemma byte_sum_app (a b : list Z) : byte_sum (a ++ b) = byte_sum a + byte_sum b.
Proof.
  induction a as [|x a IH]; simpl; [reflexivity|]. rewrite IH. lia.
Qed.

Lemma byte_sum_perm (a b : list Z) : Permutation a b -> byte_sum a = byte_sum b.
Proof.
  induction 1; simpl; lia.
Qed.

(** X1.  [checksum_sum] yields a byte; it is additive over concatenation
    modulo 256, and it does not depend on the order of the bytes: a frame
    whose payload bytes arrive permuted passes the check. *)
Theorem checksum_sum_additive_order_blind (a b : list Z) :
  0 <= checksum_sum a < 256 /\
  checksum_sum (a ++ b) = (checksum_sum a + checksum_sum b) mod 256 /\
  (Permutation a b -> checksum_sum a = checksum_sum b).
Proof.
  rewrite !checksum_sum_mod. split; [apply Z.mod_pos_bound; lia|]. split.
  - rewrite byte_sum_app. apply Z.add_mod. lia.
  - intros Hp. now rewrite (byte_sum_perm a b Hp).
Qed.

Section ReadExact.

Context {W : Type} {T : Transport W}.

Lemma read_exact_loop_exact (fuel : nat) :
  forall (buf : list Z) (n t : Z) (s : state W),
    len buf <= n ->
    (Z.to_nat (n - len buf) < fuel)%nat ->
    exists r more s' reqs rs,
      read_exact_loop fuel buf n t s = Ret (r, buf ++ more) s' /\
      trace s' = trace s ++ map (fun k => EvRead k t) reqs /\
      Forall (fun k => 1 <= k <= n - len buf) reqs /\
      len reqs <= n - len buf /\
      Forall is_byte more /\
      (r = 1 /\ len (buf ++ more) = n \/
       (r = 0 \/ r = -1) /\ len (buf ++ more) < n) /\
      (0 <= r -> errno s' = errno s) /\
      play (dev s) t reqs = (rs, dev s') /\
      reqs = asked (n - len buf) rs /\
      more = concat (map data_of rs) /\
      (r = 1 -> Forall is_data rs) /\
      (r = 0 -> exists pre, rs = pre ++ [RdNone] /\ Forall is_data pre) /\
      (r = -1 ->
       exists pre e,
         rs = pre ++ [RdFail e] /\ Forall is_data pre /\ errno s' = e).
Proof.
  induction fuel as [|fuel IH]; intros buf n t s Hle Hf; [lia|].
  cbn [read_exact_loop].
  destruct (len buf <? n) eqn:Hlt.
  - apply Z.ltb_lt in Hlt.
    unfold bind at 1. unfold serial_read_timeout.
    destruct (tr_read (dev s) (n - len buf) t) as [[e| |bs] w] eqn:Hr.
    + cbn. exists (-1), [], (mkState w e (trace s ++ [EvRead (n - len buf) t])),
        [n - len buf], [RdFail e].
      rewrite app_nil_r. cbn [map play dev]. rewrite Hr.
      split; [reflexivity|]. split; [reflexivity|].
      split; [constructor; [lia|constructor]|].
      split; [change (len [n - len buf]) with 1; lia|].
      split; [constructor|]. split; [right; split; [auto|lia]|].
      split; [lia|]. split; [reflexivity|]. split; [reflexivity|].
      split; [reflexivity|]. split; [discriminate|]. split; [discriminate|].
      intros _. exists [], e. cbn [errno app]. auto.
    + cbn. exists 0, [],
        (mkState w (errno s) (trace s ++ [EvRead (n - len buf) t])),
        [n - len buf], [RdNone].
      rewrite app_nil_r. cbn [map play dev]. rewrite Hr.
      split; [reflexivity|]. split; [reflexivity|].
      split; [constructor; [lia|constructor]|].
      split; [change (len [n - len buf]) with 1; lia|].
      split; [constructor|]. split; [right; split; [auto|lia]|].
      split; [reflexivity|]. split; [reflexivity|]. split; [reflexivity|].
      split; [reflexivity|]. split; [discriminate|].
      split; [intros _; exists []; auto|discriminate].
    + pose proof (tr_read_fits _ _ _ _ _ Hr) as [Hl Hb].
      replace (len bs <? 0) with false by (symmetry; apply Z.ltb_ge; lia).
      replace (len bs =? 0) with false by (symmetry; apply Z.eqb_neq; lia).
      destruct (IH (buf ++ bs) n t
                   (mkState w (errno s) (trace s ++ [EvRead (n - len buf) t])))
        as (r & more & s' & reqs & rs & E & Ht & Hq & Hn & Hm & Hres & He
            & Hplay & Hask & Hmore & H1 & H0 & Hm1).
      { rewrite len_app. lia. }
      { rewrite len_app. lia. }
      rewrite len_app in Hq, Hn, Hask.
      exists r, (bs ++ more), s', ((n - len buf) :: reqs), (RdData bs :: rs).
      rewrite app_assoc. split; [exact E|].
      cbn [trace] in Ht. rewrite <- app_assoc in Ht.
      split; [exact Ht|].
      split.
      { constructor; [lia|]. revert Hq. apply Forall_impl. intros k Hk. lia. }
      split; [rewrite len_cons; lia|].
      split; [apply Forall_app; auto|].
      split; [exact Hres|]. split; [exact He|].
      cbn [dev] in Hplay. cbn [play]. rewrite Hr, Hplay.
      split; [reflexivity|].
      split.
      { cbn [asked data_of]. rewrite Hask. f_equal. f_equal. lia. }
      split; [cbn [map concat data_of]; now rewrite Hmore|].
      split; [intros Hr1; constructor; [exact Logic.I|now apply H1]|].
      split.
      * intros Hr0. destruct (H0 Hr0) as (pre & -> & Hpre).
        exists (RdData bs :: pre). split; [reflexivity|].
        constructor; [exact Logic.I|exact Hpre].
      * intros Hr1. destruct (Hm1 Hr1) as (pre & e & -> & Hpre & Herr).
        exists (RdData bs :: pre), e. split; [reflexivity|].
        split; [constructor; [exact Logic.I|exact Hpre]|exact Herr].
  - apply Z.ltb_ge in Hlt.
    exists 1, [], s, [], []. cbn [map play asked concat]. rewrite !app_nil_r.
    split; [reflexivity|]. split; [reflexivity|]. split; [constructor|].
    split; [rewrite len_nil; lia|]. split; [constructor|].
    split; [left; split; [reflexivity|lia]|].
    split; [reflexivity|]. split; [reflexivity|]. split; [reflexivity|].
    split; [reflexivity|]. split; [constructor|].
    split; [discriminate|discriminate].
Qed.

End ReadExact.

(** X2.  [read_exact_timeout] for [n] bytes returns 1 exactly when the
    buffer holds [n] bytes; it returns 0 or -1 at the first read that
    yields nothing or fails, with fewer than [n] bytes stored.  No read
    asks for more than [n] bytes, at most [n] reads are made (none for
    [n = 0]), and [errno] is untouched unless the result is -1.  The reads
    are those the trace shows, made one after the other on the transport,
    each asking for all that is still missing; the buffer holds what they
    delivered, in order; with 1 every read delivered bytes, with 0 every
    read but the last did and the last yielded nothing, with -1 every read
    but the last did and the last failed, its error left in [errno]. *)
Theorem read_exact_timeout_exact {W : Type} {T : Transport W}
        (n timeout_ms : Z) (s : state W) :
  0 <= n ->
  exists r out s' reqs,
    read_exact_timeout n timeout_ms s = Ret (r, out) s' /\
    trace s' = trace s ++ map (fun k => EvRead k timeout_ms) reqs /\
    Forall (fun k => 1 <= k <= n) reqs /\
    len reqs <= n /\
    Forall is_byte out /\
    (r = 1 /\ len out = n \/ (r = 0 \/ r = -1) /\ len out < n) /\
    (0 <= r -> errno s' = errno s) /\
    exists rs,
      play (dev s) timeout_ms reqs = (rs, dev s') /\
      reqs = asked n rs /\
      out = concat (map data_of rs) /\
      (r = 1 -> Forall is_data rs) /\
      (r = 0 -> exists pre, rs = pre ++ [RdNone] /\ Forall is_data pre) /\
      (r = -1 ->
       exists pre e,
         rs = pre ++ [RdFail e] /\ Forall is_data pre /\ errno s' = e).
Proof.
  intros Hn. unfold read_exact_timeout.
  destruct (read_exact_loop_exact (S (Z.to_nat n)) [] n timeout_ms s)
    as (r & more & s' & reqs & rs & E & Ht & Hq & Hl & Hm & Hr & He
        & Hplay & Hask & Hmore & H1 & H0 & Hm1).
  { rewrite len_nil. lia. }
  { rewrite len_nil. lia. }
  rewrite len_nil, Z.sub_0_r in Hq, Hl, Hask. cbn [app] in E, Hr.
  exists r, more, s', reqs.
  split; [exact E|]. split; [exact Ht|]. split; [exact Hq|].
  split; [exact Hl|]. split; [exact Hm|]. split; [exact Hr|].
  split; [exact He|].
  exists rs. repeat split; assumption.
Qed.

(** An instance: four bytes asked, two delivered, then silence. *)
Lemma read_exact_timeout_exact_witness :
  0 <= 4 /\
  read_exact_timeout 4 100 (boot [Byte 1; Byte 2; Gap; Byte 3])
  = Ret (0, [1; 2])
        (mkState [Byte 3] (EOTHER 0) [EvRead 4 100; EvRead 3 100; EvRead 2 100]) /\
  exists r out s' reqs,
    read_exact_timeout 4 100 (boot [Byte 1; Byte 2; Gap; Byte 3])
    = Ret (r, out) s' /\
    trace s' = map (fun k => EvRead k 100) reqs /\
    (r = 1 /\ len out = 4 \/ (r = 0 \/ r = -1) /\ len out < 4) /\
    exists rs,
      play [Byte 1; Byte 2; Gap; Byte 3] 100 reqs = (rs, dev s') /\
      (r = 0 -> exists pre, rs = pre ++ [RdNone] /\ Forall is_data pre).
Proof.
  split; [lia|]. split; [vm_compute; reflexivity|].
  destruct (read_exact_timeout_exact 4 100 (boot [Byte 1; Byte 2; Gap; Byte 3]))
    as (r & out & s' & reqs & E & Ht & _ & _ & _ & Hr & _ & rs & Hp & _ & _
        & _ & H0 & _); [lia|].
  exists r, out, s', reqs. split; [exact E|]. split; [exact Ht|].
  split; [exact Hr|]. exists rs. split; [exact Hp|exact H0].
Defined.

Section CommandResults.

Context {W : Type} {T : Transport W}.

(** The response block: how it can end. *)
Lemma read_response_shape (out_max t : Z) (s : state W) :
  0 <= out_max < 2 ^ 31 ->
  exists r out s' d,
    read_response out_max t s = Ret (r, out) s' /\
    trace s' = trace s ++ d /\
    (r = -1 \/
     r = 0 /\ out = [] /\ writes_of d = [] \/
     0 <= r <= out_max /\ r <= 253 /\ len out = r /\ Forall is_byte out /\
     writes_of d = [[0x00; SBL_ACK]]).
Proof.
  intros Hom. unfold read_response, read_exact_timeout.
  destruct (read_exact_loop_exact (S (Z.to_nat 1)) [] 1 50 s)
    as (r & szb & s1 & q1 & p1 & E1 & T1 & _ & _ & B1 & R1 & _);
    [rewrite len_nil; lia | rewrite len_nil; simpl; lia |].
  cbn [app] in E1, R1. rewrite (bind_run _ _ _ _ _ E1).
  assert (W1 : writes_of (map (fun k => EvRead k 50) q1) = [])
    by (clear; induction q1; simpl; auto).
  destruct ((r >? 0) && negb (nth 0 szb 0 =? 0)) eqn:Hc.
  2:{ exists 0, [], s1, (map (fun k => EvRead k 50) q1). unfold ret.
      split; [reflexivity|]. split; [exact T1|]. right. left. auto. }
  apply andb_true_iff in Hc. destruct Hc as [Hr Hz].
  rewrite Z.gtb_ltb in Hr. apply Z.ltb_lt in Hr.
  destruct R1 as [[_ L1] | [[-> | ->] _]]; try lia.
  destruct (len_one szb L1) as [sz ->]. cbn [nth] in *.
  assert (Hsz : is_byte sz) by now inversion B1.
  unfold is_byte in Hsz.
  apply negb_true_iff, Z.eqb_neq in Hz.
  destruct (read_exact_loop_exact (S (Z.to_nat 1)) [] 1 t s1)
    as (r2 & csb & s2 & q2 & p2 & E2 & T2 & _ & _ & _ & _ & _);
    [rewrite len_nil; lia | rewrite len_nil; simpl; lia |].
  cbn [app] in E2. rewrite (bind_run _ _ _ _ _ E2).
  assert (W2 : writes_of (map (fun k => EvRead k t) q2) = [])
    by (clear; induction q2; simpl; auto).
  destruct (r2 <=? 0).
  { eexists (-1), [], s2, _. unfold ret. split; [reflexivity|].
    split; [rewrite T2, T1, <- app_assoc; reflexivity|]. now left. }
  destruct (size_t (sz - 2) >? out_max) eqn:Hbig.
  { eexists (-1), [], _, _. unfold bind, set_errno, ret. cbn [trace].
    split; [reflexivity|].
    split; [rewrite T2, T1, <- app_assoc; reflexivity|]. now left. }
  rewrite Z.gtb_ltb in Hbig. apply Z.ltb_ge in Hbig.
  assert (Hpl : size_t (sz - 2) = sz - 2 /\ 2 <= sz).
  { unfold size_t in *. destruct (Z_lt_le_dec sz 2) as [Hlt|Hge].
    - assert (sz = 1) by lia. subst sz.
      change ((1 - 2) mod 2 ^ 64) with (2 ^ 64 - 1) in Hbig. lia.
    - split; [apply Z.mod_small; lia|exact Hge]. }
  destruct Hpl as [Hpl Hge]. rewrite Hpl in *.
  destruct (read_exact_loop_exact (S (Z.to_nat (sz - 2))) [] (sz - 2) t s2)
    as (r3 & out & s3 & q3 & p3 & E3 & T3 & _ & _ & B3 & R3 & _);
    [rewrite len_nil; lia | rewrite len_nil; lia |].
  cbn [app] in E3, R3. rewrite (bind_run _ _ _ _ _ E3).
  assert (W3 : writes_of (map (fun k => EvRead k t) q3) = [])
    by (clear; induction q3; simpl; auto).
  set (d123 := map (fun k => EvRead k 50) q1 ++ map (fun k => EvRead k t) q2
               ++ map (fun k => EvRead k t) q3).
  assert (T123 : trace s3 = trace s ++ d123)
    by (subst d123; rewrite T3, T2, T1, <- !app_assoc; reflexivity).
  assert (W123 : writes_of d123 = [])
    by (subst d123; rewrite !writes_of_app, W1, W2, W3; reflexivity).
  destruct (r3 <=? 0) eqn:Hle.
  { exists (-1), out, s3, d123. unfold ret.
    split; [reflexivity|]. split; [exact T123|]. now left. }
  apply Z.leb_gt in Hle.
  destruct R3 as [[_ L3] | [[-> | ->] _]]; try lia.
  unfold bind at 1. unfold serial_write_all.
  assert (T4 : (trace s ++ d123) ++ [EvWrite [0; SBL_ACK]]
               = trace s ++ d123 ++ [EvWrite [0; SBL_ACK]])
    by (rewrite <- app_assoc; reflexivity).
  assert (W4 : writes_of (d123 ++ [EvWrite [0; SBL_ACK]]) = [[0; SBL_ACK]])
    by (rewrite writes_of_app, W123; reflexivity).
  destruct (tr_write (dev s3) [0; SBL_ACK]) as [[|e] w4].
  - change (len [0; SBL_ACK] <? 0) with false. cbv iota.
    destruct (negb (checksum_sum out =? nth 0 csb 0)).
    + eexists (-1), out, _, (d123 ++ [EvWrite [0; SBL_ACK]]).
      unfold bind, set_errno, ret. cbn [trace dev].
      split; [reflexivity|]. rewrite T123. split; [exact T4|]. now left.
    + eexists _, out, _, (d123 ++ [EvWrite [0; SBL_ACK]]).
      unfold ret. cbn [trace].
      split; [reflexivity|]. rewrite T123. split; [exact T4|].
      right. right. rewrite to_int_small by lia.
      repeat split; auto; lia.
  - change (-1 <? 0) with true. cbv iota.
    eexists (-1), out, _, (d123 ++ [EvWrite [0; SBL_ACK]]).
    unfold ret. cbn [trace].
    split; [reflexivity|]. rewrite T123. split; [exact T4|]. now left.
Qed.

(** How [sbl_send_cmd] can end. *)
Lemma sbl_send_cmd_shape (data : list Z) (out_max t : Z) (s : state W) :
  0 <= out_max < 2 ^ 31 -> t <= TIMEOUT_MAX ->
  exists r out s' d,
    sbl_send_cmd data out_max t s = Ret (r, out) s' /\
    trace s' = trace s ++ d /\
    (r = -1 \/
     1 <= len data <= 253 /\
     (r = 0 /\ out = [] /\ writes_of d = [frame_of data] \/
      0 <= r <= out_max /\ r <= 253 /\ len out = r /\ Forall is_byte out /\
      writes_of d = [frame_of data; [0x00; SBL_ACK]])).
Proof.
  intros Hom Ht. unfold sbl_send_cmd.
  destruct ((len data =? 0) || (len data >? 253)) eqn:Hbad.
  { eexists (-1), [], _, []. unfold bind, set_errno, ret. cbn [trace].
    rewrite app_nil_r. split; [reflexivity|]. split; [reflexivity|]. now left. }
  apply orb_false_iff in Hbad. destruct Hbad as [H0 H253].
  apply Z.eqb_neq in H0. rewrite Z.gtb_ltb in H253. apply Z.ltb_ge in H253.
  pose proof (len_nonneg data) as Hn.
  assert (Hl : 1 <= len data <= 253) by lia.
  assert (Hf : u8 (len data + 2) :: checksum_sum data :: data = frame_of data).
  { unfold frame_of, u8. rewrite Z.mod_small by (change (2 ^ 8) with 256; lia).
    now rewrite checksum_sum_mod. }
  rewrite Hf. unfold bind at 1. unfold serial_write_all.
  destruct (tr_write (dev s) (frame_of data)) as [[|e] w1].
  2:{ change (-1 <? 0) with true. cbv iota.
      eexists (-1), [], _, [EvWrite (frame_of data)]. unfold ret. cbn [trace].
      split; [reflexivity|]. split; [reflexivity|]. now left. }
  replace (len (frame_of data) <? 0) with false
    by (symmetry; apply Z.ltb_ge, len_nonneg).
  set (s1 := mkState w1 (errno s) (trace s ++ [EvWrite (frame_of data)])).
  destruct (sbl_wait_ack_run t s1 Ht) as (a & s2 & d2 & E2 & T2 & W2).
  rewrite (bind_run _ _ _ _ _ E2).
  cbn [trace s1] in T2. rewrite <- app_assoc in T2. simpl in T2.
  destruct (negb (a =? 0)).
  { exists (-1), [], s2, (EvWrite (frame_of data) :: d2). unfold ret.
    split; [reflexivity|]. split; [exact T2|]. now left. }
  destruct (negb (out_max =? 0)).
  - destruct (read_response_shape out_max t s2 Hom)
      as (r & out & s3 & d3 & E3 & T3 & R3).
    exists r, out, s3, (EvWrite (frame_of data) :: d2 ++ d3).
    split; [exact E3|].
    split; [rewrite T3, T2, <- app_assoc; reflexivity|].
    destruct R3 as [-> | [(-> & -> & W3) | (Hr & Hr2 & Hlo & Hb & W3)]].
    + now left.
    + right. split; [exact Hl|]. left.
      cbn [writes_of flat_map]. fold (writes_of (d2 ++ d3)).
      rewrite writes_of_app, W2, W3. auto.
    + right. split; [exact Hl|]. right.
      cbn [writes_of flat_map]. fold (writes_of (d2 ++ d3)).
      rewrite writes_of_app, W2, W3. auto.
  - exists 0, [], s2, (EvWrite (frame_of data) :: d2). unfold ret.
    split; [reflexivity|]. split; [exact T2|]. right. split; [exact Hl|].
    left. cbn [writes_of flat_map]. fold (writes_of d2). rewrite W2. auto.
Qed.

(** Without a buffer the result is 0 or -1 and the frame is the only
    write. *)
Lemma sbl_send_cmd_no_buffer (data : list Z) (t : Z) (s : state W) :
  1 <= len data <= 253 -> t <= TIMEOUT_MAX ->
  exists r s' rest,
    sbl_send_cmd data 0 t s = Ret (r, []) s' /\
    (r = 0 \/ r = -1) /\
    trace s' = trace s ++ EvWrite (frame_of data) :: rest /\
    writes_of rest = [].
Proof.
  intros Hl Ht. unfold sbl_send_cmd.
  replace ((len data =? 0) || (len data >? 253)) with false.
  2:{ symmetry. apply orb_false_iff.
      split; [apply Z.eqb_neq|rewrite Z.gtb_ltb; apply Z.ltb_ge]; lia. }
  assert (Hf : u8 (len data + 2) :: checksum_sum data :: data = frame_of data).
  { unfold frame_of, u8. rewrite Z.mod_small by (change (2 ^ 8) with 256; lia).
    now rewrite checksum_sum_mod. }
  rewrite Hf. unfold bind at 1. unfold serial_write_all.
  destruct (tr_write (dev s) (frame_of data)) as [[|e] w1].
  2:{ change (-1 <? 0) with true. cbv iota.
      eexists (-1), _, []. unfold ret. cbn [trace]. auto. }
  replace (len (frame_of data) <? 0) with false
    by (symmetry; apply Z.ltb_ge, len_nonneg).
  set (s1 := mkState w1 (errno s) (trace s ++ [EvWrite (frame_of data)])).
  destruct (sbl_wait_ack_run t s1 Ht) as (a & s2 & d2 & E2 & T2 & W2).
  rewrite (bind_run _ _ _ _ _ E2).
  cbn [trace s1] in T2. rewrite <- app_assoc in T2. simpl in T2.
  destruct (negb (a =? 0)).
  { exists (-1), s2, d2. unfold ret. auto. }
  change (negb (0 =? 0)) with false. cbv iota.
  exists 0, s2, d2. unfold ret. auto.
Qed.

End CommandResults.

(** X3.  [sbl_send_cmd] with a buffer of [out_max] bytes ends in one of
    three ways: -1; 0 with nothing stored, the frame being its only write;
    or the payload length [r <= min(out_max, 253)] with exactly [r] bytes
    stored, the frame and then the reply [0x00, 0xCC] being its two writes.
    A result other than -1 means the payload had 1 to 253 bytes. *)
Theorem sbl_send_cmd_result {W : Type} {T : Transport W}
        (data : list Z) (out_max timeout_ms : Z) (s : state W) :
  0 <= out_max < 2 ^ 31 -> timeout_ms <= TIMEOUT_MAX ->
  exists r out s' d,
    sbl_send_cmd data out_max timeout_ms s = Ret (r, out) s' /\
    trace s' = trace s ++ d /\
    (r = -1 \/
     1 <= len data <= 253 /\
     (r = 0 /\ out = [] /\ writes_of d = [frame_of data] \/
      0 <= r <= out_max /\ r <= 253 /\ len out = r /\ Forall is_byte out /\
      writes_of d = [frame_of data; [0x00; SBL_ACK]])).
Proof. apply sbl_send_cmd_shape. Qed.

(** An instance: GET_CHIP_ID answered with four bytes. *)
Lemma sbl_send_cmd_result_witness :
  (0 <= 4 < 2 ^ 31 /\ 500 <= TIMEOUT_MAX) /\
  exists r out s' d,
    sbl_send_cmd [CMD_GET_CHIP_ID] 4 500 (boot dev_reply_1234)
    = Ret (r, out) s' /\
    trace s' = d /\
    (r = -1 \/
     1 <= len [CMD_GET_CHIP_ID] <= 253 /\
     (r = 0 /\ out = [] /\ writes_of d = [frame_of [CMD_GET_CHIP_ID]] \/
      0 <= r <= 4 /\ r <= 253 /\ len out = r /\ Forall is_byte out /\
      writes_of d = [frame_of [CMD_GET_CHIP_ID]; [0x00; SBL_ACK]])).
Proof.
  assert (H1 : 0 <= 4 < 2 ^ 31) by lia.
  assert (H2 : 500 <= TIMEOUT_MAX) by timeout_ok.
  split; [split; assumption|].
  exact (sbl_send_cmd_result [CMD_GET_CHIP_ID] 4 500 (boot dev_reply_1234) H1 H2).
Defined.

Lemma four_bytes (out : list Z) :
  len out = 4 -> Forall is_byte out ->
  exists b0 b1 b2 b3,
    out = [b0; b1; b2; b3] /\
    is_byte b0 /\ is_byte b1 /\ is_byte b2 /\ is_byte b3.
Proof.
  destruct out as [|b0 [|b1 [|b2 [|b3 [|b4 out]]]]]; unfold len; simpl;
    intros Hl Hb; try lia.
  inversion Hb as [|? ? H0 Hb1]; subst. inversion Hb1 as [|? ? H1 Hb2]; subst.
  inversion Hb2 as [|? ? H2 Hb3]; subst. inversion Hb3 as [|? ? H3 _]; subst.
  exists b0, b1, b2, b3. auto.
Qed.

Lemma is_byte_be_bytes (x : Z) : Forall is_byte (be_bytes x).
Proof.
  unfold be_bytes, u8, is_byte.
  repeat constructor; apply Z.mod_pos_bound; lia.
Qed.

(** X4.  [sbl_send_data] touches the transport exactly when the chunk has
    1 to 252 bytes.  An empty or longer chunk is refused with -1 and
    [EINVAL], nothing else changing.  Otherwise the result is 0 or -1, and
    the only write is the frame
    [n + 3, (0x24 + sum of the chunk) mod 256, 0x24, chunk...]. *)
Theorem sbl_send_data_frame {W : Type} {T : Transport W}
        (chunk : list Z) (timeout_ms : Z) (s : state W) :
  timeout_ms <= TIMEOUT_MAX ->
  (len chunk = 0 \/ len chunk > 252 ->
   sbl_send_data chunk timeout_ms s
   = Ret (-1) (mkState (dev s) EINVAL (trace s))) /\
  (1 <= len chunk <= 252 ->
   exists r s' rest,
     sbl_send_data chunk timeout_ms s = Ret r s' /\
     (r = 0 \/ r = -1) /\
     trace s' =
       trace s ++ EvWrite ((len chunk + 3)
                             :: (CMD_SEND_DATA + byte_sum chunk) mod 256
                             :: CMD_SEND_DATA :: chunk) :: rest /\
     writes_of rest = []).
Proof.
  intros Ht. split.
  - intros Hbad. unfold sbl_send_data.
    replace ((len chunk =? 0) || (len chunk >? 252)) with true; [reflexivity|].
    symmetry. apply orb_true_iff. destruct Hbad as [Hbad|Hbad].
    + left. now apply Z.eqb_eq.
    + right. rewrite Z.gtb_ltb. apply Z.ltb_lt. lia.
  - intros Hl. unfold sbl_send_data.
    replace ((len chunk =? 0) || (len chunk >? 252)) with false.
    2:{ symmetry. apply orb_false_iff.
        split; [apply Z.eqb_neq|rewrite Z.gtb_ltb; apply Z.ltb_ge]; lia. }
    destruct (sbl_send_cmd_no_buffer (CMD_SEND_DATA :: chunk) timeout_ms s)
      as (r & s' & rest & E & Hr & Htr & Hw); [rewrite len_cons; lia|exact Ht|].
    rewrite (bind_run _ _ _ _ _ E).
    exists r, s', rest. unfold ret. split; [reflexivity|]. split; [exact Hr|].
    split; [|exact Hw]. rewrite Htr. unfold frame_of. rewrite len_cons.
    cbn [byte_sum fold_right]. fold (byte_sum chunk).
    replace (len chunk + 1 + 2) with (len chunk + 3) by lia. reflexivity.
Qed.

(** Instances: 253 bytes are refused, three bytes go out in one frame. *)
Lemma sbl_send_data_frame_witness :
  500 <= TIMEOUT_MAX /\
  sbl_send_data (repeat 0 253) 500 (boot dev_ack)
  = Ret (-1) (mkState dev_ack EINVAL []) /\
  exists r s' rest,
    sbl_send_data [1; 2; 3] 500 (boot dev_ack) = Ret r s' /\
    (r = 0 \/ r = -1) /\
    trace s' = EvWrite [6; 0x2A; 0x24; 1; 2; 3] :: rest /\
    writes_of rest = [].
Proof.
  assert (Ht : 500 <= TIMEOUT_MAX) by timeout_ok.
  split; [exact Ht|]. split.
  - apply (proj1 (sbl_send_data_frame (repeat 0 253) 500 (boot dev_ack) Ht)).
    right. vm_compute. reflexivity.
  - apply (proj2 (sbl_send_data_frame [1; 2; 3] 500 (boot dev_ack) Ht)).
    vm_compute. split; discriminate.
Defined.

Section Encodings.

Context {W : Type} {T : Transport W}.

Lemma sbl_crc32_sends (addr length repeat t crc_out : Z) :
  t <= TIMEOUT_MAX ->
  sends (sbl_crc32 addr length repeat t crc_out)
        [CMD_CRC32 :: be_bytes addr ++ be_bytes length ++ be_bytes repeat].
Proof.
  intros Ht s. unfold sbl_crc32.
  destruct (sbl_send_cmd_sends
              (CMD_CRC32 :: be_bytes addr ++ be_bytes length ++ be_bytes repeat)
              4 t)
    with (s := s) as ([r out] & s' & d & E & Htr & Hc); auto.
  { rewrite len_cons, !len_app, !len_be_bytes. lia. }
  rewrite (bind_run _ _ _ _ _ E).
  destruct (r <? 0); [|destruct (negb (r =? 4))];
    eexists _, _, d; unfold bind, set_errno, ret; cbn [trace]; auto.
Qed.

End Encodings.

(** X5.  The 32-bit arguments of SECTOR_ERASE, DOWNLOAD and CRC32 travel
    most significant byte first and can be read back: each command sends
    one frame whose payload is the opcode followed by four bytes per
    argument, and the value of each group of four bytes is the argument. *)
Theorem address_commands_big_endian {W : Type} {T : Transport W}
        (addr length repeat timeout_ms crc_out : Z) (s : state W) :
  is_u32 addr -> is_u32 length -> is_u32 repeat ->
  timeout_ms <= TIMEOUT_MAX ->
  (exists r s' d a,
      sbl_sector_erase addr timeout_ms s = Ret r s' /\
      trace s' = trace s ++ d /\
      cmds_of d = [CMD_SECTOR_ERASE :: a] /\
      len a = 4 /\ Forall is_byte a /\ be_value a = addr) /\
  (exists r s' d a l,
      sbl_download addr length timeout_ms s = Ret r s' /\
      trace s' = trace s ++ d /\
      cmds_of d = [CMD_DOWNLOAD :: a ++ l] /\
      len a = 4 /\ len l = 4 /\ Forall is_byte (a ++ l) /\
      be_value a = addr /\ be_value l = length) /\
  (exists r s' d a l n,
      sbl_crc32 addr length repeat timeout_ms crc_out s = Ret r s' /\
      trace s' = trace s ++ d /\
      cmds_of d = [CMD_CRC32 :: a ++ l ++ n] /\
      len a = 4 /\ len l = 4 /\ len n = 4 /\ Forall is_byte (a ++ l ++ n) /\
      be_value a = addr /\ be_value l = length /\ be_value n = repeat).
Proof.
  intros Ha Hl Hr Ht. split; [|split].
  - destruct (sbl_sector_erase_sends addr timeout_ms Ht s)
      as (r & s' & d & E & Htr & Hc).
    exists r, s', d, (be_bytes addr).
    repeat split; auto using is_byte_be_bytes, be_value_be_bytes.
  - destruct (sbl_download_sends addr length timeout_ms Ht s)
      as (r & s' & d & E & Htr & Hc).
    exists r, s', d, (be_bytes addr), (be_bytes length).
    repeat split; auto using be_value_be_bytes.
    apply Forall_app. auto using is_byte_be_bytes.
  - destruct (sbl_crc32_sends addr length repeat timeout_ms crc_out Ht s)
      as (r & s' & d & E & Htr & Hc).
    exists r, s', d, (be_bytes addr), (be_bytes length), (be_bytes repeat).
    repeat split; auto using be_value_be_bytes.
    repeat (apply Forall_app; split); auto using is_byte_be_bytes.
Qed.

(** An instance: DOWNLOAD of 0x208 bytes at 0x00012000. *)
Lemma address_commands_big_endian_witness :
  (is_u32 0x12000 /\ is_u32 0x208 /\ is_u32 0 /\ 1000 <= TIMEOUT_MAX) /\
  exists r s' d a l,
    sbl_download 0x12000 0x208 1000 (boot dev_ack) = Ret r s' /\
    trace s' = d /\
    cmds_of d = [CMD_DOWNLOAD :: a ++ l] /\
    len a = 4 /\ len l = 4 /\ Forall is_byte (a ++ l) /\
    be_value a = 0x12000 /\ be_value l = 0x208.
Proof.
  assert (H1 : is_u32 0x12000) by (unfold is_u32; lia).
  assert (H2 : is_u32 0x208) by (unfold is_u32; lia).
  assert (H3 : is_u32 0) by (unfold is_u32; lia).
  assert (H4 : 1000 <= TIMEOUT_MAX) by timeout_ok.
  split; [split; [exact H1|split; [exact H2|split; [exact H3|exact H4]]]|].
  exact (proj1 (proj2 (address_commands_big_endian
                         0x12000 0x208 0 1000 0 (boot dev_ack) H1 H2 H3 H4))).
Defined.

(** What [sbl_get_status] returns and what it leaves in the variable. *)
Lemma sbl_get_status_shape {W : Type} {T : Transport W}
      (timeout_ms old : Z) (s : state W) :
  timeout_ms <= TIMEOUT_MAX ->
  exists r st s' d,
    sbl_get_status timeout_ms old s = Ret (r, st) s' /\
    trace s' = trace s ++ d /\
    cmds_of d = [[CMD_GET_STATUS]] /\
    (r = 0 \/ r = -1) /\
    (r = -1 -> st = old) /\
    (st <> old ->
     is_byte st /\
     writes_of d = [frame_of [CMD_GET_STATUS]; [0x00; SBL_ACK]]).
Proof.
  intros Ht.
  destruct (sbl_get_status_sends timeout_ms old Ht s)
    as ([r0 st0] & s0 & d0 & E0 & T0 & C0).
  unfold sbl_get_status in *.
  destruct (sbl_send_cmd_shape [CMD_GET_STATUS] 1 timeout_ms s ltac:(lia) Ht)
    as (r & out & s' & d & E & Htr & Hr).
  rewrite (bind_run _ _ _ _ _ E) in E0 |- *.
  assert (Hc : cmds_of d = [[CMD_GET_STATUS]]).
  { assert (s0 = s') as ->
      by (destruct (r <? 0); [|destruct (r =? 1)]; inversion E0; reflexivity).
    rewrite Htr in T0. apply app_inv_head in T0. now subst d0. }
  destruct (r <? 0) eqn:Hneg.
  { eexists (-1), old, s', d. unfold ret.
    split; [reflexivity|]. split; [exact Htr|]. split; [exact Hc|].
    split; [now right|]. split; [reflexivity|]. congruence. }
  apply Z.ltb_ge in Hneg.
  destruct (r =? 1) eqn:H1.
  2:{ eexists 0, old, s', d. unfold ret.
      split; [reflexivity|]. split; [exact Htr|]. split; [exact Hc|].
      split; [now left|]. split; [discriminate|congruence]. }
  apply Z.eqb_eq in H1. subst r.
  destruct Hr as [Hr | [_ [(Hr & _) | (_ & _ & Hlo & Hb & Hw)]]]; try lia.
  destruct (len_one out Hlo) as [b ->]. cbn [nth].
  eexists 0, b, s', d. unfold ret.
  split; [reflexivity|]. split; [exact Htr|]. split; [exact Hc|].
  split; [now left|].
  split; [discriminate|]. intros _. split; [now inversion Hb|exact Hw].
Qed.

Section Handshakes.

Context {W : Type} {T : Transport W}.

(** [sbl_send_cmd] on a valid payload, up to the end of the handshake. *)
Lemma sbl_send_cmd_handshake (data : list Z) (out_max t : Z) (s : state W) :
  1 <= len data <= 253 -> t <= TIMEOUT_MAX ->
  (forall e w1,
      tr_write (dev s) (frame_of data) = (WrFail e, w1) ->
      sbl_send_cmd data out_max t s
      = Ret (-1, []) (mkState w1 e (trace s ++ [EvWrite (frame_of data)]))) /\
  (forall w1,
      tr_write (dev s) (frame_of data) = (WrOk, w1) ->
      let rs := polls (slices t) w1 in
      let s2 := mkState (after_polls (consumed rs) w1)
                        (verdict_errno (await rs) (errno s))
                        (trace s ++ EvWrite (frame_of data)
                           :: repeat (EvRead 1 step_ms) (consumed rs)) in
      sbl_send_cmd data out_max t s
      = if negb (verdict_result (await rs) =? 0) then Ret (-1, []) s2
        else if negb (out_max =? 0) then read_response out_max t s2
             else Ret (0, []) s2).
Proof.
  intros Hl Ht.
  assert (Hhead : sbl_send_cmd data out_max t s
                  = (w <- serial_write_all (frame_of data) ;;
                     if w <? 0 then ret (-1, [])
                     else
                       a <- sbl_wait_ack t ;;
                       if negb (a =? 0) then ret (-1, [])
                       else if negb (out_max =? 0)
                            then read_response out_max t
                            else ret (0, [])) s).
  { unfold sbl_send_cmd.
    replace ((len data =? 0) || (len data >? 253)) with false.
    2:{ symmetry. apply orb_false_iff.
        split; [apply Z.eqb_neq|rewrite Z.gtb_ltb; apply Z.ltb_ge]; lia. }
    assert (Hf : u8 (len data + 2) :: checksum_sum data :: data = frame_of data).
    { unfold frame_of, u8. rewrite Z.mod_small by (change (2 ^ 8) with 256; lia).
      now rewrite checksum_sum_mod. }
    now rewrite Hf. }
  rewrite Hhead. split.
  - intros e w1 Hw. unfold bind, serial_write_all. rewrite Hw. reflexivity.
  - intros w1 Hw rs s2. unfold bind at 1. unfold serial_write_all. rewrite Hw.
    replace (len (frame_of data) <? 0) with false
      by (symmetry; apply Z.ltb_ge, len_nonneg).
    unfold bind at 1. unfold sbl_wait_ack.
    rewrite (wait_ack_loop_run (slices t) t 0); try assumption; try lia;
      try reflexivity.
    2:{ unfold slices. f_equal. f_equal. lia. }
    cbn [dev errno trace]. fold rs.
    replace ((trace s ++ [EvWrite (frame_of data)])
               ++ repeat (EvRead 1 step_ms) (consumed rs))
      with (trace s ++ EvWrite (frame_of data)
              :: repeat (EvRead 1 step_ms) (consumed rs))
      by (rewrite <- app_assoc; reflexivity).
    fold s2. destruct (negb (verdict_result (await rs) =? 0)); [reflexivity|].
    destruct (negb (out_max =? 0)); reflexivity.
Qed.

Lemma read_exact_one_none (t : Z) (s : state W) (w : W) :
  tr_read (dev s) 1 t = (RdNone, w) ->
  read_exact_timeout 1 t s
  = Ret (0, []) (mkState w (errno s) (trace s ++ [EvRead 1 t])).
Proof.
  intros Hr. unfold read_exact_timeout. simpl Z.to_nat.
  cbn [read_exact_loop]. rewrite len_nil. cbn [Z.ltb Z.compare].
  unfold bind, serial_read_timeout. change (1 - 0) with 1. rewrite Hr.
  reflexivity.
Qed.

Lemma read_exact_one_fail (t : Z) (e : errno_t) (s : state W) (w : W) :
  tr_read (dev s) 1 t = (RdFail e, w) ->
  read_exact_timeout 1 t s
  = Ret (-1, []) (mkState w e (trace s ++ [EvRead 1 t])).
Proof.
  intros Hr. unfold read_exact_timeout. simpl Z.to_nat.
  cbn [read_exact_loop]. rewrite len_nil. cbn [Z.ltb Z.compare].
  unfold bind, serial_read_timeout. change (1 - 0) with 1. rewrite Hr.
  reflexivity.
Qed.

End Handshakes.

(** X8.  A command whose frame cannot be written, or is not acknowledged,
    returns -1 without reading a response or writing anything else: after
    a failed write nothing is read at all; after the write, only the
    one-byte reads of the handshake are made, up to the NACK, the read
    error or the end of the budget that decides it, [errno] telling which
    ([EPROTO], the transport's, [ETIMEDOUT]). *)
Theorem sbl_send_cmd_not_acknowledged {W : Type} {T : Transport W}
        (data : list Z) (out_max timeout_ms : Z) (s : state W) :
  1 <= len data <= 253 -> timeout_ms <= TIMEOUT_MAX ->
  (forall e w1,
      tr_write (dev s) (frame_of data) = (WrFail e, w1) ->
      sbl_send_cmd data out_max timeout_ms s
      = Ret (-1, []) (mkState w1 e (trace s ++ [EvWrite (frame_of data)]))) /\
  (forall w1,
      tr_write (dev s) (frame_of data) = (WrOk, w1) ->
      let rs := polls (slices timeout_ms) w1 in
      await rs <> Acked ->
      sbl_send_cmd data out_max timeout_ms s
      = Ret (-1, [])
            (mkState (after_polls (consumed rs) w1)
                     (verdict_errno (await rs) (errno s))
                     (trace s ++ EvWrite (frame_of data)
                        :: repeat (EvRead 1 20) (consumed rs)))).
Proof.
  intros Hl Ht.
  destruct (sbl_send_cmd_handshake data out_max timeout_ms s Hl Ht) as [Hf Ha].
  split; [exact Hf|].
  intros w1 Hw rs Hn. rewrite (Ha w1 Hw). fold rs.
  destruct (await rs); try reflexivity. contradiction.
Qed.

(** An instance: GET_STATUS answered with a NACK after one byte of
    noise. *)
Lemma sbl_send_cmd_not_acknowledged_witness :
  (1 <= len [CMD_GET_STATUS] <= 253 /\ 500 <= TIMEOUT_MAX) /\
  sbl_send_cmd [CMD_GET_STATUS] 1 500 (boot [Byte 0; Byte SBL_NACK; Byte 3])
  = Ret (-1, [])
        (mkState [Byte 3] EPROTO
                 [EvWrite [3; 0x23; 0x23]; EvRead 1 20; EvRead 1 20]).
Proof.
  assert (Hl : 1 <= len [CMD_GET_STATUS] <= 253) by (vm_compute; split; discriminate).
  assert (Ht : 500 <= TIMEOUT_MAX) by timeout_ok.
  split; [split; assumption|].
  refine (proj2 (sbl_send_cmd_not_acknowledged
                   [CMD_GET_STATUS] 1 500
                   (boot [Byte 0; Byte SBL_NACK; Byte 3]) Hl Ht)
                [Byte 0; Byte SBL_NACK; Byte 3] _ _).
  - reflexivity.
  - vm_compute. discriminate.
Defined.

(** X9.  After an acknowledged command, a caller that passed a buffer gets
    0, a success with no payload, when the read of the response size byte
    brings nothing within 50 ms, and also when that read fails: the
    transport error is not reported, only left in [errno]. *)
Theorem sbl_send_cmd_size_byte_absent {W : Type} {T : Transport W}
        (data : list Z) (out_max timeout_ms : Z) (s : state W) (w1 : W) :
  1 <= len data <= 253 -> timeout_ms <= TIMEOUT_MAX -> out_max <> 0 ->
  tr_write (dev s) (frame_of data) = (WrOk, w1) ->
  let rs := polls (slices timeout_ms) w1 in
  await rs = Acked ->
  let w2 := after_polls (consumed rs) w1 in
  let tr := trace s ++ EvWrite (frame_of data)
              :: repeat (EvRead 1 20) (consumed rs) ++ [EvRead 1 50] in
  (forall w3,
      tr_read w2 1 50 = (RdNone, w3) ->
      sbl_send_cmd data out_max timeout_ms s
      = Ret (0, []) (mkState w3 (errno s) tr)) /\
  (forall e w3,
      tr_read w2 1 50 = (RdFail e, w3) ->
      sbl_send_cmd data out_max timeout_ms s
      = Ret (0, []) (mkState w3 e tr)).
Proof.
  intros Hl Ht Hom Hw rs Hack w2 tr.
  destruct (sbl_send_cmd_handshake data out_max timeout_ms s Hl Ht) as [_ Ha].
  specialize (Ha w1 Hw). cbv zeta in Ha. fold rs in Ha. rewrite Hack in Ha.
  cbn [verdict_result verdict_errno Z.eqb negb] in Ha.
  apply Z.eqb_neq in Hom. rewrite Hom in Ha. cbn [negb] in Ha.
  fold w2 in Ha.
  assert (Htr : forall x,
             (trace s ++ EvWrite (frame_of data)
                :: repeat (EvRead 1 step_ms) (consumed rs)) ++ [x]
             = trace s ++ EvWrite (frame_of data)
                 :: repeat (EvRead 1 step_ms) (consumed rs) ++ [x]).
  { intros x. rewrite <- app_assoc. reflexivity. }
  set (s2 := mkState w2 (errno s)
                     (trace s ++ EvWrite (frame_of data)
                        :: repeat (EvRead 1 step_ms) (consumed rs))) in Ha.
  split.
  - intros w3 Hr. rewrite Ha. unfold read_response.
    rewrite (bind_run _ _ _ _ _ (read_exact_one_none 50 s2 w3 Hr)).
    cbn [nth Z.gtb Z.compare andb trace errno s2]. rewrite Htr. reflexivity.
  - intros e w3 Hr. rewrite Ha. unfold read_response.
    rewrite (bind_run _ _ _ _ _ (read_exact_one_fail 50 e s2 w3 Hr)).
    cbn [nth Z.gtb Z.compare andb trace errno s2]. rewrite Htr. reflexivity.
Qed.

(** An instance: GET_CHIP_ID acknowledged, then a failing read. *)
Lemma sbl_send_cmd_size_byte_absent_witness :
  (1 <= len [CMD_GET_CHIP_ID] <= 253 /\ 500 <= TIMEOUT_MAX /\ 4 <> 0) /\
  sbl_send_cmd [CMD_GET_CHIP_ID] 4 500 (boot [Byte SBL_ACK; Err (EOTHER 5)])
  = Ret (0, [])
        (mkState [] (EOTHER 5)
                 [EvWrite [3; 0x28; 0x28]; EvRead 1 20; EvRead 1 50]).
Proof.
  assert (Hl : 1 <= len [CMD_GET_CHIP_ID] <= 253) by (vm_compute; split; discriminate).
  assert (Ht : 500 <= TIMEOUT_MAX) by timeout_ok.
  assert (Hom : 4 <> 0) by lia.
  split; [split; [exact Hl|split; [exact Ht|exact Hom]]|].
  refine (proj2 (sbl_send_cmd_size_byte_absent
                   [CMD_GET_CHIP_ID] 4 500
                   (boot [Byte SBL_ACK; Err (EOTHER 5)])
                   [Byte SBL_ACK; Err (EOTHER 5)] Hl Ht Hom _ _)
                (EOTHER 5) [] _).
  - reflexivity.
  - vm_compute. reflexivity.
  - vm_compute. reflexivity.
Defined.

(* ================================================================== *)
(** ** Autobaud *)

Section AutobaudFacts.

Context {W : Type} {T : Transport W} {B : ByteTransport W}.

Lemma autobaud_loop_run (k : nat) :
  forall (timeout_ms elapsed : Z) (s : state W),
    0 <= elapsed -> elapsed mod 20 = 0 -> timeout_ms <= TIMEOUT_MAX ->
    k = Z.to_nat ((timeout_ms - elapsed + 19) / 20) ->
    let rs := polls k (dev s) in
    autobaud_loop (S k) timeout_ms elapsed s
    = Ret (verdict_result (await_sync rs))
          (mkState (after_polls (consumed_sync rs) (dev s))
                   (verdict_errno (await_sync rs) (errno s))
                   (trace s ++ repeat (EvRead 1 step_ms) (consumed_sync rs))).
Proof.
  unfold TIMEOUT_MAX.
  induction k as [|k IH]; intros timeout_ms elapsed s Hw Hm Ht Hk.
  - assert (Hle : timeout_ms <= elapsed).
    { destruct (Z_lt_le_dec elapsed timeout_ms) as [Hlt|]; [|lia].
      assert (1 <= (timeout_ms - elapsed + 19) / 20)
        by (apply Z.div_le_lower_bound; lia).
      lia. }
    simpl. apply Z.ltb_ge in Hle. rewrite Hle.
    unfold bind, set_errno, ret. simpl. now rewrite app_nil_r.
  - assert (Hlt : elapsed < timeout_ms).
    { destruct (Z_lt_le_dec elapsed timeout_ms) as [|Hge]; [lia|].
      assert ((timeout_ms - elapsed + 19) / 20 <= 0).
      { apply Z.lt_succ_r. apply Z.div_lt_upper_bound; lia. }
      lia. }
    assert (Hk' : k = Z.to_nat ((timeout_ms - (elapsed + 20) + 19) / 20)).
    { replace (timeout_ms - (elapsed + 20) + 19)
        with (timeout_ms - elapsed + 19 + (-1) * 20) by lia.
      rewrite Z.div_add by lia. lia. }
    assert (Hadd : elapsed + 20 <= INT_MAX).
    { unfold INT_MAX.
      pose proof (Z.div_mod elapsed 20 ltac:(lia)) as Hd. rewrite Hm in Hd. lia. }
    cbn [autobaud_loop polls].
    apply Z.ltb_lt in Hlt. rewrite Hlt.
    unfold bind at 1. unfold serial_read_timeout.
    destruct (tr_read (dev s) 1 step_ms) as [r w] eqn:Hr.
    assert (Hnext : forall s1 : state W,
               dev s1 = w -> errno s1 = errno s ->
               trace s1 = trace s ++ [EvRead 1 step_ms] ->
               (elapsed' <- int_add elapsed step_ms ;;
                autobaud_loop (S k) timeout_ms elapsed') s1
               = Ret (verdict_result (await_sync (polls k w)))
                     (mkState (after_polls (consumed_sync (polls k w)) w)
                              (verdict_errno (await_sync (polls k w)) (errno s))
                              (trace s ++ EvRead 1 step_ms
                                 :: repeat (EvRead 1 step_ms)
                                           (consumed_sync (polls k w))))).
    { intros s1 Hd He Htr. unfold bind, int_add, step_ms.
      replace ((INT_MIN <=? elapsed + 20) && (elapsed + 20 <=? INT_MAX)) with true.
      2:{ symmetry. apply andb_true_iff. unfold INT_MIN.
          split; apply Z.leb_le; lia. }
      unfold ret. rewrite (IH timeout_ms (elapsed + 20) s1); try lia.
      - rewrite Hd, He, Htr, <- app_assoc. reflexivity.
      - rewrite <- Z.add_mod_idemp_l, Hm by lia. reflexivity. }
    destruct r as [e| |bs].
    + cbn. rewrite Hr. reflexivity.
    + cbn [Z.ltb Z.compare Z.eqb await_sync consumed_sync after_polls].
      rewrite Hnext by reflexivity. rewrite Hr. reflexivity.
    + destruct (read_one_byte _ _ _ _ Hr) as [b [-> Hb]].
      change (len [b]) with 1.
      cbn [Z.ltb Z.compare Z.eqb nth await_sync consumed_sync Pos.eqb].
      destruct (b =? 204) eqn:Hack.
      * cbn. rewrite Hr. reflexivity.
      * rewrite Hnext by reflexivity. cbn. rewrite Hr. reflexivity.
Qed.

Lemma await_sync_acked_iff (rs : list rd_result) :
  await_sync rs = Acked <->
  exists pre bs post,
    rs = pre ++ RdData bs :: post /\ Forall sync_noise pre /\ nth 0 bs 0 = 0xCC.
Proof.
  induction rs as [|r rs IH]; simpl.
  - split; [discriminate|]. intros (pre & bs & post & H & _).
    destruct pre; discriminate.
  - split.
    + destruct r as [e| |bs]; try discriminate.
      * intros H. apply IH in H. destruct H as (pre & bs & post & -> & Hn & Hb).
        exists (RdNone :: pre), bs, post.
        split; [reflexivity|]. split; [|exact Hb].
        constructor; [exact I|exact Hn].
      * destruct (nth 0 bs 0 =? 204) eqn:Hack.
        { intros _. apply Z.eqb_eq in Hack. exists [], bs, rs. auto. }
        intros H. apply IH in H. destruct H as (pre & bs0 & post & -> & Hn & Hb).
        apply Z.eqb_neq in Hack.
        exists (RdData bs :: pre), bs0, post.
        split; [reflexivity|]. split; [|exact Hb].
        constructor; [exact Hack|exact Hn].
    + intros (pre & bs & post & H & Hn & Hb).
      destruct pre as [|p pre]; simpl in H; inversion H; subst.
      * apply Z.eqb_eq in Hb. now rewrite Hb.
      * inversion Hn as [|? ? Hp Hpre]; subst.
        assert (Hrest : await_sync (pre ++ RdData bs :: post) = Acked).
        { apply IH. exists pre, bs, post. auto. }
        destruct p as [e| |bs0]; simpl in Hp; [contradiction|exact Hrest|].
        apply Z.eqb_neq in Hp. now rewrite Hp.
Qed.

(** [sbl_autobaud] always returns, with 0 or -1. *)
Lemma sbl_autobaud_returns (t : Z) (s : state W) :
  t <= TIMEOUT_MAX ->
  exists r s', sbl_autobaud t s = Ret r s' /\ (r = 0 \/ r = -1).
Proof.
  intros Ht. unfold sbl_autobaud. cbv zeta.
  unfold bind at 1. unfold serial_write_byte at 1.
  destruct (tr_write_byte (dev s) 85) as [[n1|e1] w1].
  2:{ eexists _, _. split; [reflexivity|]. now right. }
  destruct (negb (n1 =? 1)).
  { eexists _, _. split; [reflexivity|]. now right. }
  unfold bind at 1. unfold serial_write_byte at 1. cbn [dev].
  destruct (tr_write_byte w1 85) as [[n2|e2] w2].
  2:{ eexists _, _. split; [reflexivity|]. now right. }
  destruct (negb (n2 =? 1)).
  { eexists _, _. split; [reflexivity|]. now right. }
  rewrite (autobaud_loop_run (slices t) t 0); try assumption; try lia;
    try reflexivity.
  2:{ unfold slices. f_equal. f_equal. lia. }
  eexists _, _. split; [reflexivity|].
  destruct (await_sync _); cbn; auto.
Qed.

End AutobaudFacts.

(** X10.  [sbl_autobaud] first writes [0x55] twice, one byte per call; if
    either call does not report one byte written it returns -1 without
    reading.  Otherwise it reads one byte per 20 ms slice of the budget and
    returns 0 exactly when some read yields [0xCC] after nothing but silent
    slices and other bytes: [0x33] is skipped like any other byte.  A read
    error ends it at once with -1, and the end of the budget with -1 and
    [ETIMEDOUT]. *)
Theorem sbl_autobaud_verdict {W : Type} {T : Transport W} {B : ByteTransport W}
        (timeout_ms : Z) (s : state W) :
  timeout_ms <= TIMEOUT_MAX ->
  (forall x w1,
      tr_write_byte (dev s) 0x55 = (x, w1) -> x <> WbCount 1 ->
      exists s',
        sbl_autobaud timeout_ms s = Ret (-1) s' /\
        dev s' = w1 /\ trace s' = trace s ++ [EvWrite [0x55]]) /\
  (forall x w1 w2,
      tr_write_byte (dev s) 0x55 = (WbCount 1, w1) ->
      tr_write_byte w1 0x55 = (x, w2) -> x <> WbCount 1 ->
      exists s',
        sbl_autobaud timeout_ms s = Ret (-1) s' /\
        dev s' = w2 /\
        trace s' = trace s ++ [EvWrite [0x55]; EvWrite [0x55]]) /\
  (forall w1 w2,
      tr_write_byte (dev s) 0x55 = (WbCount 1, w1) ->
      tr_write_byte w1 0x55 = (WbCount 1, w2) ->
      let rs := polls (slices timeout_ms) w2 in
      exists r s',
        sbl_autobaud timeout_ms s = Ret r s' /\
        r = verdict_result (await_sync rs) /\
        errno s' = verdict_errno (await_sync rs) (errno s) /\
        dev s' = after_polls (consumed_sync rs) w2 /\
        trace s' = trace s ++ [EvWrite [0x55]; EvWrite [0x55]]
                     ++ repeat (EvRead 1 20) (consumed_sync rs) /\
        (r = 0 <->
         exists pre post,
           rs = pre ++ RdData [0xCC] :: post /\ Forall sync_noise pre)).
Proof.
  intros Ht. split; [|split].
  - intros x w1 Hw Hx. unfold sbl_autobaud. cbv zeta.
    unfold bind at 1. unfold serial_write_byte at 1. rewrite Hw.
    destruct x as [n|e].
    + replace (negb (n =? 1)) with true.
      * eexists. split; [reflexivity|]. auto.
      * symmetry. apply negb_true_iff, Z.eqb_neq. congruence.
    + eexists. split; [reflexivity|]. auto.
  - intros x w1 w2 Hw1 Hw2 Hx. unfold sbl_autobaud. cbv zeta.
    unfold bind at 1. unfold serial_write_byte at 1. rewrite Hw1.
    cbn [Z.eqb Pos.eqb negb].
    unfold bind at 1. unfold serial_write_byte at 1. cbn [dev]. rewrite Hw2.
    destruct x as [n|e].
    + replace (negb (n =? 1)) with true.
      * eexists. split; [reflexivity|]. cbn [dev trace].
        rewrite <- app_assoc. auto.
      * symmetry. apply negb_true_iff, Z.eqb_neq. congruence.
    + eexists. split; [reflexivity|]. cbn [dev trace].
      rewrite <- app_assoc. auto.
  - intros w1 w2 Hw1 Hw2 rs. unfold sbl_autobaud. cbv zeta.
    unfold bind at 1. unfold serial_write_byte at 1. rewrite Hw1.
    cbn [Z.eqb Pos.eqb negb].
    unfold bind at 1. unfold serial_write_byte at 1. cbn [dev]. rewrite Hw2.
    cbn [Z.eqb Pos.eqb negb].
    rewrite (autobaud_loop_run (slices timeout_ms) timeout_ms 0);
      try assumption; try lia; try reflexivity.
    2:{ unfold slices. f_equal. f_equal. lia. }
    cbn [dev errno trace]. fold rs.
    eexists _, _. split; [reflexivity|]. cbn [dev errno trace].
    split; [reflexivity|]. split; [reflexivity|]. split; [reflexivity|].
    split; [rewrite <- !app_assoc; reflexivity|].
    split.
    + intros Hr.
      assert (Ha : await_sync rs = Acked)
        by (destruct (await_sync rs); try discriminate; auto).
      apply await_sync_acked_iff in Ha.
      destruct Ha as (pre & bs & post & E & Hn & Hb).
      destruct (polls_one_byte (slices timeout_ms) w2 bs) as [b [-> _]].
      { fold rs. rewrite E. apply in_or_app. right. now left. }
      simpl in Hb. subst b. now exists pre, post.
    + intros (pre & post & E & Hn).
      assert (Ha : await_sync rs = Acked).
      { apply await_sync_acked_iff. exists pre, [0xCC], post. auto. }
      now rewrite Ha.
Qed.

Lemma sbl_autobaud_verdict_witness :
  100 <= TIMEOUT_MAX /\
  (let rs := polls (slices 100) (mkPort [] [Byte 0; Byte SBL_NACK; Byte SBL_ACK])
   in
   exists r s',
     sbl_autobaud 100
       (mkState (mkPort [TxSent; TxSent] [Byte 0; Byte SBL_NACK; Byte SBL_ACK])
                (EOTHER 0) []) = Ret r s' /\
     r = verdict_result (await_sync rs) /\
     errno s' = verdict_errno (await_sync rs) (EOTHER 0) /\
     dev s' = after_polls (consumed_sync rs)
                (mkPort [] [Byte 0; Byte SBL_NACK; Byte SBL_ACK]) /\
     trace s' = [] ++ [EvWrite [0x55]; EvWrite [0x55]]
                  ++ repeat (EvRead 1 20) (consumed_sync rs) /\
     (r = 0 <->
      exists pre post,
        rs = pre ++ RdData [0xCC] :: post /\ Forall sync_noise pre)).
Proof.
  assert (Ht : 100 <= TIMEOUT_MAX) by timeout_ok.
  split; [exact Ht|].
  exact (proj2 (proj2 (sbl_autobaud_verdict
                         100
                         (mkState (mkPort [TxSent; TxSent]
                                          [Byte 0; Byte SBL_NACK; Byte SBL_ACK])
                                  (EOTHER 0) []) Ht))
               (mkPort [TxSent] [Byte 0; Byte SBL_NACK; Byte SBL_ACK])
               (mkPort [] [Byte 0; Byte SBL_NACK; Byte SBL_ACK])
               eq_refl eq_refl).
Defined.

(* ================================================================== *)
(** ** The scan over candidate rates *)

Section ScanFacts.

Context {H W : Type} {T : Transport W} {B : ByteTransport W} {HO : Host H W}.

Lemma autobaud_scan_loop_run (t b0 : Z) (Ht : t <= TIMEOUT_MAX) :
  forall (bauds : list Z) (hs : host_state H),
  exists rc b hs' tried,
    autobaud_scan_loop bauds t b0 hs = ScanRet rc b hs' /\
    attempts hs' = attempts hs ++ tried /\
    ((rc = -1 /\ b = b0 /\ map attempt_baud tried = bauds /\
      Forall unsuccessful tried) \/
     (rc = 0 /\
      exists failed io post,
        tried = failed ++ [Probed b 0 io] /\
        Forall unsuccessful failed /\
        bauds = map attempt_baud failed ++ b :: post)).
Proof.
  induction bauds as [|b rest IH]; intros hs.
  - exists (-1), b0, hs, []. split; [reflexivity|].
    split; [now rewrite app_nil_r|]. left. auto.
  - cbn [autobaud_scan_loop].
    destruct (host_open (host hs) b) as [[w|e] h1].
    + destruct (sbl_autobaud_returns t (mkState w (host_errno hs) []) Ht)
        as (ok & s' & E & Hok).
      rewrite E. destruct (host_close h1 (dev s')) as [ce h2].
      destruct Hok as [-> | ->].
      * cbn [Z.eqb]. eexists 0, b, _, [Probed b 0 (trace s')].
        split; [reflexivity|]. split; [reflexivity|]. right.
        split; [reflexivity|]. exists [], (trace s'), rest. auto.
      * cbn [Z.eqb].
        match goal with
        | |- context [autobaud_scan_loop rest t b0 ?hs1] =>
            destruct (IH hs1) as (rc & b' & hs' & tried & E' & Ha & Hc)
        end.
        exists rc, b', hs', (Probed b (-1) (trace s') :: tried).
        split; [exact E'|]. cbn [attempts] in Ha.
        split; [rewrite Ha, <- app_assoc; reflexivity|].
        destruct Hc as [(-> & -> & Hm & Hf) | (-> & failed & io & post & -> & Hf & ->)].
        -- left. split; [reflexivity|]. split; [reflexivity|].
           split; [cbn; now rewrite Hm|].
           constructor; [cbn; lia|exact Hf].
        -- right. split; [reflexivity|].
           exists (Probed b (-1) (trace s') :: failed), io, post.
           split; [reflexivity|]. split; [|reflexivity].
           constructor; [cbn; lia|exact Hf].
    + destruct (IH (mkHost h1 e (attempts hs ++ [OpenFailed b e])))
        as (rc & b' & hs' & tried & E' & Ha & Hc).
      exists rc, b', hs', (OpenFailed b e :: tried).
      split; [exact E'|]. cbn [attempts] in Ha.
      split; [rewrite Ha, <- app_assoc; reflexivity|].
      destruct Hc as [(-> & -> & Hm & Hf) | (-> & failed & io & post & -> & Hf & ->)].
      * left. split; [reflexivity|]. split; [reflexivity|].
        split; [cbn; now rewrite Hm|].
        constructor; [exact I|exact Hf].
      * right. split; [reflexivity|].
        exists (OpenFailed b e :: failed), io, post.
        split; [reflexivity|]. split; [|reflexivity].
        constructor; [exact I|exact Hf].
Qed.

End ScanFacts.



(* ================================================================== *)
(** ** The command script of [sbl_program_binary] *)

Lemma starts_nil (script : list (list Z)) : starts [] script.
Proof. now exists script. Qed.

Lemma starts_refl (script : list (list Z)) : starts script script.
Proof. exists []. now rewrite app_nil_r. Qed.

Lemma starts_app (pre cs script : list (list Z)) :
  starts cs script -> starts (pre ++ cs) (pre ++ script).
Proof. intros [rest ->]. exists rest. now rewrite app_assoc. Qed.

Lemma starts_more (cs script more : list (list Z)) :
  starts cs script -> starts cs (script ++ more).
Proof. intros [rest ->]. exists (rest ++ more). now rewrite app_assoc. Qed.

Lemma pages_between_none (a bound page_size : Z) :
  0 < page_size -> bound <= a -> pages_between a bound page_size = [].
Proof.
  intros Hp Hle. unfold pages_between.
  assert ((bound - a + page_size - 1) / page_size <= 0).
  { apply Z.lt_succ_r. apply Z.div_lt_upper_bound; lia. }
  replace (Z.to_nat _) with O by lia. reflexivity.
Qed.

Lemma pages_between_next (a bound page_size : Z) :
  0 < page_size -> a < bound ->
  pages_between a bound page_size
  = a :: pages_between (a + page_size) bound page_size.
Proof.
  intros Hp Hlt. unfold pages_between.
  replace (bound - a + page_size - 1)
    with (bound - (a + page_size) + page_size - 1 + 1 * page_size) by lia.
  rewrite Z.div_add by lia.
  assert (0 <= (bound - (a + page_size) + page_size - 1) / page_size)
    by (apply Z.div_pos; lia).
  rewrite Z2Nat.inj_add by lia.
  rewrite Nat.add_comm. reflexivity.
Qed.

Lemma chunks_from_nil (n : nat) : chunks_from n [] = [].
Proof. destruct n; reflexivity. Qed.

Section Script.

Context {W : Type} {T : Transport W}.

Lemma erase_loop_script (fuel : nat) :
  forall (a base_addr erase_len page_size : Z) (s s' : state W) (r : option Z),
    0 < page_size -> 0 <= a ->
    u32 (base_addr + erase_len) + page_size <= 2 ^ 32 ->
    erase_loop fuel a base_addr erase_len page_size s = Ret r s' ->
    let script :=
      erase_script (pages_between a (u32 (base_addr + erase_len)) page_size) in
    exists d,
      trace s' = trace s ++ d /\
      (r = None \/ r = Some (-1)) /\
      starts (cmds_of d) script /\
      (r = None -> cmds_of d = script) /\
      (r = Some (-1) -> cmds_of d <> []).
Proof.
  induction fuel as [|fuel IH]; intros a ba el ps s s' r Hp Ha Hroom E;
    [discriminate|].
  cbn [erase_loop] in E. cbv zeta.
  destruct (a <? u32 (ba + el)) eqn:Hlt.
  2:{ apply Z.ltb_ge in Hlt. inversion E; subst.
      rewrite pages_between_none by assumption.
      exists []. rewrite app_nil_r.
      split; [reflexivity|]. split; [now left|].
      split; [apply starts_nil|]. split; [reflexivity|discriminate]. }
  apply Z.ltb_lt in Hlt.
  rewrite pages_between_next by assumption.
  cbn [erase_script flat_map].
  fold (erase_script (pages_between (a + ps) (u32 (ba + el)) ps)).
  destruct (sbl_sector_erase_sends a 5000 ltac:(timeout_ok) s)
    as (r1 & s1 & d1 & E1 & T1 & C1).
  rewrite (bind_run _ _ _ _ _ E1) in E.
  destruct (negb (r1 =? 0)).
  { inversion E; subst. exists d1. split; [exact T1|]. split; [now right|].
    rewrite C1. split; [|split; discriminate].
    eexists. cbn [app]. reflexivity. }
  destruct (sbl_get_status_sends 1000 0 ltac:(timeout_ok) s1)
    as ([r2 st] & s2 & d2 & E2 & T2 & C2).
  rewrite (bind_run _ _ _ _ _ E2) in E.
  assert (T12 : trace s2 = trace s ++ d1 ++ d2)
    by (rewrite T2, T1, app_assoc; reflexivity).
  assert (C12 : cmds_of (d1 ++ d2)
                = [CMD_SECTOR_ERASE :: be_bytes a; [CMD_GET_STATUS]])
    by (rewrite cmds_of_app, C1, C2; reflexivity).
  destruct (negb (r2 =? 0)).
  { inversion E; subst. exists (d1 ++ d2). split; [exact T12|].
    split; [now right|]. rewrite C12. split; [|split; discriminate].
    eexists. cbn [app]. reflexivity. }
  replace (u32 (a + ps)) with (a + ps) in E
    by (unfold u32; symmetry; apply Z.mod_small; lia).
  apply IH in E; try lia.
  destruct E as (d3 & T3 & Hr & P3 & Q3 & N3).
  exists ((d1 ++ d2) ++ d3).
  split; [rewrite T3, T12, <- !app_assoc; reflexivity|].
  split; [exact Hr|]. rewrite cmds_of_app, C12.
  split; [exact (starts_app _ _ _ P3)|].
  split; [intros Hn; now rewrite (Q3 Hn)|discriminate].
Qed.

Lemma send_loop_script (image : list Z) (fuel : nat) :
  len image + 4 <= 2 ^ 64 ->
  let total_len := padded_length (len image) in
  forall (off : Z) (n : nat) (s s' : state W) (r : option Z),
    0 <= off <= total_len -> off mod 4 = 0 ->
    (Z.to_nat (total_len - off) <= n)%nat ->
    send_loop fuel image total_len off s = Ret r s' ->
    let script :=
      send_script (chunks_from n (skipn (Z.to_nat off) (padded_image image))) in
    exists d,
      trace s' = trace s ++ d /\
      (r = None \/ r = Some (-1)) /\
      starts (cmds_of d) script /\
      (r = None -> cmds_of d = script).
Proof.
  intros Hb total_len.
  assert (Hlen : Z.of_nat (length (padded_image image)) = total_len)
    by exact (len_padded_image image Hb).
  induction fuel as [|fuel IH]; intros off n s s' r Hoff Hal Hn E;
    [discriminate|].
  cbn [send_loop] in E. cbv zeta.
  destruct (off <? total_len) eqn:Hlt.
  2:{ apply Z.ltb_ge in Hlt. inversion E; subst.
      rewrite skipn_all2 by lia. rewrite chunks_from_nil.
      exists []. rewrite app_nil_r.
      split; [reflexivity|]. split; [now left|].
      split; [apply starts_nil|reflexivity]. }
  apply Z.ltb_lt in Hlt. cbv zeta in E.
  destruct (chunk_at_slice image off Hb ltac:(fold total_len; lia) Hal)
    as (Hc1 & Hc2 & Hfull & Hslice & Hclen).
  fold total_len in Hc1, Hc2, Hfull, Hslice, Hclen.
  set (c := chunk_length total_len off) in *.
  set (chunk := firstn (Z.to_nat c) (chunk_at image total_len off)) in *.
  set (data := skipn (Z.to_nat off) (padded_image image)) in *.
  assert (Hdlen : Z.of_nat (length data) = total_len - off).
  { subst data. rewrite length_skipn. lia. }
  assert (Hchunk : chunk = firstn 252 data).
  { rewrite Hslice. destruct Hfull as [Hf | Hf].
    - now rewrite Hf.
    - rewrite !firstn_all2; [reflexivity| |]; lia. }
  assert (Hnext : skipn 252 data
                  = skipn (Z.to_nat (off + c)) (padded_image image)).
  { subst data. rewrite skipn_skipn.
    destruct Hfull as [Hf | Hf].
    - f_equal. lia.
    - rewrite !skipn_all2; [reflexivity| |]; lia. }
  destruct n as [|n]; [lia|].
  destruct data as [|x data'] eqn:Hdata; [cbn in Hdlen; lia|].
  rewrite <- Hdata in *. cbn [chunks_from].
  replace (match data with [] => [] | _ :: _ =>
             firstn 252 data :: chunks_from n (skipn 252 data) end)
    with (firstn 252 data :: chunks_from n (skipn 252 data))
    by (rewrite Hdata; reflexivity).
  rewrite <- Hchunk, Hnext. cbn [send_script flat_map].
  fold (send_script
          (chunks_from n (skipn (Z.to_nat (off + c)) (padded_image image)))).
  destruct (sbl_send_data_sends chunk 1000 ltac:(lia) ltac:(timeout_ok) s)
    as (r1 & s1 & d1 & E1 & T1 & C1).
  rewrite (bind_run _ _ _ _ _ E1) in E.
  destruct (negb (r1 =? 0)).
  { inversion E; subst. exists d1. split; [exact T1|]. split; [now right|].
    rewrite C1. split; [|discriminate].
    eexists. cbn [app]. reflexivity. }
  destruct (sbl_get_status_sends 500 0 ltac:(timeout_ok) s1)
    as ([r2 st] & s2 & d2 & E2 & T2 & C2).
  rewrite (bind_run _ _ _ _ _ E2) in E.
  assert (T12 : trace s2 = trace s ++ d1 ++ d2)
    by (rewrite T2, T1, app_assoc; reflexivity).
  assert (C12 : cmds_of (d1 ++ d2) = [CMD_SEND_DATA :: chunk; [CMD_GET_STATUS]])
    by (rewrite cmds_of_app, C1, C2; reflexivity).
  assert (Hstop : forall s0 : state W,
             Ret (A := option Z) (Some (-1)) s2 = Ret r s0 ->
             s0 = s2 /\ r = Some (-1)).
  { intros s0 H0. inversion H0; auto. }
  destruct (negb (r2 =? 0)).
  { inversion E; subst. exists (d1 ++ d2). split; [exact T12|].
    split; [now right|]. rewrite C12. split; [|discriminate].
    eexists. cbn [app]. reflexivity. }
  destruct (negb (st =? 64)).
  { inversion E; subst. exists (d1 ++ d2). split; [exact T12|].
    split; [now right|]. rewrite C12. split; [|discriminate].
    eexists. cbn [app]. reflexivity. }
  pose proof (padded_length_facts (len image) (len_nonneg image) Hb) as [Ht4 Hp].
  fold total_len in Ht4, Hp.
  replace (size_t (off + c)) with (off + c) in E
    by (unfold size_t; symmetry; apply Z.mod_small; lia).
  apply (IH (off + c) n) in E; try lia.
  2:{ destruct Hfull as [Hf | Hf].
      - rewrite Hf. rewrite <- Z.add_mod_idemp_l, Hal by lia. reflexivity.
      - rewrite Hf. exact Ht4. }
  destruct E as (d3 & T3 & Hr & P3 & Q3).
  exists ((d1 ++ d2) ++ d3).
  split; [rewrite T3, T12, <- !app_assoc; reflexivity|].
  split; [exact Hr|]. rewrite cmds_of_app, C12.
  split; [exact (starts_app _ _ _ P3)|].
  intros Hnone. now rewrite (Q3 Hnone).
Qed.

End Script.

Lemma program_binary_script_run {W : Type} {T : Transport W}
      (fuel : nat) (flash_size page_size : Z) (image : list Z)
      (base_addr : Z) (s s' : state W) (r : Z) :
  0 < page_size <= flash_size -> flash_size < 2 ^ 32 ->
  is_u32 base_addr -> len image + 4 <= 2 ^ 64 ->
  sbl_program_binary fuel flash_size page_size image base_addr s = Ret r s' ->
  let script := program_script flash_size page_size image base_addr in
  (r = 0 \/ r = -1) /\
  (base_addr mod page_size <> 0 -> r = -1 /\ s' = s) /\
  (base_addr mod page_size = 0 ->
   exists d,
     trace s' = trace s ++ d /\
     cmds_of d <> [] /\
     starts (cmds_of d) script /\
     (r = 0 -> cmds_of d = script)).
Proof.
  intros Hps Hfs Hba Hb E script.
  set (erase_len := erase_length flash_size page_size (len image) base_addr).
  set (total_len := padded_length (len image)).
  unfold sbl_program_binary, u32_rem in E. fold erase_len total_len in E.
  replace (page_size =? 0) with false in E
    by (symmetry; apply Z.eqb_neq; lia).
  unfold bind at 1 in E. unfold ret at 1 in E.
  destruct (base_addr mod page_size =? 0) eqn:Hal; cbn [negb] in E.
  2:{ apply Z.eqb_neq in Hal. inversion E; subst.
      split; [now right|]. split; [auto|]. intros H0. contradiction. }
  apply Z.eqb_eq in Hal.
  assert (Hroom : u32 (base_addr + erase_len) + page_size <= 2 ^ 32).
  { pose proof (erase_length_capped flash_size page_size (len image) base_addr)
      as Hcap.
    fold erase_len in Hcap. unfold u32 at 2 in Hcap.
    rewrite Z.mod_small in Hcap by lia. lia. }
  assert (Hmain :
            (r = 0 \/ r = -1) /\
            exists d,
              trace s' = trace s ++ d /\
              cmds_of d <> [] /\
              starts (cmds_of d) script /\
              (r = 0 -> cmds_of d = script)).
  2:{ destruct Hmain as [Hr Hd]. split; [exact Hr|].
      split; [intros Hn; contradiction|intros _; exact Hd]. }
  unfold script, program_script. fold erase_len total_len.
  set (es := erase_script
               (pages_between base_addr (u32 (base_addr + erase_len))
                              page_size)).
  set (dl := CMD_DOWNLOAD :: be_bytes base_addr ++ be_bytes (u32 total_len)).
  set (ss := send_script (chunks_of (padded_image image))).
  apply bind_Ret in E. destruct E as (e & s1 & E1 & E).
  apply erase_loop_script in E1; try lia.
  2:{ unfold is_u32 in Hba. lia. }
  destruct E1 as (d1 & T1 & He & P1 & Q1 & N1). fold erase_len es in P1, Q1.
  destruct He as [-> | ->].
  2:{ inversion E; subst. split; [now right|]. exists d1.
      split; [exact T1|]. split; [now apply N1|].
      split; [now apply starts_more|discriminate]. }
  specialize (Q1 eq_refl). clear N1 P1.
  destruct (sbl_download_sends base_addr (u32 total_len) 1000
              ltac:(timeout_ok) s1)
    as (r2 & s2 & d2 & E2 & T2 & C2).
  rewrite (bind_run _ _ _ _ _ E2) in E. fold dl in C2.
  assert (T12 : trace s2 = trace s ++ d1 ++ d2)
    by (rewrite T2, T1, app_assoc; reflexivity).
  destruct (negb (r2 =? 0)).
  { inversion E; subst. split; [now right|]. exists (d1 ++ d2).
    split; [exact T12|]. rewrite cmds_of_app, Q1, C2.
    split; [intros H0; apply app_eq_nil in H0; destruct H0; discriminate|].
    split; [|discriminate].
    apply starts_app. eexists. cbn [app]. reflexivity. }
  destruct (sbl_get_status_sends 500 0 ltac:(timeout_ok) s2)
    as ([r3 st] & s3 & d3 & E3 & T3 & C3).
  rewrite (bind_run _ _ _ _ _ E3) in E.
  assert (T123 : trace s3 = trace s ++ d1 ++ d2 ++ d3)
    by (rewrite T3, T12, <- !app_assoc; reflexivity).
  assert (C123 : cmds_of (d1 ++ d2 ++ d3) = es ++ [dl; [CMD_GET_STATUS]])
    by (rewrite !cmds_of_app, Q1, C2, C3; reflexivity).
  assert (N123 : es ++ [dl; [CMD_GET_STATUS]] <> [])
    by (intros H0; apply app_eq_nil in H0; destruct H0; discriminate).
  assert (Hstop : starts (es ++ [dl; [CMD_GET_STATUS]])
                         (es ++ [dl; [CMD_GET_STATUS]] ++ ss ++ [[CMD_RESET]])).
  { apply starts_app. eexists. reflexivity. }
  destruct (negb (r3 =? 0)).
  { inversion E; subst. split; [now right|]. exists (d1 ++ d2 ++ d3).
    split; [exact T123|]. rewrite C123.
    split; [exact N123|]. split; [exact Hstop|discriminate]. }
  destruct (negb (st =? 64)).
  { inversion E; subst. split; [now right|]. exists (d1 ++ d2 ++ d3).
    split; [exact T123|]. rewrite C123.
    split; [exact N123|]. split; [exact Hstop|discriminate]. }
  apply bind_Ret in E. destruct E as (l & s4 & E4 & E).
  pose proof (padded_length_facts (len image) (len_nonneg image) Hb) as Hp.
  pose proof (len_nonneg image) as Hi.
  pose proof (len_padded_image image Hb) as Hpl. unfold len at 1 in Hpl.
  apply (send_loop_script image fuel Hb 0 (length (padded_image image)))
    in E4; [|lia|reflexivity|lia].
  cbn [Z.to_nat skipn] in E4. fold (chunks_of (padded_image image)) in E4.
  fold ss in E4.
  destruct E4 as (d4 & T4 & Hl & P4 & Q4).
  assert (T1234 : trace s4 = trace s ++ (d1 ++ d2 ++ d3) ++ d4)
    by (rewrite T4, T123, <- !app_assoc; reflexivity).
  destruct Hl as [-> | ->].
  2:{ inversion E; subst. split; [now right|].
      exists ((d1 ++ d2 ++ d3) ++ d4).
      split; [exact T1234|]. rewrite cmds_of_app, C123.
      split; [intros H0; apply app_eq_nil in H0; destruct H0 as [H0 _];
              now apply N123|].
      split; [|discriminate].
      rewrite <- app_assoc. apply starts_app. cbn [app].
      change (starts ([dl; [CMD_GET_STATUS]] ++ cmds_of d4)
                     ([dl; [CMD_GET_STATUS]] ++ ss ++ [[CMD_RESET]])).
      apply starts_app. now apply starts_more. }
  specialize (Q4 eq_refl).
  destruct (sbl_reset_sends 1000 ltac:(timeout_ok) s4)
    as (r5 & s5 & d5 & E5 & T5 & C5).
  rewrite (bind_run _ _ _ _ _ E5) in E. inversion E; subst r s'.
  split; [now left|].
  exists (((d1 ++ d2 ++ d3) ++ d4) ++ d5).
  split; [rewrite T5, T1234, <- !app_assoc; reflexivity|].
  assert (Hall : cmds_of (((d1 ++ d2 ++ d3) ++ d4) ++ d5)
                 = es ++ [dl; [CMD_GET_STATUS]] ++ ss ++ [[CMD_RESET]]).
  { rewrite cmds_of_app, cmds_of_app, C123, Q4, C5, <- !app_assoc.
    reflexivity. }
  rewrite Hall.
  split; [intros H0; apply app_eq_nil in H0; destruct H0 as [_ H0];
          discriminate|].
  split; [apply starts_refl|reflexivity].
Qed.

(** X12.  In a flash that holds at least one page, a run of
    [sbl_program_binary] that returns yields 0 or -1.  With a base address
    that is not a multiple of the page size it yields -1 and touches
    nothing.  Otherwise the commands it sent are, in order, an initial
    segment, never empty, of one fixed script: SECTOR_ERASE then GET_STATUS
    for each page from [base_addr] up to [base_addr + erase_len] in
    ascending order, one DOWNLOAD of [base_addr] and [total_len] then
    GET_STATUS, SEND_DATA then GET_STATUS for each 252-byte piece of the
    padded image, and RESET; the whole script when it returns 0. *)
Theorem program_binary_command_script {W : Type} {T : Transport W}
        (fuel : nat) (flash_size page_size : Z) (image : list Z)
        (base_addr : Z) (s s' : state W) (r : Z) :
  0 < page_size <= flash_size -> flash_size < 2 ^ 32 ->
  is_u32 base_addr -> len image + 4 <= 2 ^ 64 ->
  sbl_program_binary fuel flash_size page_size image base_addr s = Ret r s' ->
  let script := program_script flash_size page_size image base_addr in
  (r = 0 \/ r = -1) /\
  (base_addr mod page_size <> 0 -> r = -1 /\ s' = s) /\
  (base_addr mod page_size = 0 ->
   exists d,
     trace s' = trace s ++ d /\
     cmds_of d <> [] /\
     starts (cmds_of d) script /\
     (r = 0 -> cmds_of d = script)).
Proof. apply program_binary_script_run. Qed.


(** An instance: five bytes programmed at 0 on a device that reports
    SUCCESS throughout. *)
Lemma program_binary_command_script_witness :
  (0 < 0x1000 <= 0x20000 /\ 0x20000 < 2 ^ 32 /\ is_u32 0 /\
   len (demo_image 5) + 4 <= 2 ^ 64) /\
  exists s',
    sbl_program_binary 3 0x20000 0x1000 (demo_image 5) 0
                       (boot (dev_success 1 1)) = Ret 0 s' /\
    cmds_of (trace s')
    = [[CMD_SECTOR_ERASE; 0; 0; 0; 0]; [CMD_GET_STATUS];
       [CMD_DOWNLOAD; 0; 0; 0; 0; 0; 0; 0; 8]; [CMD_GET_STATUS];
       CMD_SEND_DATA :: demo_image 5 ++ [0xFF; 0xFF; 0xFF]; [CMD_GET_STATUS];
       [CMD_RESET]].
Proof.
  assert (Hp : 0 < 0x1000 <= 0x20000) by lia.
  assert (Hf : 0x20000 < 2 ^ 32) by lia.
  assert (H0 : is_u32 0) by (unfold is_u32; lia).
  assert (Hl : len (demo_image 5) + 4 <= 2 ^ 64) by (vm_compute; discriminate).
  split; [split; [exact Hp|split; [exact Hf|split; [exact H0|exact Hl]]]|].
  eexists. split; [vm_compute; reflexivity|].
  match goal with
  | |- cmds_of (trace ?st) = _ =>
      assert (E : sbl_program_binary 3 0x20000 0x1000 (demo_image 5) 0
                                     (boot (dev_success 1 1)) = Ret 0 st)
        by (vm_compute; reflexivity)
  end.
  pose proof (program_binary_command_script _ _ _ _ _ _ _ _ Hp Hf H0 Hl E)
    as (_ & _ & Hd).
  destruct (Hd eq_refl) as (d & Htr & _ & _ & Hok).
  rewrite Htr. cbn [boot trace app]. rewrite (Hok eq_refl).
  vm_compute. reflexivity.
Defined.

(* ================================================================== *)
(** ** What the erase phase covers *)

Lemma In_page_seq (n : nat) :
  forall (a page_size x : Z),
    In x (page_seq n a page_size) <->
    exists i, 0 <= i < Z.of_nat n /\ x = a + i * page_size.
Proof.
  induction n as [|n IH]; intros a ps x.
  - split; [intros []|intros (i & Hi & _); lia].
  - cbn [page_seq In]. rewrite IH. split.
    + intros [<- | (i & Hi & ->)].
      * exists 0. split; lia.
      * exists (i + 1). split; lia.
    + intros (i & Hi & ->).
      destruct (Z.eq_dec i 0) as [-> | Hne]; [left; lia|].
      right. exists (i - 1). split; lia.
Qed.

Lemma In_pages_between (base bound page_size x : Z) :
  0 < page_size ->
  In x (pages_between base bound page_size) ->
  base <= x < bound /\ (x - base) mod page_size = 0.
Proof.
  intros Hp Hin. unfold pages_between in Hin.
  apply In_page_seq in Hin. destruct Hin as (i & Hi & ->).
  assert (Hn : 0 < (bound - base + page_size - 1) / page_size) by lia.
  rewrite Z2Nat.id in Hi by lia.
  replace (base + i * page_size - base) with (i * page_size) by lia.
  rewrite Z.mod_mul by lia. split; [|reflexivity].
  assert (Hq : (i + 1) * page_size <= bound - base + page_size - 1).
  { transitivity ((bound - base + page_size - 1) / page_size * page_size).
    - apply Z.mul_le_mono_nonneg_r; lia.
    - rewrite Z.mul_comm. apply Z.mul_div_le. lia. }
  nia.
Qed.

Lemma pages_between_cover (base bound page_size x : Z) :
  0 < page_size -> base <= x < bound ->
  exists a, In a (pages_between base bound page_size) /\ a <= x < a + page_size.
Proof.
  intros Hp Hx. exists (base + (x - base) / page_size * page_size).
  pose proof (Z.div_mod (x - base) page_size ltac:(lia)) as Hd.
  pose proof (Z.mod_pos_bound (x - base) page_size Hp) as Hm.
  assert (Hi : 0 <= (x - base) / page_size) by (apply Z.div_pos; lia).
  split; [|lia].
  unfold pages_between. apply In_page_seq.
  exists ((x - base) / page_size). split; [|reflexivity].
  split; [exact Hi|].
  assert (Hn : (x - base) / page_size + 1
               <= (bound - base + page_size - 1) / page_size).
  { apply Z.div_le_lower_bound; lia. }
  rewrite Z2Nat.id by lia. lia.
Qed.

Lemma args_of_erase_script (pages : list Z) :
  args_of CMD_SECTOR_ERASE (erase_script pages) = map be_bytes pages.
Proof.
  induction pages as [|a pages IH]; [reflexivity|].
  cbn [erase_script flat_map]. fold (erase_script pages).
  rewrite args_of_app, IH. reflexivity.
Qed.

Lemma args_of_send_script (chunks : list (list Z)) :
  args_of CMD_SECTOR_ERASE (send_script chunks) = [].
Proof.
  induction chunks as [|c chunks IH]; [reflexivity|].
  cbn [send_script flat_map]. fold (send_script chunks).
  rewrite args_of_app, IH. reflexivity.
Qed.

(** The bound of the erase loop for a power-of-two page size, when nothing
    wraps: the end of the rounded image, capped at the last page. *)
Lemma erase_bound_min (flash_size page_size image_len base_addr k : Z) :
  0 <= k < 32 -> page_size = 2 ^ k ->
  page_size <= flash_size -> flash_size < 2 ^ 32 ->
  0 <= image_len -> image_len + page_size <= 2 ^ 64 ->
  0 <= base_addr ->
  base_addr + round_up image_len page_size < 2 ^ 32 ->
  u32 (base_addr + erase_length flash_size page_size image_len base_addr)
  = Z.min (base_addr + round_up image_len page_size) (flash_size - page_size).
Proof.
  intros Hk -> Hps Hfs Hi Hb Hba Hfit.
  assert (Hp : 0 < 2 ^ k) by (apply Z.pow_pos_nonneg; lia).
  assert (Hr : 0 <= round_up image_len (2 ^ k)).
  { unfold round_up. apply Z.mul_nonneg_nonneg; [|lia].
    apply Z.div_pos; lia. }
  unfold erase_length. cbv zeta.
  rewrite round_up_mask by assumption.
  assert (Hu : u32 (round_up image_len (2 ^ k)) = round_up image_len (2 ^ k))
    by (unfold u32; apply Z.mod_small; lia).
  rewrite Hu.
  assert (Hs : u32 (base_addr + round_up image_len (2 ^ k))
               = base_addr + round_up image_len (2 ^ k))
    by (unfold u32; apply Z.mod_small; lia).
  assert (Hl : u32 (flash_size - 2 ^ k) = flash_size - 2 ^ k)
    by (unfold u32; apply Z.mod_small; lia).
  rewrite Hs, Hl.
  destruct (base_addr + round_up image_len (2 ^ k) >? flash_size - 2 ^ k)
    eqn:Hg; rewrite Z.gtb_ltb in Hg.
  - apply Z.ltb_lt in Hg. rewrite Z.min_r by lia.
    unfold u32. rewrite Zplus_mod_idemp_r.
    replace (base_addr + (flash_size - 2 ^ k - base_addr))
      with (flash_size - 2 ^ k) by lia.
    apply Z.mod_small. lia.
  - apply Z.ltb_ge in Hg. rewrite Z.min_l by lia. exact Hs.
Qed.



(* ================================================================== *)
(** ** The [sbl_full_erase] command *)

Section FullEraseFacts.

Context {W : Type} {T : Transport W}.

Lemma full_erase_loop_script (junk : Z -> Z) (fuel : nat) :
  forall (a last_page_start page_size : Z) (s s' : state W) (e : option Z),
    0 < page_size -> 0 <= a -> last_page_start + page_size <= 2 ^ 32 ->
    full_erase_loop fuel junk a last_page_start page_size s = Ret e s' ->
    let script := erase_script (pages_between a last_page_start page_size) in
    exists d,
      trace s' = trace s ++ d /\
      (e = None \/ e = Some 1) /\
      starts (cmds_of d) script /\
      (e = None -> cmds_of d = script).
Proof.
  induction fuel as [|fuel IH]; intros a lps ps s s' e Hp Ha Hroom E;
    [discriminate|].
  cbn [full_erase_loop] in E. cbv zeta.
  destruct (a <? lps) eqn:Hlt.
  2:{ apply Z.ltb_ge in Hlt. inversion E; subst.
      rewrite pages_between_none by assumption.
      exists []. rewrite app_nil_r.
      split; [reflexivity|]. split; [now left|].
      split; [apply starts_nil|reflexivity]. }
  apply Z.ltb_lt in Hlt.
  rewrite pages_between_next by assumption.
  cbn [erase_script flat_map].
  fold (erase_script (pages_between (a + ps) lps ps)).
  destruct (sbl_sector_erase_sends a 2000 ltac:(timeout_ok) s)
    as (r1 & s1 & d1 & E1 & T1 & C1).
  rewrite (bind_run _ _ _ _ _ E1) in E.
  destruct (negb (r1 =? 0)).
  { inversion E; subst. exists d1. split; [exact T1|]. split; [now right|].
    rewrite C1. split; [|discriminate].
    eexists. cbn [app]. reflexivity. }
  destruct (sbl_get_status_sends 500 (junk a) ltac:(timeout_ok) s1)
    as ([r2 st] & s2 & d2 & E2 & T2 & C2).
  rewrite (bind_run _ _ _ _ _ E2) in E.
  assert (T12 : trace s2 = trace s ++ d1 ++ d2)
    by (rewrite T2, T1, app_assoc; reflexivity).
  assert (C12 : cmds_of (d1 ++ d2)
                = [CMD_SECTOR_ERASE :: be_bytes a; [CMD_GET_STATUS]])
    by (rewrite cmds_of_app, C1, C2; reflexivity).
  destruct (st =? 64).
  2:{ inversion E; subst. exists (d1 ++ d2). split; [exact T12|].
      split; [now right|]. rewrite C12. split; [|discriminate].
      eexists. cbn [app]. reflexivity. }
  replace (u32 (a + ps)) with (a + ps) in E
    by (unfold u32; symmetry; apply Z.mod_small; lia).
  apply IH in E; try lia.
  destruct E as (d3 & T3 & Hr & P3 & Q3).
  exists ((d1 ++ d2) ++ d3).
  split; [rewrite T3, T12, <- !app_assoc; reflexivity|].
  split; [exact Hr|]. rewrite cmds_of_app, C12.
  split; [exact (starts_app _ _ _ P3)|].
  intros Hn. now rewrite (Q3 Hn).
Qed.

Lemma full_erase_loop_returns (junk : Z -> Z) (fuel : nat) :
  forall (a last_page_start page_size : Z) (s : state W),
    0 < page_size -> 0 <= a -> last_page_start + page_size <= 2 ^ 32 ->
    (Z.to_nat (last_page_start - a) < fuel)%nat ->
    exists e s', full_erase_loop fuel junk a last_page_start page_size s
                 = Ret e s'.
Proof.
  induction fuel as [|fuel IH]; intros a lps ps s Hp Ha Hroom Hf; [lia|].
  cbn [full_erase_loop].
  destruct (a <? lps) eqn:Hlt; [|eexists _, _; reflexivity].
  apply Z.ltb_lt in Hlt.
  destruct (sbl_sector_erase_sends a 2000 ltac:(timeout_ok) s)
    as (r1 & s1 & d1 & E1 & _).
  rewrite (bind_run _ _ _ _ _ E1).
  destruct (negb (r1 =? 0)); [eexists _, _; reflexivity|].
  destruct (sbl_get_status_sends 500 (junk a) ltac:(timeout_ok) s1)
    as ([r2 st] & s2 & d2 & E2 & _).
  rewrite (bind_run _ _ _ _ _ E2).
  destruct (st =? 64); [|eexists _, _; reflexivity].
  replace (u32 (a + ps)) with (a + ps)
    by (unfold u32; symmetry; apply Z.mod_small; lia).
  apply IH; lia.
Qed.

End FullEraseFacts.

Lemma erased_pages_starts (d : list io_event) (pages : list Z) :
  Forall is_u32 pages ->
  starts (cmds_of d) (erase_script pages) ->
  exists rest, pages = erased_pages d ++ rest.
Proof.
  intros Hu [rest Hs].
  assert (Ha : map be_value (args_of CMD_SECTOR_ERASE (erase_script pages))
               = pages).
  { rewrite args_of_erase_script, map_map.
    rewrite <- (map_id pages) at 2. apply map_ext_in.
    intros a Hin. apply be_value_be_bytes.
    rewrite Forall_forall in Hu. now apply Hu. }
  rewrite Hs, args_of_app, map_app in Ha.
  eexists. symmetry. exact Ha.
Qed.

(** X14.  With a page size above 0 in a flash that holds at least one page,
    the [sbl_full_erase] command returns once the fuel covers the pages,
    with [rc] 0 or 1.  What it sent is an initial segment of SECTOR_ERASE
    then GET_STATUS for each page from 0 up to the start of the last page
    in ascending order, all of it when [rc] is 0; so it erases the pages in
    order without a gap and never the last one. *)
Theorem full_erase_stops_before_last_page {W : Type} {T : Transport W}
        (junk : Z -> Z) (flash_size page_size : Z) (s : state W) :
  0 < page_size <= flash_size -> flash_size < 2 ^ 32 ->
  let pages := pages_between 0 (flash_size - page_size) page_size in
  (exists fuel0, forall fuel, (fuel0 <= fuel)%nat ->
     exists rc s',
       main_sbl_full_erase fuel junk flash_size page_size s = Ret rc s') /\
  (forall (fuel : nat) (rc : Z) (s' : state W),
      main_sbl_full_erase fuel junk flash_size page_size s = Ret rc s' ->
      exists d,
        trace s' = trace s ++ d /\
        (rc = 0 \/ rc = 1) /\
        starts (cmds_of d) (erase_script pages) /\
        (rc = 0 -> cmds_of d = erase_script pages) /\
        (exists rest, pages = erased_pages d ++ rest) /\
        Forall (fun a => 0 <= a < flash_size - page_size) (erased_pages d)).
Proof.
  intros Hps Hfs pages.
  assert (Hl : u32 (flash_size - page_size) = flash_size - page_size)
    by (unfold u32; apply Z.mod_small; lia).
  assert (Hin : forall a, In a pages -> 0 <= a < flash_size - page_size).
  { intros a Ha. apply In_pages_between in Ha; lia. }
  split.
  - exists (S (Z.to_nat (flash_size - page_size))). intros fuel Hf.
    unfold main_sbl_full_erase. cbv zeta. rewrite Hl.
    destruct (full_erase_loop_returns junk fuel 0 (flash_size - page_size)
                page_size s) as (e & s' & E); try lia.
    rewrite (bind_run _ _ _ _ _ E). destruct e; eexists _, _; reflexivity.
  - intros fuel rc s' E. unfold main_sbl_full_erase in E. cbv zeta in E.
    rewrite Hl in E. apply bind_Ret in E. destruct E as (e & s1 & E1 & E).
    apply full_erase_loop_script in E1; try lia.
    destruct E1 as (d & Tr & He & P & Q). fold pages in P, Q.
    assert (s1 = s' /\ (rc = 0 \/ rc = 1) /\ (rc = 0 -> e = None))
      as (-> & Hrc & Hnone).
    { destruct He as [-> | ->]; inversion E; subst.
      - split; [reflexivity|]. split; [now left|reflexivity].
      - split; [reflexivity|]. split; [now right|discriminate]. }
    exists d. split; [exact Tr|]. split; [exact Hrc|].
    split; [exact P|]. split; [intros H0; now apply Q, Hnone|].
    destruct (erased_pages_starts d pages) as [rest Hrest]; [|exact P|].
    { apply Forall_forall. intros a Ha. apply Hin in Ha.
      unfold is_u32. lia. }
    split; [now exists rest|].
    apply Forall_forall. intros a Ha. apply Hin.
    rewrite Hrest. apply in_or_app. now left.
Qed.

Lemma full_erase_stops_before_last_page_witness :
  (0 < 0x1000 <= 0x4000 /\ 0x4000 < 2 ^ 32) /\
  exists s',
    main_sbl_full_erase 5 (fun _ => 0) 0x4000 0x1000
      (boot (concat (repeat (dev_ack ++ dev_status COMMAND_RET_SUCCESS) 3)))
    = Ret 0 s' /\
    erased_pages (trace s') = [0; 0x1000; 0x2000].
Proof.
  assert (Hp : 0 < 0x1000 <= 0x4000) by lia.
  assert (Hf : 0x4000 < 2 ^ 32) by lia.
  split; [split; assumption|].
  eexists. split; [vm_compute; reflexivity|].
  match goal with
  | |- erased_pages (trace ?st) = _ =>
      assert (E : main_sbl_full_erase 5 (fun _ => 0) 0x4000 0x1000
                    (boot (concat (repeat (dev_ack ++ dev_status COMMAND_RET_SUCCESS)
                                          3)))
                  = Ret 0 st)
        by (vm_compute; reflexivity)
  end.
  pose proof (proj2 (full_erase_stops_before_last_page
                       (fun _ => 0) 0x4000 0x1000 _ Hp Hf) _ _ _ E)
    as (d & Htr & _ & _ & Hok & _).
  rewrite Htr. cbn [boot trace app]. unfold erased_pages.
  rewrite (Hok eq_refl). vm_compute. reflexivity.
Defined.

(** X15.  The [sbl_full_erase] command ignores what [sbl_get_status]
    returns and compares a variable it never initialised.  When the status
    query after an acknowledged SECTOR_ERASE does not deliver a status, the
    variable still holds what it held before, and that alone decides: if it
    happens to be [0x40] the loop goes on to the next page, otherwise the
    command ends with [rc] 1. *)
Theorem full_erase_decides_on_uninitialised_status
        {W : Type} {T : Transport W}
        (fuel : nat) (junk : Z -> Z) (a last_page_start page_size : Z)
        (s s1 s2 : state W) (r st : Z) :
  a < last_page_start ->
  sbl_sector_erase a 2000 s = Ret 0 s1 ->
  sbl_get_status 500 (junk a) s1 = Ret (r, st) s2 ->
  (r = -1 \/ writes_of (skipn (length (trace s1)) (trace s2))
             <> [frame_of [CMD_GET_STATUS]; [0x00; SBL_ACK]]) ->
  st = junk a /\
  full_erase_loop (S fuel) junk a last_page_start page_size s
  = if junk a =? 0x40
    then full_erase_loop fuel junk (u32 (a + page_size))
                         last_page_start page_size s2
    else Ret (Some 1) s2.
Proof.
  intros Hlt E1 E2 Hfail.
  assert (Hst : st = junk a).
  { destruct (sbl_get_status_shape 500 (junk a) s1 ltac:(timeout_ok))
      as (r' & st' & s2' & d & E & Tr & _ & _ & Hneg & Hchg).
    rewrite E in E2. inversion E2; subst r' st' s2'.
    destruct (Z.eq_dec st (junk a)) as [|Hne]; [assumption|].
    destruct Hfail as [Hr | Hw]; [now apply Hneg|].
    exfalso. apply Hw. rewrite Tr, skipn_app, skipn_all, Nat.sub_diag.
    cbn [skipn app]. now apply Hchg. }
  split; [exact Hst|].
  cbn [full_erase_loop]. apply Z.ltb_lt in Hlt. rewrite Hlt.
  rewrite (bind_run _ _ _ _ _ E1). cbn [Z.eqb negb].
  rewrite (bind_run _ _ _ _ _ E2). rewrite Hst.
  destruct (junk a =? 64); reflexivity.
Qed.

(** An instance: one page below the last, an ACK for the erase and then
    silence.  With [0x40] left in the variable the command reports
    success although no status was ever received. *)
Lemma full_erase_decides_on_uninitialised_status_witness :
  let s1 := mkState [] (EOTHER 0)
                    [EvWrite [7; 0x26; 0x26; 0; 0; 0; 0]; EvRead 1 20] in
  let s2 := mkState [] ETIMEDOUT
                    (trace s1 ++ EvWrite [3; 0x23; 0x23]
                       :: repeat (EvRead 1 20) 25) in
  (0 < 0x1000 /\
   sbl_sector_erase 0 2000 (boot dev_ack) = Ret 0 s1 /\
   sbl_get_status 500 0x40 s1 = Ret (-1, 0x40) s2 /\
   (-1 = -1 \/ writes_of (skipn (length (trace s1)) (trace s2))
               <> [frame_of [CMD_GET_STATUS]; [0x00; SBL_ACK]])) /\
  main_sbl_full_erase 2 (fun _ => 0x40) 0x2000 0x1000 (boot dev_ack)
  = Ret 0 s2.
Proof.
  intros s1 s2.
  assert (Hlt : 0 < 0x1000) by lia.
  assert (E1 : sbl_sector_erase 0 2000 (boot dev_ack) = Ret 0 s1)
    by (vm_compute; reflexivity).
  assert (E2 : sbl_get_status 500 0x40 s1 = Ret (-1, 0x40) s2)
    by (vm_compute; reflexivity).
  assert (Hf : -1 = -1 \/
               writes_of (skipn (length (trace s1)) (trace s2))
               <> [frame_of [CMD_GET_STATUS]; [0x00; SBL_ACK]])
    by (left; reflexivity).
  split; [split; [exact Hlt|split; [exact E1|split; [exact E2|exact Hf]]]|].
  pose proof (proj2 (full_erase_decides_on_uninitialised_status
                       1 (fun _ => 0x40) 0 0x1000 0x1000
                       (boot dev_ack) s1 s2 (-1) 0x40 Hlt E1 E2 Hf))
    as Hrun.
  unfold main_sbl_full_erase. cbv zeta.
  change (u32 (0x2000 - 0x1000)) with 0x1000.
  rewrite (bind_run _ _ _ _ _ Hrun). reflexivity.
Defined.

(** X16.  The [sbl_full_erase] command does not check the page size.  With
    a page size of 0 and a flash size above 0 the loop never advances: as
    long as the device keeps acknowledging SECTOR_ERASE of page 0 and the
    status comes out as [0x40], the command erases page 0 again, and no
    amount of fuel lets it return. *)
Theorem full_erase_page_size_zero_never_returns {W : Type} {T : Transport W}
        (I : state W -> Prop) (junk : Z -> Z) (flash_size : Z) (s : state W) :
  0 < u32 flash_size ->
  (forall s0, I s0 ->
     exists s1 r s2,
       sbl_sector_erase 0 2000 s0 = Ret 0 s1 /\
       sbl_get_status 500 (junk 0) s1 = Ret (r, 0x40) s2 /\ I s2) ->
  I s ->
  forall fuel, main_sbl_full_erase fuel junk flash_size 0 s = OutOfFuel.
Proof.
  intros Hfs Hstep Hs fuel.
  unfold main_sbl_full_erase. cbv zeta. rewrite Z.sub_0_r.
  assert (Hloop : full_erase_loop fuel junk 0 (u32 flash_size) 0 s = OutOfFuel).
  { revert s Hs. induction fuel as [|fuel IH]; intros s Hs; [reflexivity|].
    cbn [full_erase_loop]. apply Z.ltb_lt in Hfs. rewrite Hfs.
    destruct (Hstep s Hs) as (s1 & r & s2 & E1 & E2 & H2).
    rewrite (bind_run _ _ _ _ _ E1). cbn [Z.eqb negb].
    rewrite (bind_run _ _ _ _ _ E2). cbn [Z.eqb Pos.eqb].
    change (u32 (0 + 0)) with 0. now apply IH. }
  unfold bind. now rewrite Hloop.
Qed.

(** An instance: the device that accepts every erase. *)
Lemma full_erase_page_size_zero_never_returns_witness :
  0 < u32 0x20000 /\
  forall fuel,
    main_sbl_full_erase fuel (fun _ => 0) 0x20000 0
                        (mkState 0%nat (EOTHER 0) []) = OutOfFuel.
Proof.
  assert (Hfs : 0 < u32 0x20000) by (vm_compute; reflexivity).
  split; [exact Hfs|].
  apply (full_erase_page_size_zero_never_returns
           (fun s0 => dev s0 = 0%nat) (fun _ => 0) 0x20000
           (mkState 0%nat (EOTHER 0) []) Hfs).
  - intros [w e tr] Hw. cbn [dev] in Hw. subst w.
    eexists _, 0, _.
    split; [vm_compute; reflexivity|].
    split; [vm_compute; reflexivity|reflexivity].
  - reflexivity.
Defined.

(* ================================================================== *)
(** ** [serial.c]: the loops over the system calls *)

Lemma accepted_app (c1 c2 : list SerialC.sys_event) :
  SerialC.accepted (c1 ++ c2) = SerialC.accepted c1 ++ SerialC.accepted c2.
Proof. unfold SerialC.accepted. apply flat_map_app. Qed.

Section SerialCalls.

Import SerialC.

Context {K : Type} {P : Posix K}.

Lemma after_calls_app (o : K) (c1 c2 : list sys_event) :
  after_calls o (c1 ++ c2) = after_calls (after_calls o c1) c2.
Proof. revert o. induction c1 as [|c c1 IH]; intros o; cbn; auto. Qed.

(** The invariant of the loop of [serial_write_all]: the calls of a run
    that returns account for the bytes from [sent] on. *)
Lemma write_all_loop_accounts (buf : list Z) (fuel : nat) :
  forall (sent : Z) (st st' : sys_state K) (r : Z),
    0 <= sent <= len buf ->
    write_all_loop fuel buf sent st = Some (r, st') ->
    exists ws c,
      calls st' = calls st ++ ws ++ [c] /\
      Forall (fun w => is_drain w = false) ws /\
      (exists rest, skipn (Z.to_nat sent) buf = accepted ws ++ rest) /\
      os st' = after_calls (os st) (ws ++ [c]) /\
      genuine (os st) ws /\
      ((r = len buf /\ c = SysDrain /\
        accepted ws = skipn (Z.to_nat sent) buf /\
        fst (sys_tcdrain (after_calls (os st) ws)) = None) \/
       (r = -1 /\ c = SysDrain /\
        accepted ws = skipn (Z.to_nat sent) buf /\
        fst (sys_tcdrain (after_calls (os st) ws))
        = Some (sys_errno st')) \/
       (r = -1 /\ is_EINTR (sys_errno st') = false /\
        exists b, c = SysWrite b (-1) /\ b <> [] /\
                  fst (sys_write (after_calls (os st) ws) b)
                  = inr (sys_errno st'))).
Proof.
  induction fuel as [|fuel IH]; intros sent st st' r Hs E; [discriminate|].
  cbn [write_all_loop] in E.
  destruct (sent <? len buf) eqn:Hlt.
  - apply Z.ltb_lt in Hlt. cbv zeta in E.
    set (rest := skipn (Z.to_nat sent) buf) in *.
    assert (Hrl : len rest = len buf - sent).
    { unfold len, rest. rewrite length_skipn. unfold len in Hs, Hlt. lia. }
    assert (Hne : rest <> []).
    { intros H0. rewrite H0 in Hrl. cbn in Hrl. lia. }
    destruct (sys_write (os st) rest) as [[n|e] o'] eqn:Hw.
    + pose proof (sys_write_fits _ _ _ _ Hw) as Hn.
      apply IH in E; [|lia].
      destruct E as (ws & c & Hc & Hd & (tl & Hp) & Hos & Hg & Hr).
      cbn [calls os] in Hc, Hos, Hg, Hr.
      assert (Hnext : skipn (Z.to_nat (sent + n)) buf
                      = skipn (Z.to_nat n) rest).
      { unfold rest. rewrite skipn_skipn. f_equal. lia. }
      assert (Hsplit : rest = firstn (Z.to_nat n) rest
                              ++ skipn (Z.to_nat (sent + n)) buf).
      { rewrite Hnext. symmetry. apply firstn_skipn. }
      assert (Hstep : after_call (os st) (SysWrite rest n) = o')
        by (cbn [after_call]; now rewrite Hw).
      exists (SysWrite rest n :: ws), c.
      split; [rewrite Hc, <- !app_assoc; reflexivity|].
      split; [constructor; [reflexivity|exact Hd]|].
      assert (Ha : accepted (SysWrite rest n :: ws)
                   = firstn (Z.to_nat n) rest ++ accepted ws) by reflexivity.
      rewrite Ha.
      split.
      { exists tl. rewrite <- app_assoc, <- Hp. exact Hsplit. }
      cbn [app after_calls genuine]. rewrite Hstep.
      split; [exact Hos|].
      split; [split; [now rewrite Hw|exact Hg]|].
      destruct Hr as [(Hr & Hcd & Hacc & Hdr) | [(Hr & Hcd & Hacc & Hdr) | Hr]].
      * left. split; [exact Hr|]. split; [exact Hcd|].
        split; [rewrite Hacc; symmetry; exact Hsplit|exact Hdr].
      * right. left. split; [exact Hr|]. split; [exact Hcd|].
        split; [rewrite Hacc; symmetry; exact Hsplit|exact Hdr].
      * right. right. exact Hr.
    + destruct (is_EINTR e) eqn:He.
      * apply IH in E; [|lia].
        destruct E as (ws & c & Hc & Hd & (tl & Hp) & Hos & Hg & Hr).
        cbn [calls os] in Hc, Hos, Hg, Hr. fold rest in Hp, Hr.
        assert (Hstep : after_call (os st) (SysWrite rest (-1)) = o')
          by (cbn [after_call]; now rewrite Hw).
        exists (SysWrite rest (-1) :: ws), c.
        split; [rewrite Hc, <- !app_assoc; reflexivity|].
        split; [constructor; [reflexivity|exact Hd]|].
        assert (Ha : accepted (SysWrite rest (-1) :: ws) = accepted ws)
          by reflexivity.
        rewrite Ha. split; [now exists tl|].
        cbn [app after_calls genuine]. rewrite Hstep.
        split; [exact Hos|].
        split; [split; [now rewrite Hw|exact Hg]|exact Hr].
      * inversion E; subst. exists [], (SysWrite rest (-1)).
        split; [reflexivity|]. split; [constructor|].
        split; [now exists rest|].
        cbn [app after_calls after_call genuine os sys_errno]. rewrite Hw.
        split; [reflexivity|]. split; [exact Logic.I|].
        right. right. split; [reflexivity|]. split; [exact He|].
        exists rest. rewrite Hw. auto.
  - apply Z.ltb_ge in Hlt. assert (sent = len buf) by lia. subst sent.
    assert (Hnil : skipn (Z.to_nat (len buf)) buf = []).
    { apply skipn_all2. unfold len. lia. }
    destruct (sys_tcdrain (os st)) as [[e|] o'] eqn:Hdr;
      inversion E; subst; exists [], SysDrain;
      (split; [reflexivity|]); (split; [constructor|]);
      (split; [exists []; exact Hnil|]);
      cbn [app after_calls after_call genuine os sys_errno]; rewrite Hdr;
      (split; [reflexivity|]); (split; [exact Logic.I|]).
    + right. left. rewrite Hnil. auto.
    + left. rewrite Hnil. auto.
Qed.

End SerialCalls.

(** X17.  A call of [serial_write_all] that returns made some [write]
    calls and then one last call, one after the other on the system, each
    [write] recorded with the count it returned.  The bytes the system
    accepted, call after call, are an initial segment of the buffer.  It
    returns the length of the buffer exactly when they are all of it and
    the last call is a [tcdrain] that succeeded; it returns -1 when that
    [tcdrain] failed, or when the last call is a [write] that failed with
    an error other than [EINTR], and then no [tcdrain] is made at all; in
    both cases [errno] is the error of that call. *)
Theorem serial_write_all_accounts {K : Type} {P : SerialC.Posix K}
        (fuel : nat) (buf : list Z) (st st' : SerialC.sys_state K) (r : Z) :
  SerialC.serial_write_all fuel buf st = Some (r, st') ->
  exists ws c,
    SerialC.calls st' = SerialC.calls st ++ ws ++ [c] /\
    Forall (fun w => SerialC.is_drain w = false) ws /\
    (exists rest, buf = SerialC.accepted ws ++ rest) /\
    SerialC.os st' = SerialC.after_calls (SerialC.os st) (ws ++ [c]) /\
    SerialC.genuine (SerialC.os st) ws /\
    ((r = len buf /\ c = SerialC.SysDrain /\ SerialC.accepted ws = buf /\
      fst (SerialC.sys_tcdrain (SerialC.after_calls (SerialC.os st) ws))
      = None) \/
     (r = -1 /\ c = SerialC.SysDrain /\ SerialC.accepted ws = buf /\
      fst (SerialC.sys_tcdrain (SerialC.after_calls (SerialC.os st) ws))
      = Some (SerialC.sys_errno st')) \/
     (r = -1 /\ SerialC.is_EINTR (SerialC.sys_errno st') = false /\
      exists b, c = SerialC.SysWrite b (-1) /\ b <> [] /\
                fst (SerialC.sys_write
                       (SerialC.after_calls (SerialC.os st) ws) b)
                = inr (SerialC.sys_errno st'))).
Proof.
  intros E. unfold SerialC.serial_write_all in E.
  apply write_all_loop_accounts in E.
  - exact E.
  - pose proof (len_nonneg buf). lia.
Qed.

(** An instance: a terminal that takes two bytes per [write], interrupted
    once, and whose [tcdrain] fails. *)
Lemma serial_write_all_accounts_witness :
  let st := SerialC.mkSys (mkTty 2 [None; Some EINTR] (Some (EOTHER 5)) [])
                          (EOTHER 0) [] in
  let st' := SerialC.mkSys (mkTty 2 [] (Some (EOTHER 5)) []) (EOTHER 5)
               [SerialC.SysWrite [1; 2; 3] 2; SerialC.SysWrite [3] (-1);
                SerialC.SysWrite [3] 1; SerialC.SysDrain] in
  SerialC.serial_write_all 5 [1; 2; 3] st = Some (-1, st') /\
  exists ws c,
    SerialC.calls st' = SerialC.calls st ++ ws ++ [c] /\
    Forall (fun w => SerialC.is_drain w = false) ws /\
    (exists rest, [1; 2; 3] = SerialC.accepted ws ++ rest) /\
    SerialC.os st' = SerialC.after_calls (SerialC.os st) (ws ++ [c]) /\
    SerialC.genuine (SerialC.os st) ws /\
    ((-1 = len [1; 2; 3] /\ c = SerialC.SysDrain /\
      SerialC.accepted ws = [1; 2; 3] /\
      fst (SerialC.sys_tcdrain (SerialC.after_calls (SerialC.os st) ws))
      = None) \/
     (-1 = -1 /\ c = SerialC.SysDrain /\ SerialC.accepted ws = [1; 2; 3] /\
      fst (SerialC.sys_tcdrain (SerialC.after_calls (SerialC.os st) ws))
      = Some (SerialC.sys_errno st')) \/
     (-1 = -1 /\ SerialC.is_EINTR (SerialC.sys_errno st') = false /\
      exists b, c = SerialC.SysWrite b (-1) /\ b <> [] /\
                fst (SerialC.sys_write
                       (SerialC.after_calls (SerialC.os st) ws) b)
                = inr (SerialC.sys_errno st'))).
Proof.
  intros st st'.
  assert (E : SerialC.serial_write_all 5 [1; 2; 3] st = Some (-1, st'))
    by (vm_compute; reflexivity).
  split; [exact E|].
  exact (serial_write_all_accounts 5 [1; 2; 3] st st' (-1) E).
Defined.

(** X18.  [serial_write_all] has no bound on its retries: as long as every
    [write] accepts no byte or is interrupted, a call with a non-empty
    buffer makes another [write] of the whole buffer, and no amount of
    fuel lets it return. *)
Theorem serial_write_all_retries_forever {K : Type} {P : SerialC.Posix K}
        (I : K -> Prop) (buf : list Z) (st : SerialC.sys_state K) :
  buf <> [] ->
  (forall o, I o ->
     exists o',
       I o' /\
       (SerialC.sys_write o buf = (inl 0, o') \/
        exists e, SerialC.sys_write o buf = (inr e, o') /\
                  SerialC.is_EINTR e = true)) ->
  I (SerialC.os st) ->
  forall fuel, SerialC.serial_write_all fuel buf st = None.
Proof.
  intros Hne Hstep Hs fuel. unfold SerialC.serial_write_all.
  revert st Hs. induction fuel as [|fuel IH]; intros st Hs; [reflexivity|].
  cbn [SerialC.write_all_loop].
  assert (Hlt : (0 <? len buf) = true).
  { apply Z.ltb_lt. destruct buf; [congruence|].
    rewrite len_cons. pose proof (len_nonneg buf). lia. }
  rewrite Hlt. cbn [Z.to_nat skipn].
  destruct (Hstep _ Hs) as (o' & Ho' & [Hw | (e & Hw & He)]); rewrite Hw.
  - apply IH. exact Ho'.
  - rewrite He. apply IH. exact Ho'.
Qed.

(** An instance: a terminal that accepts nothing. *)
Lemma serial_write_all_retries_forever_witness :
  [1; 2; 3] <> [] /\
  forall fuel,
    SerialC.serial_write_all fuel [1; 2; 3]
      (SerialC.mkSys (mkTty 0 [] None []) (EOTHER 0) []) = None.
Proof.
  assert (Hne : [1; 2; 3] <> []) by discriminate.
  split; [exact Hne|].
  apply (serial_write_all_retries_forever
           (fun o => o = mkTty 0 [] None []) [1; 2; 3]
           (SerialC.mkSys (mkTty 0 [] None []) (EOTHER 0) []) Hne).
  - intros o ->. exists (mkTty 0 [] None []).
    split; [reflexivity|]. left. reflexivity.
  - reflexivity.
Defined.

(** X19.  [serial_read_timeout] asked for [n] bytes returns -1 with
    nothing stored, or 0 with nothing stored, or a count between 1 and [n]
    with that many bytes stored, then after exactly one [poll] and one
    [read]: what the transport of [sbl.c] is assumed to deliver.  It calls
    [read] only when [poll] reported [POLLIN], and it returns 0 not only on
    a timeout but also when [poll] reports the descriptor ready without
    [POLLIN], which is how a hang-up shows.  Which of these it is follows
    the system: when [poll] times out the result is 0 after that one call,
    with [errno] as it was; when [poll] fails the result is -1 with the
    error of [poll] in [errno]; when [poll] reported [POLLIN] the result
    is the count and the bytes of the [read] that follows, or -1 with its
    error in [errno]. *)
Theorem serial_read_timeout_contract {K : Type} {P : SerialC.Posix K}
        (n timeout_ms : Z) (st st' : SerialC.sys_state K)
        (r : Z) (bs : list Z) :
  0 <= n ->
  SerialC.serial_read_timeout n timeout_ms st = ((r, bs), st') ->
  ((r = -1 /\ bs = []) \/
   (r = 0 /\ bs = [] /\ SerialC.sys_errno st' = SerialC.sys_errno st) \/
   (1 <= r <= n /\ len bs = r /\ Forall is_byte bs /\
    SerialC.sys_errno st' = SerialC.sys_errno st /\
    SerialC.calls st'
    = SerialC.calls st
        ++ [SerialC.SysPoll timeout_ms; SerialC.SysRead n])) /\
  (In (SerialC.SysRead n) (skipn (length (SerialC.calls st))
                                 (SerialC.calls st')) <->
   fst (SerialC.sys_poll (SerialC.os st) timeout_ms)
   = SerialC.PollReady true) /\
  (fst (SerialC.sys_poll (SerialC.os st) timeout_ms)
   = SerialC.PollReady false ->
   r = 0 /\
   SerialC.calls st' = SerialC.calls st ++ [SerialC.SysPoll timeout_ms]) /\
  (fst (SerialC.sys_poll (SerialC.os st) timeout_ms) = SerialC.PollTimeout ->
   r = 0 /\ bs = [] /\ SerialC.sys_errno st' = SerialC.sys_errno st /\
   SerialC.calls st' = SerialC.calls st ++ [SerialC.SysPoll timeout_ms]) /\
  (forall e,
     fst (SerialC.sys_poll (SerialC.os st) timeout_ms) = SerialC.PollFail e ->
     r = -1 /\ bs = [] /\ SerialC.sys_errno st' = e /\
     SerialC.calls st' = SerialC.calls st ++ [SerialC.SysPoll timeout_ms]) /\
  (fst (SerialC.sys_poll (SerialC.os st) timeout_ms)
   = SerialC.PollReady true ->
   SerialC.calls st'
   = SerialC.calls st ++ [SerialC.SysPoll timeout_ms; SerialC.SysRead n] /\
   match fst (SerialC.sys_read
                (snd (SerialC.sys_poll (SerialC.os st) timeout_ms)) n) with
   | inl got =>
       r = len got /\ bs = got /\
       SerialC.sys_errno st' = SerialC.sys_errno st
   | inr e => r = -1 /\ bs = [] /\ SerialC.sys_errno st' = e
   end) /\
  SerialC.os st'
  = SerialC.after_calls (SerialC.os st)
      (skipn (length (SerialC.calls st)) (SerialC.calls st')).
Proof.
  intros Hn E. unfold SerialC.serial_read_timeout in E.
  assert (Hskip : forall d : list SerialC.sys_event,
             skipn (length (SerialC.calls st)) (SerialC.calls st ++ d) = d).
  { intros d. rewrite skipn_app, skipn_all, Nat.sub_diag. reflexivity. }
  destruct (SerialC.sys_poll (SerialC.os st) timeout_ms)
    as [[e| |[|]] o1] eqn:Hp; cbn [fst snd].
  - inversion E; subst; cbn [SerialC.calls SerialC.sys_errno SerialC.os].
    rewrite Hskip.
    cbn [SerialC.after_calls SerialC.after_call]. rewrite Hp. cbn [snd].
    split; [left; auto|].
    split; [split; [intros [H0|[]]; discriminate|discriminate]|].
    split; [discriminate|]. split; [discriminate|].
    split; [intros e0 H0; inversion H0; subst; auto|].
    split; [discriminate|reflexivity].
  - inversion E; subst; cbn [SerialC.calls SerialC.sys_errno SerialC.os].
    rewrite Hskip.
    cbn [SerialC.after_calls SerialC.after_call]. rewrite Hp. cbn [snd].
    split; [right; left; auto|].
    split; [split; [intros [H0|[]]; discriminate|discriminate]|].
    split; [discriminate|]. split; [auto|].
    split; [discriminate|]. split; [discriminate|reflexivity].
  - destruct (SerialC.sys_read o1 n) as [[bs0|e] o2] eqn:Hr; cbn [fst].
    + pose proof (SerialC.sys_read_fits _ _ _ _ Hn Hr) as [Hl Hb].
      inversion E; subst; cbn [SerialC.calls SerialC.sys_errno SerialC.os].
      rewrite Hskip.
      cbn [SerialC.after_calls SerialC.after_call]. rewrite Hp. cbn [snd].
      rewrite Hr. cbn [snd].
      split.
      * pose proof (len_nonneg bs) as H0.
        destruct (Z.eq_dec (len bs) 0) as [Hz|Hz].
        -- right. left. split; [exact Hz|]. split; [|reflexivity].
           destruct bs; [reflexivity|]. rewrite len_cons in Hz.
           pose proof (len_nonneg bs). lia.
        -- right. right. repeat split; auto; lia.
      * split; [split; [reflexivity|intros _; right; now left]|].
        split; [discriminate|]. split; [discriminate|].
        split; [discriminate|]. split; [auto|reflexivity].
    + inversion E; subst; cbn [SerialC.calls SerialC.sys_errno SerialC.os].
      rewrite Hskip.
      cbn [SerialC.after_calls SerialC.after_call]. rewrite Hp. cbn [snd].
      rewrite Hr. cbn [snd].
      split; [left; auto|].
      split; [split; [reflexivity|intros _; right; now left]|].
      split; [discriminate|]. split; [discriminate|].
      split; [discriminate|]. split; [auto|reflexivity].
  - inversion E; subst; cbn [SerialC.calls SerialC.sys_errno SerialC.os].
    rewrite Hskip.
    cbn [SerialC.after_calls SerialC.after_call]. rewrite Hp. cbn [snd].
    split; [right; left; auto|].
    split; [split; [intros [H0|[]]; discriminate|discriminate]|].
    split; [auto|]. split; [discriminate|].
    split; [discriminate|]. split; [discriminate|reflexivity].
Qed.

(** Two instances: three bytes pending, two asked for; and nothing
    pending, where [poll] times out. *)
Lemma serial_read_timeout_contract_witness :
  0 <= 2 /\
  (exists st',
     SerialC.serial_read_timeout 2 20
       (SerialC.mkSys (mkTty 1 [] None [RxBytes [0xCC; 3; 0x40]])
                      (EOTHER 0) [])
     = ((2, [0xCC; 3]), st') /\
     SerialC.calls st' = [SerialC.SysPoll 20; SerialC.SysRead 2]) /\
  (exists r bs st',
     SerialC.serial_read_timeout 2 20
       (SerialC.mkSys (mkTty 1 [] None []) (EOTHER 0) [])
     = ((r, bs), st') /\
     r = 0 /\ bs = [] /\ SerialC.sys_errno st' = EOTHER 0 /\
     SerialC.calls st' = [SerialC.SysPoll 20]).
Proof.
  assert (Hn : 0 <= 2) by lia.
  split; [exact Hn|]. split.
  - assert (E : SerialC.serial_read_timeout 2 20
                  (SerialC.mkSys (mkTty 1 [] None [RxBytes [0xCC; 3; 0x40]])
                                 (EOTHER 0) [])
                = ((2, [0xCC; 3]),
                   SerialC.mkSys (mkTty 1 [] None [RxBytes [0x40]]) (EOTHER 0)
                                 [SerialC.SysPoll 20; SerialC.SysRead 2]))
      by (vm_compute; reflexivity).
    destruct (proj1 (serial_read_timeout_contract _ _ _ _ _ _ Hn E))
      as [(H1 & _) | [(H0 & _) | (_ & _ & _ & _ & Hc)]];
      [discriminate H1|discriminate H0|].
    eexists. split; [exact E|exact Hc].
  - assert (E : SerialC.serial_read_timeout 2 20
                  (SerialC.mkSys (mkTty 1 [] None []) (EOTHER 0) [])
                = ((0, []),
                   SerialC.mkSys (mkTty 1 [] None []) (EOTHER 0)
                                 [SerialC.SysPoll 20]))
      by (vm_compute; reflexivity).
    pose proof (serial_read_timeout_contract _ _ _ _ _ _ Hn E)
      as (_ & _ & _ & Ht & _).
    eexists _, _, _. split; [exact E|].
    apply Ht. vm_compute. reflexivity.
Defined.

(* ================================================================== *)
(** ** A command and its response, on a scripted device *)

Lemma read_exact_script (t : Z) (rest : list wire) (e : errno_t) :
  forall (more buf : list Z) (fuel : nat) (n : Z) (tr : list io_event),
    Forall is_byte more ->
    len buf + len more = n ->
    (length more < fuel)%nat ->
    read_exact_loop fuel buf n t (mkState (map Byte more ++ rest) e tr)
    = Ret (1, buf ++ more)
          (mkState rest e
                   (tr ++ map (fun k => EvRead k t) (countdown (length more)))).
Proof.
  induction more as [|b more IH]; intros buf fuel n tr Hb Hn Hf;
    (destruct fuel as [|fuel]; [cbn in Hf; lia|]); cbn [read_exact_loop].
  - change (len []) with 0 in Hn.
    replace (len buf <? n) with false by (symmetry; apply Z.ltb_ge; lia).
    cbn. now rewrite !app_nil_r.
  - rewrite len_cons in Hn. pose proof (len_nonneg more) as Hm.
    replace (len buf <? n) with true by (symmetry; apply Z.ltb_lt; lia).
    inversion Hb as [|? ? Hb1 Hb2]; subst.
    unfold bind at 1. unfold serial_read_timeout.
    cbn [dev errno trace map app tr_read script_transport].
    unfold script_read.
    replace (len buf + (len more + 1) - len buf <? 1) with false
      by (symmetry; apply Z.ltb_ge; lia).
    unfold is_byte in Hb1. rewrite (Z.mod_small b) by lia.
    change (len [b]) with 1. cbn [Z.ltb Z.eqb Z.compare Pos.eqb].
    rewrite (IH (buf ++ [b]) fuel (len buf + (len more + 1))); try assumption.
    + cbn [errno trace length countdown map].
      rewrite <- !app_assoc. cbn [app].
      replace (len buf + (len more + 1) - len buf)
        with (Z.of_nat (S (length more))) by (unfold len; lia).
      reflexivity.
    + rewrite len_app. change (len [b]) with 1. lia.
    + cbn in Hf. lia.
Qed.

Lemma wait_ack_script (t : Z) (w : list wire) (e : errno_t)
      (tr : list io_event) :
  1 <= t ->
  sbl_wait_ack t (mkState (Byte SBL_ACK :: w) e tr)
  = Ret 0 (mkState w e (tr ++ [EvRead 1 step_ms])).
Proof.
  intros Ht. unfold sbl_wait_ack. cbn [wait_ack_loop].
  replace (0 <? t) with true by (symmetry; apply Z.ltb_lt; lia).
  reflexivity.
Qed.

(** [sbl_send_cmd] against a device that acknowledges and sends one
    response frame, one byte per read. *)
Lemma sbl_send_cmd_script_run
        (data payload : list Z) (cs out_max t : Z)
        (rest : list wire) (e : errno_t) (tr : list io_event) :
  1 <= len data <= 253 ->
  1 <= len payload <= 253 -> len payload <= out_max ->
  Forall is_byte payload -> is_byte cs ->
  1 <= t ->
  let response := (len payload + 2) :: cs :: payload in
  let s := mkState (Byte SBL_ACK :: map Byte response ++ rest) e tr in
  let tr' := tr ++ exchange data t (length payload) in
  sbl_send_cmd data out_max t s
  = (if cs =? byte_sum payload mod 256
     then Ret (len payload, payload) (mkState rest e tr')
     else Ret (-1, payload) (mkState rest EPROTO tr')) /\
  (response = frame_of payload ->
   sbl_send_cmd data out_max t s
   = Ret (len payload, payload) (mkState rest e tr')).
Proof.
  intros Hd Hp Hmax Hb Hcs Ht response s tr'.
  assert (Hrun : sbl_send_cmd data out_max t s
                 = (if cs =? byte_sum payload mod 256
                    then Ret (len payload, payload) (mkState rest e tr')
                    else Ret (-1, payload) (mkState rest EPROTO tr'))).
  2:{ split; [exact Hrun|]. intros Hf. rewrite Hrun.
      unfold response, frame_of in Hf. inversion Hf as [Hc].
      rewrite <- Hc, Z.eqb_refl. reflexivity. }
  unfold sbl_send_cmd.
  replace ((len data =? 0) || (len data >? 253)) with false.
  2:{ symmetry. apply orb_false_iff.
      split; [apply Z.eqb_neq|rewrite Z.gtb_ltb; apply Z.ltb_ge]; lia. }
  cbv zeta.
  assert (Hframe : u8 (len data + 2) :: checksum_sum data :: data
                   = frame_of data).
  { unfold frame_of, u8. rewrite checksum_sum_mod.
    rewrite Z.mod_small by (change (2 ^ 8) with 256; lia). reflexivity. }
  rewrite Hframe.
  unfold bind at 1. unfold serial_write_all at 1.
  cbn [s dev errno trace tr_write script_transport script_write].
  replace (len (frame_of data) <? 0) with false
    by (symmetry; apply Z.ltb_ge; apply len_nonneg).
  unfold bind at 1. rewrite wait_ack_script by exact Ht.
  cbn [Z.eqb negb].
  replace (negb (out_max =? 0)) with true
    by (symmetry; apply negb_true_iff, Z.eqb_neq; lia).
  unfold read_response, response. cbn [map app].
  (* the size byte *)
  unfold bind at 1. unfold read_exact_timeout at 1.
  assert (Hsz : is_byte (len payload + 2)) by (unfold is_byte; lia).
  rewrite (read_exact_script 50 (Byte cs :: map Byte payload ++ rest) e
             [len payload + 2] [] (S (Z.to_nat 1)) 1);
    [|constructor; [exact Hsz|constructor]|reflexivity|cbn; lia].
  cbn [app nth length countdown map Z.of_nat Pos.of_succ_nat].
  replace ((1 >? 0) && negb (len payload + 2 =? 0)) with true.
  2:{ symmetry. apply andb_true_iff. split; [reflexivity|].
      apply negb_true_iff, Z.eqb_neq. lia. }
  (* the checksum byte *)
  unfold bind at 1. unfold read_exact_timeout at 1.
  rewrite (read_exact_script t (map Byte payload ++ rest) e
             [cs] [] (S (Z.to_nat 1)) 1);
    [|constructor; [exact Hcs|constructor]|reflexivity|cbn; lia].
  cbn [app nth length countdown map Z.of_nat Pos.of_succ_nat Z.leb Z.compare].
  replace (len payload + 2 - 2) with (len payload) by lia.
  assert (Hst : size_t (len payload) = len payload)
    by (unfold size_t; apply Z.mod_small; lia).
  rewrite Hst.
  replace (len payload >? out_max) with false
    by (symmetry; rewrite Z.gtb_ltb; apply Z.ltb_ge; lia).
  (* the payload *)
  unfold bind at 1. unfold read_exact_timeout at 1.
  rewrite (read_exact_script t rest e payload []
             (S (Z.to_nat (len payload))) (len payload));
    [|exact Hb|reflexivity|unfold len; lia].
  cbn [app Z.leb Z.compare].
  unfold bind at 1. unfold serial_write_all at 1.
  cbn [dev errno trace tr_write script_transport script_write].
  change (len [0; SBL_ACK] <? 0) with false. cbv iota.
  rewrite checksum_sum_mod.
  rewrite to_int_small by (change (2 ^ 31) with 2147483648; lia).
  assert (Htr : (((((tr ++ [EvWrite (frame_of data)]) ++ [EvRead 1 step_ms])
                    ++ [EvRead 1 50]) ++ [EvRead 1 t])
                  ++ map (fun k => EvRead k t) (countdown (length payload)))
                ++ [EvWrite [0; SBL_ACK]] = tr').
  { unfold tr', exchange. rewrite <- !app_assoc. reflexivity. }
  rewrite (Z.eqb_sym cs).
  destruct (byte_sum payload mod 256 =? cs); cbn [negb].
  - unfold ret. now rewrite Htr.
  - unfold bind, set_errno, ret. cbn [dev trace]. now rewrite Htr.
Qed.

(** X20.  On a device that acknowledges a command and sends a response
    frame with a payload of 1 to 253 bytes that fits the caller's buffer,
    one byte per read, [sbl_send_cmd] stores the payload and answers
    [0x00, 0xCC] before it compares the checksum: it then returns the
    payload length when the checksum byte is the sum of the payload modulo
    256, as in the frames [sbl_send_cmd] itself builds, and otherwise -1
    with [EPROTO], the mismatching response acknowledged all the same. *)
Theorem sbl_send_cmd_response_round_trip
        (data payload : list Z) (cs out_max t : Z)
        (rest : list wire) (e : errno_t) (tr : list io_event) :
  1 <= len data <= 253 ->
  1 <= len payload <= 253 -> len payload <= out_max ->
  Forall is_byte payload -> is_byte cs ->
  1 <= t ->
  let response := (len payload + 2) :: cs :: payload in
  let s := mkState (Byte SBL_ACK :: map Byte response ++ rest) e tr in
  let tr' := tr ++ exchange data t (length payload) in
  sbl_send_cmd data out_max t s
  = (if cs =? byte_sum payload mod 256
     then Ret (len payload, payload) (mkState rest e tr')
     else Ret (-1, payload) (mkState rest EPROTO tr')) /\
  (response = frame_of payload ->
   sbl_send_cmd data out_max t s
   = Ret (len payload, payload) (mkState rest e tr')).
Proof. apply sbl_send_cmd_script_run. Qed.

(** An instance: GET_STATUS answered with the status [0x40]. *)
Lemma sbl_send_cmd_response_round_trip_witness :
  (1 <= len [CMD_GET_STATUS] <= 253 /\
   1 <= len [COMMAND_RET_SUCCESS] <= 253 /\ len [COMMAND_RET_SUCCESS] <= 1 /\
   Forall is_byte [COMMAND_RET_SUCCESS] /\ is_byte 0x40 /\ 1 <= 500) /\
  sbl_send_cmd [CMD_GET_STATUS] 1 500
               (boot (dev_status COMMAND_RET_SUCCESS))
  = Ret (1, [COMMAND_RET_SUCCESS])
        (mkState [] (EOTHER 0)
                 [EvWrite [3; 0x23; 0x23];
                  EvRead 1 20; EvRead 1 50; EvRead 1 500; EvRead 1 500;
                  EvWrite [0; SBL_ACK]]).
Proof.
  assert (H1 : 1 <= len [CMD_GET_STATUS] <= 253) by (vm_compute; split; discriminate).
  assert (H2 : 1 <= len [COMMAND_RET_SUCCESS] <= 253)
    by (vm_compute; split; discriminate).
  assert (H3 : len [COMMAND_RET_SUCCESS] <= 1) by (vm_compute; discriminate).
  assert (H4 : Forall is_byte [COMMAND_RET_SUCCESS])
    by (constructor; [unfold is_byte, COMMAND_RET_SUCCESS; lia|constructor]).
  assert (H5 : is_byte 0x40) by (unfold is_byte; lia).
  assert (H6 : 1 <= 500) by lia.
  split; [repeat (split; [assumption|]); assumption|].
  exact (proj2 (sbl_send_cmd_response_round_trip
                  [CMD_GET_STATUS] [COMMAND_RET_SUCCESS] 0x40 1 500
                  [] (EOTHER 0) [] H1 H2 H3 H4 H5 H6) eq_refl).
Defined.

(* ================================================================== *)
(** ** What the callers of [sbl_send_cmd] make of its result *)

Section Callers.

Context {W : Type} {T : Transport W}.

(** [sbl_send_cmd] when the size byte of the response does not come. *)
Lemma sbl_send_cmd_no_response (data : list Z) (out_max t : Z) (s : state W)
      (w1 w3 : W) :
  1 <= len data <= 253 -> t <= TIMEOUT_MAX -> out_max <> 0 ->
  tr_write (dev s) (frame_of data) = (WrOk, w1) ->
  await (polls (slices t) w1) = Acked ->
  tr_read (after_polls (consumed (polls (slices t) w1)) w1) 1 50
  = (RdNone, w3) ->
  sbl_send_cmd data out_max t s
  = Ret (0, [])
        (mkState w3 (errno s)
                 (trace s ++ EvWrite (frame_of data)
                    :: repeat (EvRead 1 20) (consumed (polls (slices t) w1))
                    ++ [EvRead 1 50])).
Proof.
  intros Hl Ht Hom Hw Hack Hr.
  destruct (sbl_send_cmd_handshake data out_max t s Hl Ht) as [_ Ha].
  specialize (Ha w1 Hw). cbv zeta in Ha. rewrite Hack in Ha.
  cbn [verdict_result verdict_errno Z.eqb negb] in Ha.
  apply Z.eqb_neq in Hom. rewrite Hom in Ha. cbn [negb] in Ha.
  set (s2 := mkState (after_polls (consumed (polls (slices t) w1)) w1)
                     (errno s)
                     (trace s ++ EvWrite (frame_of data)
                        :: repeat (EvRead 1 step_ms)
                                  (consumed (polls (slices t) w1)))) in Ha.
  rewrite Ha. unfold read_response.
  rewrite (bind_run _ _ _ _ _ (read_exact_one_none 50 s2 w3 Hr)).
  cbn [nth Z.gtb Z.compare andb trace errno s2].
  rewrite <- app_assoc. reflexivity.
Qed.

End Callers.

Lemma be_value_four (b0 b1 b2 b3 : Z) :
  be_value [b0; b1; b2; b3] = b0 * 2 ^ 24 + b1 * 2 ^ 16 + b2 * 2 ^ 8 + b3.
Proof. unfold be_value. cbn [fold_left]. lia. Qed.

(** X6.  [sbl_crc32] returns 0 or -1.  It returns 0 only after a response
    of exactly four bytes, which it has acknowledged with [0x00, 0xCC], and
    the CRC it stores is then below 2^32; in every other case, a missing
    response included, it returns -1 and leaves [crc_out] as it was.  In
    terms of what [sbl_send_cmd] returned for the CRC32 frame: the result
    is 0 exactly when that is 4, the CRC being the four bytes stored read
    most significant first; a length of 0 to 3 gives -1 with [EPROTO].  On
    a device that acknowledges and sends a well-formed response of 1 to 4
    bytes, the result is 0 for 4 bytes and -1 with [EPROTO] for fewer. *)
Theorem sbl_crc32_needs_four_bytes {W : Type} {T : Transport W}
        (addr length repeat timeout_ms crc_out : Z) (s : state W) :
  timeout_ms <= TIMEOUT_MAX ->
  let msg :=
    CMD_CRC32 :: be_bytes addr ++ be_bytes length ++ be_bytes repeat in
  (exists n resp s0 r crc s' d,
      sbl_send_cmd msg 4 timeout_ms s = Ret (n, resp) s0 /\
      sbl_crc32 addr length repeat timeout_ms crc_out s = Ret (r, crc) s' /\
      trace s' = trace s ++ d /\
      (r = -1 /\ crc = crc_out \/
       r = 0 /\ 0 <= crc < 2 ^ 32 /\
       writes_of d = [frame_of msg; [0x00; SBL_ACK]]) /\
      dev s' = dev s0 /\ trace s' = trace s0 /\
      (r = 0 <-> n = 4) /\
      (n = 4 -> len resp = 4 /\ crc = be_value resp /\ errno s' = errno s0) /\
      (n < 0 -> errno s' = errno s0) /\
      (0 <= n -> n <> 4 -> errno s' = EPROTO)) /\
  (forall (payload : list Z) (rest : list wire) (e : errno_t)
          (tr : list io_event),
      1 <= timeout_ms -> 1 <= len payload <= 4 -> Forall is_byte payload ->
      let tr' := tr ++ exchange msg timeout_ms (List.length payload) in
      sbl_crc32 addr length repeat timeout_ms crc_out
                (mkState (Byte SBL_ACK :: map Byte (frame_of payload) ++ rest)
                         e tr)
      = if len payload =? 4
        then Ret (0, be_value payload) (mkState rest e tr')
        else Ret (-1, crc_out) (mkState rest EPROTO tr')).
Proof.
  intros Ht msg.
  assert (Hmsg : 1 <= len msg <= 253).
  { unfold msg. rewrite len_cons, !len_app, !len_be_bytes. lia. }
  split.
  - unfold sbl_crc32. fold msg.
    destruct (sbl_send_cmd_shape msg 4 timeout_ms s ltac:(lia) Ht)
      as (n & out & s0 & d & E & Htr & Hn).
    rewrite (bind_run _ _ _ _ _ E).
    destruct (n <? 0) eqn:Hneg.
    { apply Z.ltb_lt in Hneg.
      eexists n, out, s0, (-1), crc_out, s0, d. unfold ret.
      split; [exact E|]. split; [reflexivity|]. split; [exact Htr|].
      split; [now left|]. split; [reflexivity|]. split; [reflexivity|].
      split; [split; intros; lia|]. split; [intros; lia|].
      split; [reflexivity|intros; lia]. }
    apply Z.ltb_ge in Hneg.
    destruct (negb (n =? 4)) eqn:H4.
    { apply negb_true_iff, Z.eqb_neq in H4.
      eexists n, out, s0, (-1), crc_out, _, d. unfold bind, set_errno, ret.
      cbn [trace dev errno].
      split; [exact E|]. split; [reflexivity|]. split; [exact Htr|].
      split; [now left|]. split; [reflexivity|]. split; [reflexivity|].
      split; [split; intros; lia|]. split; [intros; lia|].
      split; [intros; lia|reflexivity]. }
    apply negb_false_iff, Z.eqb_eq in H4. subst n.
    destruct Hn as [Hn | [_ [(Hn & _) | (_ & _ & Hlo & Hb & Hw)]]]; try lia.
    destruct (four_bytes out Hlo Hb)
      as (b0 & b1 & b2 & b3 & -> & H0 & H1 & H2 & H3).
    cbn [nth]. rewrite decode_be by assumption.
    eexists 4, _, s0, 0, _, s0, d. unfold ret.
    split; [exact E|]. split; [reflexivity|]. split; [exact Htr|].
    split.
    { right. split; [reflexivity|]. split; [|exact Hw].
      unfold is_byte in *. lia. }
    split; [reflexivity|]. split; [reflexivity|].
    split; [split; reflexivity|].
    split; [intros _; split; [exact Hlo|]; split;
            [now rewrite be_value_four|reflexivity]|].
    split; [reflexivity|intros; lia].
  - intros payload rest e tr Ht1 Hp Hb tr'. unfold sbl_crc32. fold msg.
    assert (Hcs : is_byte (byte_sum payload mod 256))
      by (unfold is_byte; apply Z.mod_pos_bound; lia).
    pose proof (proj2 (sbl_send_cmd_script_run
                         msg payload (byte_sum payload mod 256) 4 timeout_ms
                         rest e tr Hmsg ltac:(lia) ltac:(lia) Hb Hcs Ht1)
                      eq_refl) as E.
    cbv zeta in E. fold tr' in E.
    change ((len payload + 2) :: byte_sum payload mod 256 :: payload)
      with (frame_of payload) in E.
    rewrite (bind_run _ _ _ _ _ E).
    replace (len payload <? 0) with false
      by (symmetry; apply Z.ltb_ge; lia).
    destruct (len payload =? 4) eqn:H4; cbn [negb].
    + apply Z.eqb_eq in H4.
      destruct (four_bytes payload H4 Hb)
        as (b0 & b1 & b2 & b3 & -> & H0 & H1 & H2 & H3).
      cbn [nth]. rewrite decode_be by assumption.
      now rewrite be_value_four.
    + reflexivity.
Qed.

(** An instance: the device acknowledges CRC32 and sends nothing; and a
    device that answers with two bytes. *)
Lemma sbl_crc32_needs_four_bytes_witness :
  1000 <= TIMEOUT_MAX /\
  sbl_crc32 0 0x1000 0 1000 77 (boot dev_ack)
  = Ret (-1, 77)
        (mkState [] EPROTO
           [EvWrite [15; 0x37; 0x27; 0; 0; 0; 0; 0; 0; 0x10; 0; 0; 0; 0; 0];
            EvRead 1 20; EvRead 1 50]) /\
  sbl_crc32 0 0x1000 0 1000 77
            (boot (Byte SBL_ACK :: map Byte (frame_of [1; 2]) ++ []))
  = Ret (-1, 77)
        (mkState [] EPROTO
           ([] ++ exchange
                    (CMD_CRC32 :: be_bytes 0 ++ be_bytes 0x1000 ++ be_bytes 0)
                    1000 2)).
Proof.
  assert (Ht : 1000 <= TIMEOUT_MAX) by timeout_ok.
  split; [exact Ht|]. split; [vm_compute; reflexivity|].
  assert (Hb : Forall is_byte [1; 2])
    by (repeat constructor; unfold is_byte; lia).
  exact (proj2 (sbl_crc32_needs_four_bytes 0 0x1000 0 1000 77
                  (boot dev_ack) Ht)
               [1; 2] [] (EOTHER 0) [] ltac:(lia)
               ltac:(vm_compute; split; discriminate) Hb).
Defined.

(** X7.  [sbl_get_status] and [sbl_get_chip_id] return 0 or -1, and 0
    even when no response arrived.  The variable they are given changes
    only to a value taken from a response that was acknowledged with
    [0x00, 0xCC]: a byte for the status, a value below 2^32 for the chip
    id; with -1 it never changes.  In terms of what [sbl_send_cmd]
    returned: the result is -1 exactly when that is negative; the variable
    takes the byte stored when it is 1 (the four bytes stored, least
    significant first, when it is 4, for the chip id) and keeps its value
    otherwise.  In particular, when the command is acknowledged and the
    read of the size byte then yields nothing, both return 0 and leave the
    variable as it was. *)
Theorem status_and_chip_id_outputs {W : Type} {T : Transport W}
        (timeout_ms old : Z) (s : state W) :
  timeout_ms <= TIMEOUT_MAX ->
  (exists n resp r st s' d,
      sbl_send_cmd [CMD_GET_STATUS] 1 timeout_ms s = Ret (n, resp) s' /\
      sbl_get_status timeout_ms old s = Ret (r, st) s' /\
      trace s' = trace s ++ d /\
      (r = 0 \/ r = -1) /\
      (r = -1 -> st = old) /\
      (st <> old ->
       is_byte st /\
       writes_of d = [frame_of [CMD_GET_STATUS]; [0x00; SBL_ACK]]) /\
      (r = -1 <-> n < 0) /\
      (n = 1 -> st = nth 0 resp 0) /\
      (n <> 1 -> st = old)) /\
  (exists n resp r id s' d,
      sbl_send_cmd [CMD_GET_CHIP_ID] 4 timeout_ms s = Ret (n, resp) s' /\
      sbl_get_chip_id timeout_ms old s = Ret (r, id) s' /\
      trace s' = trace s ++ d /\
      (r = 0 \/ r = -1) /\
      (r = -1 -> id = old) /\
      (id <> old ->
       0 <= id < 2 ^ 32 /\
       writes_of d = [frame_of [CMD_GET_CHIP_ID]; [0x00; SBL_ACK]]) /\
      (r = -1 <-> n < 0) /\
      (n = 4 -> len resp = 4 /\ id = be_value (rev resp)) /\
      (n <> 4 -> id = old)) /\
  (forall w1 w3,
      tr_write (dev s) (frame_of [CMD_GET_STATUS]) = (WrOk, w1) ->
      await (polls (slices timeout_ms) w1) = Acked ->
      tr_read (after_polls (consumed (polls (slices timeout_ms) w1)) w1) 1 50
      = (RdNone, w3) ->
      exists s', sbl_get_status timeout_ms old s = Ret (0, old) s' /\
                 dev s' = w3 /\ errno s' = errno s) /\
  (forall w1 w3,
      tr_write (dev s) (frame_of [CMD_GET_CHIP_ID]) = (WrOk, w1) ->
      await (polls (slices timeout_ms) w1) = Acked ->
      tr_read (after_polls (consumed (polls (slices timeout_ms) w1)) w1) 1 50
      = (RdNone, w3) ->
      exists s', sbl_get_chip_id timeout_ms old s = Ret (0, old) s' /\
                 dev s' = w3 /\ errno s' = errno s).
Proof.
  intros Ht. split; [|split; [|split]].
  - unfold sbl_get_status.
    destruct (sbl_send_cmd_shape [CMD_GET_STATUS] 1 timeout_ms s ltac:(lia) Ht)
      as (n & out & s' & d & E & Htr & Hn).
    rewrite (bind_run _ _ _ _ _ E).
    destruct (n <? 0) eqn:Hneg.
    { apply Z.ltb_lt in Hneg.
      eexists n, out, (-1), old, s', d. unfold ret.
      split; [exact E|]. split; [reflexivity|]. split; [exact Htr|].
      split; [now right|]. split; [reflexivity|]. split; [congruence|].
      split; [split; intros; [exact Hneg|reflexivity]|].
      split; [intros; lia|reflexivity]. }
    apply Z.ltb_ge in Hneg.
    destruct (n =? 1) eqn:H1.
    2:{ apply Z.eqb_neq in H1.
        eexists n, out, 0, old, s', d. unfold ret.
        split; [exact E|]. split; [reflexivity|]. split; [exact Htr|].
        split; [now left|]. split; [discriminate|]. split; [congruence|].
        split; [split; intros; [discriminate|lia]|].
        split; [intros; lia|reflexivity]. }
    apply Z.eqb_eq in H1. subst n.
    destruct Hn as [Hn | [_ [(Hn & _) | (_ & _ & Hlo & Hb & Hw)]]]; try lia.
    destruct (len_one out Hlo) as [b ->]. cbn [nth].
    eexists 1, [b], 0, b, s', d. unfold ret.
    split; [exact E|]. split; [reflexivity|]. split; [exact Htr|].
    split; [now left|]. split; [discriminate|].
    split; [intros _; split; [now inversion Hb|exact Hw]|].
    split; [split; intros; [discriminate|lia]|].
    split; [reflexivity|intros; lia].
  - unfold sbl_get_chip_id.
    destruct (sbl_send_cmd_shape [CMD_GET_CHIP_ID] 4 timeout_ms s ltac:(lia) Ht)
      as (n & out & s' & d & E & Htr & Hn).
    rewrite (bind_run _ _ _ _ _ E).
    destruct (n <? 0) eqn:Hneg.
    { apply Z.ltb_lt in Hneg.
      eexists n, out, (-1), old, s', d. unfold ret.
      split; [exact E|]. split; [reflexivity|]. split; [exact Htr|].
      split; [now right|]. split; [reflexivity|]. split; [congruence|].
      split; [split; intros; [exact Hneg|reflexivity]|].
      split; [intros; lia|reflexivity]. }
    apply Z.ltb_ge in Hneg.
    destruct (n =? 4) eqn:H4.
    2:{ apply Z.eqb_neq in H4.
        eexists n, out, 0, old, s', d. unfold ret.
        split; [exact E|]. split; [reflexivity|]. split; [exact Htr|].
        split; [now left|]. split; [discriminate|]. split; [congruence|].
        split; [split; intros; [discriminate|lia]|].
        split; [intros; lia|reflexivity]. }
    apply Z.eqb_eq in H4. subst n.
    destruct Hn as [Hn | [_ [(Hn & _) | (_ & _ & Hlo & Hb & Hw)]]]; try lia.
    destruct (four_bytes out Hlo Hb)
      as (b0 & b1 & b2 & b3 & -> & H0 & H1 & H2 & H3).
    cbn [nth]. rewrite decode_le by assumption.
    eexists 4, _, 0, _, s', d. unfold ret.
    split; [exact E|]. split; [reflexivity|]. split; [exact Htr|].
    split; [now left|]. split; [discriminate|].
    split; [intros _; split; [unfold is_byte in *; lia|exact Hw]|].
    split; [split; intros; [discriminate|lia]|].
    split; [|intros; lia].
    intros _. split; [exact Hlo|]. cbn [rev app]. rewrite be_value_four. lia.
  - intros w1 w3 Hw Hack Hr. unfold sbl_get_status.
    rewrite (bind_run _ _ _ _ _
               (sbl_send_cmd_no_response [CMD_GET_STATUS] 1 timeout_ms s w1 w3
                  ltac:(change (len [CMD_GET_STATUS]) with 1; lia) Ht
                  ltac:(lia) Hw Hack Hr)).
    cbn [Z.ltb Z.eqb Z.compare]. unfold ret.
    eexists. split; [reflexivity|]. auto.
  - intros w1 w3 Hw Hack Hr. unfold sbl_get_chip_id.
    rewrite (bind_run _ _ _ _ _
               (sbl_send_cmd_no_response [CMD_GET_CHIP_ID] 4 timeout_ms s w1 w3
                  ltac:(change (len [CMD_GET_CHIP_ID]) with 1; lia) Ht
                  ltac:(lia) Hw Hack Hr)).
    cbn [Z.ltb Z.eqb Z.compare]. unfold ret.
    eexists. split; [reflexivity|]. auto.
Qed.

(** An instance: the device acknowledges and sends nothing. *)
Lemma status_and_chip_id_outputs_witness :
  500 <= TIMEOUT_MAX /\
  sbl_get_status 500 0xFF (boot dev_ack)
  = Ret (0, 0xFF)
        (mkState [] (EOTHER 0)
                 [EvWrite [3; 0x23; 0x23]; EvRead 1 20; EvRead 1 50]) /\
  (exists s', sbl_get_status 500 0xFF (boot dev_ack) = Ret (0, 0xFF) s' /\
              dev s' = [] /\ errno s' = EOTHER 0) /\
  (exists s', sbl_get_chip_id 500 0xFF (boot dev_ack) = Ret (0, 0xFF) s' /\
              dev s' = [] /\ errno s' = EOTHER 0).
Proof.
  assert (Ht : 500 <= TIMEOUT_MAX) by timeout_ok.
  split; [exact Ht|]. split; [vm_compute; reflexivity|].
  pose proof (status_and_chip_id_outputs 500 0xFF (boot dev_ack) Ht)
    as (_ & _ & Hs & Hc).
  split.
  - apply (Hs dev_ack []); reflexivity.
  - apply (Hc dev_ack []); reflexivity.
Defined.

(* ================================================================== *)
(** ** [serial_open_configure] *)

Lemma u32_bits (x n : Z) :
  0 <= n -> Z.testbit (u32 x) n = (n <? 32) && Z.testbit x n.
Proof.
  intros Hn. unfold u32. destruct (n <? 32) eqn:Hlt.
  - apply Z.ltb_lt in Hlt. rewrite Z.mod_pow2_bits_low by lia. reflexivity.
  - apply Z.ltb_ge in Hlt. rewrite Z.mod_pow2_bits_high by lia. reflexivity.
Qed.

Lemma is_u32_bits (x n : Z) :
  is_u32 x -> 0 <= n -> Z.testbit x n = (n <? 32) && Z.testbit x n.
Proof.
  intros Hx Hn. rewrite <- u32_bits by assumption.
  unfold u32. unfold is_u32 in Hx. now rewrite Z.mod_small.
Qed.

Lemma clear_bits_spec (x m n : Z) :
  is_u32 x -> 0 <= n ->
  Z.testbit (Termios.clear_bits x m) n = Z.testbit x n && negb (Z.testbit m n).
Proof.
  intros Hx Hn. unfold Termios.clear_bits.
  rewrite Z.land_spec, u32_bits, Z.lnot_spec by assumption.
  rewrite (is_u32_bits x n Hx Hn).
  destruct (n <? 32), (Z.testbit x n), (Z.testbit m n); reflexivity.
Qed.

Lemma set_bits_spec (x m n : Z) :
  is_u32 x -> 0 <= n ->
  Z.testbit (Termios.set_bits x m) n
  = Z.testbit x n || ((n <? 32) && Z.testbit m n).
Proof.
  intros Hx Hn. unfold Termios.set_bits.
  now rewrite Z.lor_spec, u32_bits.
Qed.

Lemma is_u32_clear_bits (x m : Z) :
  is_u32 x -> is_u32 (Termios.clear_bits x m).
Proof.
  intros Hx. unfold Termios.clear_bits, u32.
  rewrite <- Z.land_ones, Z.land_assoc, Z.land_ones by lia.
  unfold is_u32. apply Z.mod_pos_bound. lia.
Qed.

Lemma is_u32_set_bits (x m : Z) :
  is_u32 x -> is_u32 (Termios.set_bits x m).
Proof.
  intros Hx. unfold Termios.set_bits.
  assert (Hx' : x = u32 x)
    by (unfold u32; unfold is_u32 in Hx; now rewrite Z.mod_small).
  rewrite Hx'. unfold u32. rewrite <- !Z.land_ones by lia.
  rewrite <- Z.land_lor_distr_l, Z.land_ones by lia.
  unfold is_u32. apply Z.mod_pos_bound. lia.
Qed.

(** Bit [n] of both sides of an equation between masks, as a premise. *)
Ltac bit_of H n :=
  let Hb := fresh "Hb" in
  pose proof (f_equal (fun z => Z.testbit z n) H) as Hb;
  cbv beta in Hb;
  rewrite ?Z.land_spec, ?Z.lor_spec, ?Z.bits_0 in Hb;
  revert Hb.

(** Case analysis on every bit in sight. *)
Ltac blast_bits n :=
  rewrite ?Z.land_spec, ?Z.lor_spec, ?Z.bits_0;
  repeat match goal with
         | |- context [Z.testbit ?x n] => destruct (Z.testbit x n)
         | |- context [n <? 32] => destruct (n <? 32)
         end;
  cbn; intros; try reflexivity; try discriminate; try congruence.

Section RawMode.

Import Termios.

Context {MC : Macros} {V : Type}.

Lemma raw_8n1_iflag (tio : termios V) (n : Z) :
  is_u32 (c_iflag tio) -> 0 <= n ->
  Z.testbit (c_iflag (raw_8n1 tio)) n
  = Z.testbit (c_iflag tio) n && negb (Z.testbit input_mask n).
Proof.
  intros Hi Hn. unfold raw_8n1, input_mask. cbn [c_iflag].
  rewrite !clear_bits_spec; auto using is_u32_clear_bits.
  blast_bits n.
Qed.

Lemma raw_8n1_oflag (tio : termios V) (n : Z) :
  is_u32 (c_oflag tio) -> 0 <= n ->
  Z.testbit (c_oflag (raw_8n1 tio)) n
  = Z.testbit (c_oflag tio) n && negb (Z.testbit OPOST n).
Proof.
  intros Ho Hn. unfold raw_8n1. cbn [c_oflag]. now apply clear_bits_spec.
Qed.

Lemma raw_8n1_lflag (tio : termios V) (n : Z) :
  is_u32 (c_lflag tio) -> 0 <= n ->
  Z.testbit (c_lflag (raw_8n1 tio)) n
  = Z.testbit (c_lflag tio) n && negb (Z.testbit local_mask n).
Proof.
  intros Hl Hn. unfold raw_8n1, local_mask. cbn [c_lflag].
  now apply clear_bits_spec.
Qed.

Lemma raw_8n1_cflag (tio : termios V) (n : Z) :
  is_u32 (c_cflag tio) -> 0 <= n ->
  Z.testbit (c_cflag (raw_8n1 tio)) n
  = (Z.testbit (c_cflag tio) n
     && negb (Z.testbit (Z.lor CSIZE control_off) n))
    || ((n <? 32) && Z.testbit (Z.lor CS8 control_on) n).
Proof.
  intros Hc Hn. unfold raw_8n1, control_off, control_on, hw_flow.
  cbn [c_cflag].
  rewrite set_bits_spec, clear_bits_spec, set_bits_spec, clear_bits_spec;
    auto using is_u32_clear_bits, is_u32_set_bits.
  destruct CRTSCTS as [crtscts|]; blast_bits n.
Qed.

Lemma raw_8n1_flags_u32 (tio : termios V) :
  flags_u32 tio -> flags_u32 (raw_8n1 tio).
Proof.
  intros (Hi & Ho & Hc & Hl). unfold flags_u32, raw_8n1.
  cbn [c_iflag c_oflag c_cflag c_lflag].
  split; [|split; [|split]];
    auto 10 using is_u32_clear_bits, is_u32_set_bits.
Qed.

End RawMode.

Section OpenRuns.

Import Termios.

Context {MC : Macros} {K V : Type} {OS : Os K V}.

Lemma close_fail_result (o : K) (fd : Z) (e : errno_t)
      (cs : list (os_event V)) (r : Z) (st' : os_state K V) :
  close_fail o fd e cs = (r, st') ->
  r = -1 /\ os_calls st' = cs ++ [OsClose fd].
Proof.
  unfold close_fail. destruct (os_close o fd) as [ce o'].
  intros H. inversion H; subst. cbn [os_calls]. auto.
Qed.

Lemma report_close_fail_result (p : perror_prefix) (o : K) (fd : Z)
      (e : errno_t) (cs : list (os_event V)) (r : Z) (st' : os_state K V) :
  report_close_fail p o fd e cs = (r, st') ->
  r = -1 /\ os_calls st' = cs ++ [OsStderr (Perror p e); OsClose fd].
Proof.
  unfold report_close_fail. cbv zeta.
  destruct (os_stderr o (Perror p e)) as [pe o'].
  intros H. apply close_fail_result in H. destruct H as [-> Hc].
  rewrite Hc, <- app_assoc. auto.
Qed.

Lemma baud_to_speed_t_table (baud : Z) :
  baud_to_speed_t baud <> 0 ->
  In baud supported_bauds /\ baud_to_speed_t baud = B baud.
Proof.
  unfold baud_to_speed_t.
  destruct (existsb (Z.eqb baud) supported_bauds) eqn:Hex; [|congruence].
  intros _. apply existsb_exists in Hex. destruct Hex as (b & Hin & Hb).
  apply Z.eqb_eq in Hb. subst b. auto.
Qed.

(** A call that returns a descriptor made the four calls of the
    straight path, and [tcsetattr] succeeded. *)
Lemma serial_open_configure_success (baud : Z) (st st' : os_state K V)
      (fd : Z) :
  serial_open_configure baud st = (fd, st') -> 0 <= fd ->
  exists o1 o2 o3 tio0 tio1 tio2,
    os_open (world st) = (inl fd, o1) /\
    os_tcgetattr o1 fd = (inl tio0, o2) /\
    In baud supported_bauds /\ B baud <> 0 /\
    cfsetispeed (raw_8n1 tio0) (B baud) = inl tio1 /\
    cfsetospeed tio1 (B baud) = inl tio2 /\
    os_tcsetattr o2 fd tio2 = (None, o3) /\
    world st' = snd (os_tcflush o3 fd) /\
    os_calls st'
    = os_calls st ++ [OsOpen; OsGetattr fd; OsSetattr fd tio2; OsFlush fd].
Proof.
  intros E Hfd. unfold serial_open_configure in E.
  destruct (os_open (world st)) as [[fd0|e] o1] eqn:Hopen.
  2:{ cbv zeta in E. destruct (os_stderr o1 (Perror AtOpen e)) as [pe o2].
      inversion E; subst. lia. }
  cbv zeta in E.
  destruct (os_tcgetattr o1 fd0) as [[tio0|e] o2] eqn:Hget.
  2:{ apply report_close_fail_result in E. lia. }
  destruct (baud_to_speed_t baud =? 0) eqn:Hspd.
  { destruct (os_stderr o2 (UnsupportedBaud baud)) as [pe o3].
    destruct (os_close o3 fd0) as [ce o4]. inversion E; subst. lia. }
  apply Z.eqb_neq in Hspd.
  destruct (baud_to_speed_t_table baud Hspd) as [Hin HB].
  rewrite HB in E, Hspd.
  destruct (cfsetispeed (raw_8n1 tio0) (B baud)) as [tio1|e] eqn:Hin1.
  2:{ apply report_close_fail_result in E. lia. }
  destruct (cfsetospeed tio1 (B baud)) as [tio2|e] eqn:Hout.
  2:{ apply report_close_fail_result in E. lia. }
  destruct (os_tcsetattr o2 fd0 tio2) as [[e|] o3] eqn:Hset.
  { apply report_close_fail_result in E. lia. }
  destruct (os_tcflush o3 fd0) as [fe o4] eqn:Hfl. inversion E; subst.
  cbn [os_calls world].
  exists o1, o2, o3, tio0, tio1, tio2. rewrite Hfl, <- app_assoc.
  repeat split; auto.
Qed.

End OpenRuns.

(** X21.  The settings a successful [serial_open_configure] hands to
    [tcsetattr] are the 8N1 raw mode its header promises, whatever the
    terminal was set to, given what POSIX says of the macros ([CS8] is a
    value of the [CSIZE] field, and none of the bits set is one of the bits
    cleared) and given that [cfsetispeed] and [cfsetospeed] keep the rate
    in bits of their own, [imask] of [c_iflag] and [cmask] of [c_cflag]:
    eight data bits, no parity, one stop bit, receiver on and modem lines
    ignored; no break, parity-mark, strip, CR/NL translation or software
    flow control on input; no output processing; no echo, canonical mode,
    signals or extensions; [VMIN] and [VTIME] 0.  Every other bit of the
    four flag words, the bits of the rate apart, stays as [tcgetattr] gave
    it.  Hardware flow control is switched off only where the headers
    define [CRTSCTS]; where they do not, that bit is one of those left as
    [tcgetattr] gave it. *)
Theorem serial_open_configure_settings
        {MC : Termios.Macros} {K V : Type} {OS : Termios.Os K V}
        (imask cmask baud : Z) (st st' : Termios.os_state K V) (fd : Z) :
  is_u32 Termios.CS8 -> is_u32 Termios.control_on ->
  Z.land Termios.CS8 Termios.CSIZE = Termios.CS8 ->
  Z.land Termios.control_on Termios.CSIZE = 0 ->
  Z.land (Z.lor Termios.CS8 Termios.control_on) Termios.control_off = 0 ->
  Termios.keeps_outside imask cmask Termios.cfsetispeed ->
  Termios.keeps_outside imask cmask Termios.cfsetospeed ->
  Z.land imask Termios.input_mask = 0 ->
  Z.land cmask Termios.control_mask = 0 ->
  (forall o d tio o',
      Termios.os_tcgetattr o d = (inl tio, o') -> Termios.flags_u32 tio) ->
  Termios.serial_open_configure baud st = (fd, st') -> 0 <= fd ->
  exists o1 o2 tio0 t,
    Termios.os_open (Termios.world st) = (inl fd, o1) /\
    Termios.os_tcgetattr o1 fd = (inl tio0, o2) /\
    Termios.os_calls st'
    = Termios.os_calls st
        ++ [Termios.OsOpen; Termios.OsGetattr fd; Termios.OsSetattr fd t;
            Termios.OsFlush fd] /\
    Z.land (Termios.c_cflag t) Termios.CSIZE = Termios.CS8 /\
    Z.land (Termios.c_cflag t) Termios.control_off = 0 /\
    Z.land (Termios.c_cflag t) Termios.control_on = Termios.control_on /\
    Z.land (Termios.c_iflag t) Termios.input_mask = 0 /\
    Z.land (Termios.c_oflag t) Termios.OPOST = 0 /\
    Z.land (Termios.c_lflag t) Termios.local_mask = 0 /\
    Termios.c_vmin t = 0 /\ Termios.c_vtime t = 0 /\
    (forall n, 0 <= n ->
       (Z.testbit (Z.lor Termios.input_mask imask) n = false ->
        Z.testbit (Termios.c_iflag t) n
        = Z.testbit (Termios.c_iflag tio0) n) /\
       (Z.testbit Termios.OPOST n = false ->
        Z.testbit (Termios.c_oflag t) n
        = Z.testbit (Termios.c_oflag tio0) n) /\
       (Z.testbit Termios.local_mask n = false ->
        Z.testbit (Termios.c_lflag t) n
        = Z.testbit (Termios.c_lflag tio0) n) /\
       (Z.testbit (Z.lor Termios.control_mask cmask) n = false ->
        Z.testbit (Termios.c_cflag t) n
        = Z.testbit (Termios.c_cflag tio0) n)) /\
    (Termios.CRTSCTS = None ->
     forall n, 0 <= n ->
       Z.testbit
         (Z.lor cmask
            (Z.lor Termios.CSIZE
               (Z.lor Termios.PARENB
                  (Z.lor Termios.CSTOPB
                     (Z.lor Termios.CLOCAL Termios.CREAD))))) n = false ->
       Z.testbit (Termios.c_cflag t) n
       = Z.testbit (Termios.c_cflag tio0) n).
Proof.
  intros H8 Hon Hsz Hdis Hoff Ki Ko Him Hcm Hget32 E Hfd.
  destruct (serial_open_configure_success baud st st' fd E Hfd)
    as (o1 & o2 & o3 & tio0 & tio1 & t & Hopen & Hget & _ & _ & Hin1 & Hout
        & _ & _ & Hcalls).
  exists o1, o2, tio0, t.
  split; [exact Hopen|]. split; [exact Hget|]. split; [exact Hcalls|].
  pose proof (Hget32 _ _ _ _ Hget) as H0.
  pose proof (raw_8n1_flags_u32 tio0 H0) as Hr.
  destruct H0 as (Hi0 & Ho0 & Hc0 & Hl0).
  destruct (Ki _ _ _ Hr Hin1) as (H1 & Eo1 & El1 & Em1 & Et1 & Hb1).
  destruct (Ko _ _ _ H1 Hout) as (_ & Eo2 & El2 & Em2 & Et2 & Hb2).
  assert (Bi : forall n, 0 <= n -> Z.testbit imask n = false ->
             Z.testbit (Termios.c_iflag t) n
             = Z.testbit (Termios.c_iflag tio0) n
               && negb (Z.testbit Termios.input_mask n)).
  { intros n Hn Hm. rewrite (proj1 (Hb2 n Hn) Hm), (proj1 (Hb1 n Hn) Hm).
    now apply raw_8n1_iflag. }
  assert (Bc : forall n, 0 <= n -> Z.testbit cmask n = false ->
             Z.testbit (Termios.c_cflag t) n
             = (Z.testbit (Termios.c_cflag tio0) n
                && negb (Z.testbit (Z.lor Termios.CSIZE Termios.control_off)
                                   n))
               || ((n <? 32)
                   && Z.testbit (Z.lor Termios.CS8 Termios.control_on) n)).
  { intros n Hn Hm. rewrite (proj2 (Hb2 n Hn) Hm), (proj2 (Hb1 n Hn) Hm).
    now apply raw_8n1_cflag. }
  assert (Bo : forall n, 0 <= n ->
             Z.testbit (Termios.c_oflag t) n
             = Z.testbit (Termios.c_oflag tio0) n
               && negb (Z.testbit Termios.OPOST n)).
  { intros n Hn. rewrite Eo2, Eo1. now apply raw_8n1_oflag. }
  assert (Bl : forall n, 0 <= n ->
             Z.testbit (Termios.c_lflag t) n
             = Z.testbit (Termios.c_lflag tio0) n
               && negb (Z.testbit Termios.local_mask n)).
  { intros n Hn. rewrite El2, El1. now apply raw_8n1_lflag. }
  assert (B8 : forall n, 0 <= n ->
             Z.testbit Termios.CS8 n = (n <? 32) && Z.testbit Termios.CS8 n)
    by (intros n Hn; now apply is_u32_bits).
  assert (Bon : forall n, 0 <= n ->
             Z.testbit Termios.control_on n
             = (n <? 32) && Z.testbit Termios.control_on n)
    by (intros n Hn; now apply is_u32_bits).
  unfold Termios.control_mask in Hcm.
  split.
  { apply Z.bits_inj'. intros n Hn. rewrite Z.land_spec.
    destruct (Z.testbit cmask n) eqn:Hm.
    - bit_of Hcm n. rewrite Hm. bit_of Hsz n. blast_bits n.
    - rewrite (Bc n Hn Hm).
      bit_of Hsz n. bit_of Hdis n. generalize (B8 n Hn) (Bon n Hn).
      blast_bits n. }
  split.
  { apply Z.bits_inj'. intros n Hn. rewrite Z.land_spec.
    destruct (Z.testbit cmask n) eqn:Hm.
    - bit_of Hcm n. rewrite Hm. blast_bits n.
    - rewrite (Bc n Hn Hm). bit_of Hoff n. blast_bits n. }
  split.
  { apply Z.bits_inj'. intros n Hn. rewrite Z.land_spec.
    destruct (Z.testbit cmask n) eqn:Hm.
    - bit_of Hcm n. rewrite Hm. blast_bits n.
    - rewrite (Bc n Hn Hm). generalize (Bon n Hn). blast_bits n. }
  split.
  { apply Z.bits_inj'. intros n Hn. rewrite Z.land_spec.
    destruct (Z.testbit imask n) eqn:Hm.
    - bit_of Him n. rewrite Hm. blast_bits n.
    - rewrite (Bi n Hn Hm). blast_bits n. }
  split.
  { apply Z.bits_inj'. intros n Hn. rewrite Z.land_spec, (Bo n Hn).
    blast_bits n. }
  split.
  { apply Z.bits_inj'. intros n Hn. rewrite Z.land_spec, (Bl n Hn).
    blast_bits n. }
  split; [rewrite Em2, Em1; reflexivity|].
  split; [rewrite Et2, Et1; reflexivity|].
  split.
  { intros n Hn. repeat split.
    - rewrite Z.lor_spec. intros Hm. apply orb_false_iff in Hm.
      destruct Hm as [Hm1 Hm2]. rewrite (Bi n Hn Hm2), Hm1.
      apply andb_true_r.
    - intros Hm. rewrite (Bo n Hn), Hm. apply andb_true_r.
    - intros Hm. rewrite (Bl n Hn), Hm. apply andb_true_r.
    - rewrite Z.lor_spec. intros Hm. apply orb_false_iff in Hm.
      destruct Hm as [Hm1 Hm2]. rewrite (Bc n Hn Hm2).
      revert Hm1. unfold Termios.control_mask. blast_bits n. }
  intros Hnone n Hn. rewrite Z.lor_spec. intros Hm.
  apply orb_false_iff in Hm. destruct Hm as [Hm2 Hm1].
  rewrite (Bc n Hn Hm2). revert Hm1. bit_of Hsz n.
  unfold Termios.control_off, Termios.control_on, Termios.hw_flow.
  rewrite Hnone. blast_bits n.
Qed.

Section LinuxRaw.

Import Termios.

Lemma glibc_speed_bits (spd : Z) :
  bad_speed spd = false -> Z.land spd (u32 (Z.lnot CBAUD)) = 0.
Proof.
  unfold bad_speed. intros H. apply andb_false_iff in H.
  destruct H as [H|H].
  - apply negb_false_iff, Z.eqb_eq in H. exact H.
  - apply orb_false_iff in H. destruct H as [Hlo Hhi].
    apply Z.ltb_ge in Hlo, Hhi. unfold B57600, MAX_BAUD in *.
    assert (Hk : forall k : nat, (k < 15)%nat ->
               Z.land (4097 + Z.of_nat k) (u32 (Z.lnot CBAUD)) = 0).
    { intros k Hk. do 15 (destruct k as [|k]; [reflexivity|]). lia. }
    replace spd with (4097 + Z.of_nat (Z.to_nat (spd - 4097))) by lia.
    apply Hk. lia.
Qed.

Lemma glibc_speed_bit (spd n : Z) :
  bad_speed spd = false -> 0 <= n -> Z.testbit CBAUD n = false ->
  (n <? 32) && Z.testbit spd n = false.
Proof.
  intros Hs Hn Hm. pose proof (glibc_speed_bits spd Hs) as H.
  pose proof (f_equal (fun z => Z.testbit z n) H) as Hb. cbv beta in Hb.
  rewrite Z.land_spec, u32_bits, Z.lnot_spec, Z.bits_0, Hm in Hb by assumption.
  destruct (n <? 32), (Z.testbit spd n); auto.
Qed.

Lemma glibc_cfsetispeed_keeps : keeps_outside IBAUD0 CBAUD cfsetispeed.
Proof.
  intros tio spd tio' (Hi & Ho & Hc & Hl) E.
  cbn [cfsetispeed script_os] in E. unfold glibc_cfsetispeed in E.
  destruct (bad_speed spd) eqn:Hs; [discriminate|].
  destruct (spd =? 0); inversion E; subst; clear E; unfold flags_u32;
    cbn [c_iflag c_oflag c_cflag c_lflag c_vmin c_vtime].
  - split; [split; [|split; [|split]]; auto using is_u32_set_bits|].
    do 4 (split; [reflexivity|]). intros n Hn. split; [|reflexivity].
    intros Hm. rewrite set_bits_spec, Hm by assumption.
    now rewrite andb_false_r, orb_false_r.
  - split; [split; [|split; [|split]];
             auto using is_u32_set_bits, is_u32_clear_bits|].
    do 4 (split; [reflexivity|]). intros n Hn. split.
    + intros Hm. rewrite clear_bits_spec, Hm by assumption.
      apply andb_true_r.
    + intros Hm.
      rewrite set_bits_spec, clear_bits_spec, Hm
        by auto using is_u32_clear_bits.
      rewrite (glibc_speed_bit spd n Hs Hn Hm).
      now rewrite andb_true_r, orb_false_r.
Qed.

Lemma glibc_cfsetospeed_keeps : keeps_outside IBAUD0 CBAUD cfsetospeed.
Proof.
  intros tio spd tio' (Hi & Ho & Hc & Hl) E.
  cbn [cfsetospeed script_os] in E. unfold glibc_cfsetospeed in E.
  destruct (bad_speed spd) eqn:Hs; [discriminate|].
  inversion E; subst; clear E; unfold flags_u32;
    cbn [c_iflag c_oflag c_cflag c_lflag c_vmin c_vtime].
  split; [split; [|split; [|split]];
           auto using is_u32_set_bits, is_u32_clear_bits|].
  do 4 (split; [reflexivity|]). intros n Hn. split; [reflexivity|].
  intros Hm.
  rewrite set_bits_spec, clear_bits_spec, Hm by auto using is_u32_clear_bits.
  rewrite (glibc_speed_bit spd n Hs Hn Hm).
  now rewrite andb_true_r, orb_false_r.
Qed.

Lemma script_tcgetattr_u32 (o : list (option errno_t)) (d : Z)
      (tio : termios (Z * Z)) (o' : list (option errno_t)) :
  os_tcgetattr o d = (inl tio, o') -> flags_u32 tio.
Proof.
  cbn [os_tcgetattr script_os].
  destruct (next_outcome o) as [[e|] o1]; intros H; inversion H; subst.
  unfold flags_u32, is_u32. cbn. lia.
Qed.

(** An instance: the macros and the speed functions of glibc on Linux,
    which hides [CRTSCTS] from this file, and a terminal at 38400 with
    hardware flow control on: it is opened at 115200 8N1 with hardware
    flow control still on. *)
Lemma serial_open_configure_settings_witness :
  let st := mkOs [] (EOTHER 0) [] in
  let t := mkTermios 0 0x4 0x800018B2 0xA30 0 0 (4098, 4098) in
  let st' := mkOs [] (EOTHER 0)
               [OsOpen; OsGetattr 3; OsSetattr 3 t; OsFlush 3] in
  (is_u32 CS8 /\ is_u32 control_on /\
   Z.land CS8 CSIZE = CS8 /\
   Z.land control_on CSIZE = 0 /\
   Z.land (Z.lor CS8 control_on) control_off = 0 /\
   keeps_outside IBAUD0 CBAUD cfsetispeed /\
   keeps_outside IBAUD0 CBAUD cfsetospeed /\
   Z.land IBAUD0 input_mask = 0 /\
   Z.land CBAUD control_mask = 0 /\
   serial_open_configure 115200 st = (3, st') /\ 0 <= 3) /\
  CRTSCTS = None /\
  c_cflag tty0 = 0x800000BF /\
  exists o1 o2 tio0 t',
    os_open (world st) = (inl 3, o1) /\
    os_tcgetattr o1 3 = (inl tio0, o2) /\
    os_calls st'
    = os_calls st ++ [OsOpen; OsGetattr 3; OsSetattr 3 t'; OsFlush 3] /\
    Z.land (c_cflag t') CSIZE = CS8 /\
    Z.land (c_cflag t') control_off = 0 /\
    Z.land (c_cflag t') control_on = control_on.
Proof.
  intros st t st'.
  assert (H1 : is_u32 CS8)
    by (vm_compute; split; [discriminate|reflexivity]).
  assert (H2 : is_u32 control_on)
    by (vm_compute; split; [discriminate|reflexivity]).
  assert (H3 : Z.land CS8 CSIZE = CS8) by reflexivity.
  assert (H4 : Z.land control_on CSIZE = 0) by reflexivity.
  assert (H5 : Z.land (Z.lor CS8 control_on) control_off = 0)
    by reflexivity.
  assert (H6 : Z.land IBAUD0 input_mask = 0) by reflexivity.
  assert (H7 : Z.land CBAUD control_mask = 0) by reflexivity.
  assert (E : serial_open_configure 115200 st = (3, st'))
    by (vm_compute; reflexivity).
  assert (Hfd : 0 <= 3) by lia.
  split.
  { repeat (split; [assumption|]).
    split; [exact glibc_cfsetispeed_keeps|].
    split; [exact glibc_cfsetospeed_keeps|].
    repeat (split; [assumption|]). exact Hfd. }
  split; [reflexivity|]. split; [reflexivity|].
  destruct (serial_open_configure_settings IBAUD0 CBAUD 115200 st st' 3
              H1 H2 H3 H4 H5 glibc_cfsetispeed_keeps glibc_cfsetospeed_keeps
              H6 H7 script_tcgetattr_u32 E Hfd)
    as (o1 & o2 & tio0 & t' & Ho & Hg & Hc & Hs1 & Hs2 & Hs3 & _).
  exists o1, o2, tio0, t'. auto 10.
Defined.

End LinuxRaw.
(** X22.  [serial_open_configure] never leaves the descriptor open when it
    fails.  A call ends in one of three ways: [open] failed, and after the
    [perror] about it nothing else was called; or -1 after [open],
    [tcgetattr], possibly [tcsetattr], a message on [stderr] and then
    [close] of the descriptor that [open] gave, as the last call; or that
    descriptor itself, not negative, after [open], [tcgetattr], a
    [tcsetattr] that succeeded, with the raw settings at the rate asked
    for, and [tcflush], with no [close].  A rate outside the table is
    rejected only after the port has been opened and its settings read:
    when both succeeded the call writes its line about the rate, closes
    the port and leaves [EINVAL]. *)
Theorem serial_open_configure_closes_on_failure
        {MC : Termios.Macros} {K V : Type} {OS : Termios.Os K V}
        (baud : Z) (st st' : Termios.os_state K V) (r : Z) :
  Termios.serial_open_configure baud st = (r, st') ->
  exists d,
    Termios.os_calls st' = Termios.os_calls st ++ d /\
    ((exists e o1,
         Termios.os_open (Termios.world st) = (inr e, o1) /\
         r = -1 /\
         d = [Termios.OsOpen;
              Termios.OsStderr (Termios.Perror Termios.AtOpen e)]) \/
     (exists fd o1 mid m,
         Termios.os_open (Termios.world st) = (inl fd, o1) /\
         r = -1 /\ 0 <= fd /\
         d = [Termios.OsOpen; Termios.OsGetattr fd] ++ mid
               ++ [Termios.OsStderr m; Termios.OsClose fd] /\
         (mid = [] \/ exists tio, mid = [Termios.OsSetattr fd tio])) \/
     (exists fd o1 o2 o3 tio0 tio1 tio2,
         r = fd /\ 0 <= fd /\
         Termios.os_open (Termios.world st) = (inl fd, o1) /\
         Termios.os_tcgetattr o1 fd = (inl tio0, o2) /\
         In baud Termios.supported_bauds /\ Termios.B baud <> 0 /\
         Termios.cfsetispeed (Termios.raw_8n1 tio0) (Termios.B baud)
         = inl tio1 /\
         Termios.cfsetospeed tio1 (Termios.B baud) = inl tio2 /\
         Termios.os_tcsetattr o2 fd tio2 = (None, o3) /\
         d = [Termios.OsOpen; Termios.OsGetattr fd;
              Termios.OsSetattr fd tio2; Termios.OsFlush fd])) /\
    (~ In baud Termios.supported_bauds ->
     r = -1 /\
     match Termios.os_open (Termios.world st) with
     | (inr e, _) =>
         d = [Termios.OsOpen;
              Termios.OsStderr (Termios.Perror Termios.AtOpen e)]
     | (inl fd, o1) =>
         match Termios.os_tcgetattr o1 fd with
         | (inr e, _) =>
             d = [Termios.OsOpen; Termios.OsGetattr fd;
                  Termios.OsStderr (Termios.Perror Termios.AtTcgetattr e);
                  Termios.OsClose fd]
         | (inl _, _) =>
             d = [Termios.OsOpen; Termios.OsGetattr fd;
                  Termios.OsStderr (Termios.UnsupportedBaud baud);
                  Termios.OsClose fd] /\
             Termios.os_errno st' = EINVAL
         end
     end).
Proof.
  intros E. unfold Termios.serial_open_configure in E.
  destruct (Termios.os_open (Termios.world st)) as [[fd|e] o1] eqn:Hopen.
  2:{ cbv zeta in E.
      destruct (Termios.os_stderr o1 (Termios.Perror Termios.AtOpen e))
        as [pe o2].
      inversion E; subst. cbn [Termios.os_calls].
      exists [Termios.OsOpen;
              Termios.OsStderr (Termios.Perror Termios.AtOpen e)].
      split; [reflexivity|]. split; [|auto].
      left. exists e, o1. auto. }
  pose proof (Termios.os_open_fd _ _ _ Hopen) as Hfd.
  cbv zeta in E.
  destruct (Termios.os_tcgetattr o1 fd) as [[tio0|e] o2] eqn:Hget.
  2:{ apply report_close_fail_result in E. destruct E as (-> & Hc).
      exists ([Termios.OsOpen; Termios.OsGetattr fd] ++ []
                ++ [Termios.OsStderr (Termios.Perror Termios.AtTcgetattr e);
                    Termios.OsClose fd]).
      split; [rewrite Hc, <- !app_assoc; reflexivity|]. split; [|auto].
      right. left. exists fd, o1, [], (Termios.Perror Termios.AtTcgetattr e).
      auto 10. }
  destruct (Termios.baud_to_speed_t baud =? 0) eqn:Hspd.
  { destruct (Termios.os_stderr o2 (Termios.UnsupportedBaud baud))
      as [pe o3].
    destruct (Termios.os_close o3 fd) as [ce o4]. inversion E; subst.
    cbn [Termios.os_calls Termios.os_errno].
    exists ([Termios.OsOpen; Termios.OsGetattr fd] ++ []
              ++ [Termios.OsStderr (Termios.UnsupportedBaud baud);
                  Termios.OsClose fd]).
    split; [rewrite <- !app_assoc; reflexivity|]. split; [|auto].
    right. left. exists fd, o1, [], (Termios.UnsupportedBaud baud).
    auto 10. }
  apply Z.eqb_neq in Hspd.
  destruct (baud_to_speed_t_table baud Hspd) as [Hin HB].
  rewrite HB in E, Hspd.
  destruct (Termios.cfsetispeed (Termios.raw_8n1 tio0) (Termios.B baud))
    as [tio1|e] eqn:Hin1.
  2:{ apply report_close_fail_result in E. destruct E as (-> & Hc).
      exists ([Termios.OsOpen; Termios.OsGetattr fd] ++ []
                ++ [Termios.OsStderr (Termios.Perror Termios.AtCfsetspeed e);
                    Termios.OsClose fd]).
      split; [rewrite Hc, <- !app_assoc; reflexivity|].
      split; [|intros Hn; contradiction].
      right. left.
      exists fd, o1, [], (Termios.Perror Termios.AtCfsetspeed e). auto 10. }
  destruct (Termios.cfsetospeed tio1 (Termios.B baud)) as [tio2|e] eqn:Hout.
  2:{ apply report_close_fail_result in E. destruct E as (-> & Hc).
      exists ([Termios.OsOpen; Termios.OsGetattr fd] ++ []
                ++ [Termios.OsStderr (Termios.Perror Termios.AtCfsetspeed e);
                    Termios.OsClose fd]).
      split; [rewrite Hc, <- !app_assoc; reflexivity|].
      split; [|intros Hn; contradiction].
      right. left.
      exists fd, o1, [], (Termios.Perror Termios.AtCfsetspeed e). auto 10. }
  destruct (Termios.os_tcsetattr o2 fd tio2) as [[e|] o3] eqn:Hset.
  { apply report_close_fail_result in E. destruct E as (-> & Hc).
    exists ([Termios.OsOpen; Termios.OsGetattr fd]
              ++ [Termios.OsSetattr fd tio2]
              ++ [Termios.OsStderr (Termios.Perror Termios.AtTcsetattr e);
                  Termios.OsClose fd]).
    split; [rewrite Hc, <- !app_assoc; reflexivity|].
    split; [|intros Hn; contradiction].
    right. left.
    exists fd, o1, [Termios.OsSetattr fd tio2],
           (Termios.Perror Termios.AtTcsetattr e).
    repeat (split; [auto; fail|]). right. now exists tio2. }
  destruct (Termios.os_tcflush o3 fd) as [fe o4]. inversion E; subst.
  cbn [Termios.os_calls].
  exists [Termios.OsOpen; Termios.OsGetattr r; Termios.OsSetattr r tio2;
          Termios.OsFlush r].
  split; [rewrite <- app_assoc; reflexivity|].
  split; [|intros Hn; contradiction].
  right. right. exists r, o1, o2, o3, tio0, tio1, tio2. repeat split; auto.
Qed.

Section LinuxOpen.

Import Termios.

(** Two instances.  On a system where [tcsetattr] fails the descriptor is
    closed again, and [errno] is what [perror] left.  At a rate outside
    the table the port is opened, read, and closed again with
    [EINVAL]. *)
Lemma serial_open_configure_closes_on_failure_witness :
  let st := mkOs [None; None; Some (EOTHER 5); Some (EOTHER 9)]
                 (EOTHER 0) [] in
  let tio := mkTermios 0 0x4 0x800018B2 0xA30 0 0 (4098, 4098) in
  let st' := mkOs [] (EOTHER 9)
               [OsOpen; OsGetattr 3; OsSetattr 3 tio;
                OsStderr (Perror AtTcsetattr (EOTHER 5)); OsClose 3] in
  let st0 := mkOs [] (EOTHER 0) [] in
  let st1 := mkOs [] EINVAL
               [OsOpen; OsGetattr 3; OsStderr (UnsupportedBaud 12345);
                OsClose 3] in
  (serial_open_configure 115200 st = (-1, st') /\
   exists d mid m,
     os_calls st' = os_calls st ++ d /\
     d = [OsOpen; OsGetattr 3] ++ mid ++ [OsStderr m; OsClose 3]) /\
  (serial_open_configure 12345 st0 = (-1, st1) /\
   ~ In 12345 supported_bauds /\
   os_errno st1 = EINVAL).
Proof.
  intros st tio st' st0 st1. split.
  - assert (E : serial_open_configure 115200 st = (-1, st'))
      by (vm_compute; reflexivity).
    split; [exact E|].
    destruct (serial_open_configure_closes_on_failure 115200 st st' (-1) E)
      as (d & Hc & [(e & o1 & Ho & _) | [Hd | Hd]] & _).
    + vm_compute in Ho. discriminate Ho.
    + destruct Hd as (fd & o1 & mid & m & Ho & _ & _ & Hd & _).
      vm_compute in Ho. inversion Ho; subst fd.
      exists d, mid, m. split; [exact Hc|exact Hd].
    + destruct Hd as (fd & o1 & o2 & o3 & tio0 & tio1 & tio2 & Hr & Hfd & _).
      lia.
  - assert (E : serial_open_configure 12345 st0 = (-1, st1))
      by (vm_compute; reflexivity).
    assert (Hn : ~ In 12345 supported_bauds).
    { cbn. intros H. repeat (destruct H as [H|H]; [discriminate H|]).
      exact H. }
    split; [exact E|]. split; [exact Hn|].
    destruct (serial_open_configure_closes_on_failure 12345 st0 st1 (-1) E)
      as (d & _ & _ & Hu).
    destruct (Hu Hn) as (_ & Hm). vm_compute in Hm. exact (proj2 Hm).
Defined.

End LinuxOpen.

(** X23.  [serial_write_byte] returns -1, 0 or 1.  It returns 1 exactly
    when [write] took the byte and the [tcdrain] after it succeeded, and 0,
    which [serial.h] does not mention, when [write] took nothing and
    [tcdrain] succeeded.  A failed [write] gives -1 at once, with no
    [tcdrain] and no second attempt, also when the error is [EINTR]. *)
Theorem serial_write_byte_result {K : Type} {P : SerialC.Posix K}
        (b : Z) (st st' : SerialC.sys_state K) (r : Z) :
  SerialC.serial_write_byte b st = (r, st') ->
  (r = -1 \/ r = 0 \/ r = 1) /\
  (0 <= r ->
   SerialC.calls st'
   = SerialC.calls st ++ [SerialC.SysWrite [b] r; SerialC.SysDrain] /\
   SerialC.sys_errno st' = SerialC.sys_errno st) /\
  (forall e o1,
      SerialC.sys_write (SerialC.os st) [b] = (inr e, o1) ->
      r = -1 /\
      st' = SerialC.mkSys o1 e
              (SerialC.calls st ++ [SerialC.SysWrite [b] (-1)])).
Proof.
  intros E. unfold SerialC.serial_write_byte in E.
  destruct (SerialC.sys_write (SerialC.os st) [b]) as [[n|e] o1] eqn:Hw.
  - pose proof (SerialC.sys_write_fits _ _ _ _ Hw) as Hn.
    change (len [b]) with 1 in Hn.
    assert (Hi : to_int n = n)
      by (apply to_int_small; change (2 ^ 31) with 2147483648; lia).
    destruct (SerialC.sys_tcdrain o1) as [[e|] o2]; inversion E; subst.
    + split; [auto|]. split; [lia|]. intros e0 o0 H0. discriminate.
    + rewrite Hi. cbn [SerialC.calls SerialC.sys_errno].
      split; [lia|]. split; [auto|]. intros e0 o0 H0. discriminate.
  - inversion E; subst. split; [auto|]. split; [lia|].
    intros e0 o0 H0. inversion H0; subst. auto.
Qed.

(** An instance: a terminal that accepts nothing. *)
Lemma serial_write_byte_result_witness :
  let st := SerialC.mkSys (mkTty 0 [] None []) (EOTHER 0) [] in
  let st' := SerialC.mkSys (mkTty 0 [] None []) (EOTHER 0)
               [SerialC.SysWrite [0x55] 0; SerialC.SysDrain] in
  SerialC.serial_write_byte 0x55 st = (0, st') /\
  (0 = -1 \/ 0 = 0 \/ 0 = 1).
Proof.
  intros st st'.
  assert (E : SerialC.serial_write_byte 0x55 st = (0, st'))
    by (vm_compute; reflexivity).
  split; [exact E|].
  exact (proj1 (serial_write_byte_result 0x55 st st' 0 E)).
Defined.
